(** * Shoe-store backend: order workflow, order status engine and cart

    A shallow embedding of the request handlers of
    [controllers/ordersController.js], the pre-save hook of
    [models/ordersModel.js], the handlers of the cart controller, the
    middleware [isAdmin] and the handler that sets the stock of a product,
    followed by the properties of the specification checked against them
    and by further properties of the handlers.

    Modelling conventions.
    - A string is the sequence of the bytes of its UTF-8 encoding.
    - A request body is a JSON value ([JsVal]); the JavaScript operators the
      handlers apply to it (truthiness, property access, [ToString],
      [parseInt], [===], [Array.prototype.includes]) are written out.
    - A JavaScript [Number] that holds money is an exact rational ([Q]);
      rounding of IEEE doubles is not modelled.  Stock levels and parsed
      quantities are integers ([Z]); [NaN] is explicit ([Num]).
    - A collection of the document store is the list of its documents; a
      handler maps the store to a new store and a response.
    - [session.withTransaction] runs its callback on the current store and
      keeps the callback's writes only if the callback returns; a thrown
      error discards them.
    - What the libraries decide and the sources do not show (how a Number
      prints, which values [ObjectId.isValid] accepts and which of them the
      ODM casts, how the arrays of the ODM compare, what the ODM casts to a
      string) is a parameter ([Platform]); what the store may do on its own
      (a conditional update that matches nothing, a write that fails) is a
      parameter ([Env]). *)

From Stdlib Require Import ZArith QArith Qabs Qround List String Ascii Bool Lia.
From Stdlib Require Import DecimalString.
From Stdlib Require Import Permutation Sorted.
Import ListNotations.

Local Open Scope string_scope.
Local Open Scope Z_scope.

(* ===================================================================== *)
(** ** Strings *)

Module Str.

  (** [s.includes(sub)]. *)
Fixpoint includes (s sub : string) : bool :=
    match s with
    | EmptyString => String.prefix sub EmptyString
    | String _ r => String.prefix sub s || includes r sub
    end.

  (** White space and line terminators, which [trim] removes and
      [parseInt] skips.  In ASCII: tab, line feed, vertical tab, form feed,
      carriage return, space. *)
Definition isWhite (c : ascii) : bool :=
    let n := N_of_ascii c in
    ((9 <=? n)%N && (n <=? 13)%N) || (n =? 32)%N.

  (** Outside of ASCII, by the bytes of UTF-8: two bytes for U+00A0; three
      bytes for U+1680, U+2000 to U+200A, U+2028, U+2029, U+202F, U+205F,
      U+3000 and U+FEFF. *)
Definition isWhite2 (a b : ascii) : bool :=
    ((N_of_ascii a =? 194) && (N_of_ascii b =? 160))%N.

Definition isWhite3 (a b c : ascii) : bool :=
    let x := N_of_ascii a in
    let y := N_of_ascii b in
    let z := N_of_ascii c in
    (((x =? 225) && (y =? 154) && (z =? 128))
     || ((x =? 226) && (y =? 128)
         && (((128 <=? z) && (z <=? 138)) || (z =? 168) || (z =? 169)
             || (z =? 175)))
     || ((x =? 226) && (y =? 129) && (z =? 159))
     || ((x =? 227) && (y =? 128) && (z =? 128))
     || ((x =? 239) && (y =? 187) && (z =? 191)))%N.

  (** The string without the white space it starts with; the tests say
      which one, two and three bytes are white space. *)
Fixpoint skipWhite (w1 : ascii -> bool) (w2 : ascii -> ascii -> bool)
      (w3 : ascii -> ascii -> ascii -> bool) (s : string) : string :=
    match s with
    | EmptyString => EmptyString
    | String a r =>
        if w1 a then skipWhite w1 w2 w3 r
        else
          match r with
          | EmptyString => s
          | String b r2 =>
              if w2 a b then skipWhite w1 w2 w3 r2
              else
                match r2 with
                | EmptyString => s
                | String c r3 =>
                    if w3 a b c then skipWhite w1 w2 w3 r3 else s
                end
          end
    end.

Fixpoint reverseOnto (s acc : string) : string :=
    match s with
    | EmptyString => acc
    | String c r => reverseOnto r (String c acc)
    end.

Definition reverse (s : string) : string := reverseOnto s EmptyString.

Definition trimStart (s : string) : string :=
    skipWhite isWhite isWhite2 isWhite3 s.

  (** From the end the bytes of a character come last byte first. *)
Definition trimEnd (s : string) : string :=
    reverse
      (skipWhite isWhite (fun b a => isWhite2 a b)
         (fun c b a => isWhite3 a b c) (reverse s)).

Definition trim (s : string) : string := trimEnd (trimStart s).

  (** [s.replace(/[<>]/g, '')]. *)
Fixpoint stripAngles (s : string) : string :=
    match s with
    | EmptyString => EmptyString
    | String c r =>
        if (Ascii.eqb c "<" || Ascii.eqb c ">")%bool then stripAngles r
        else String c (stripAngles r)
    end.

  (** Decimal digits of an integer, as a template literal prints it. *)
Definition ofZ (z : Z) : string := NilZero.string_of_int (Z.to_int z).

End Str.

(* ===================================================================== *)
(** ** JavaScript values *)

(** The values [JSON.parse] produces, and [undefined] for an absent
    property.  An object is the list of its own properties, one binding per
    key. *)
#[local] Unset Elimination Schemes.
Inductive JsVal : Type :=
| JUndefined
| JNull
| JBool (b : bool)
| JNum (q : Q)
| JStr (s : string)
| JArr (elems : list JsVal)
| JObj (fields : list (string * JsVal)).
#[local] Set Elimination Schemes.

(** The result of [parseInt]. *)
Inductive Num : Type :=
| NaN
| Fin (z : Z).

(** A computation that returns or throws [new Error(msg)]. *)
Inductive Result (A : Type) : Type :=
| Ok (a : A)
| Throw (msg : string).
Arguments Ok {A} a.
Arguments Throw {A} msg.

(** What the sources leave to the runtime and to the ODM library. *)
Class Platform : Type := {
  (** [Number::toString] on a finite Number. *)
  Number_toString : Q -> string;
  (** [mongoose.Types.ObjectId.isValid]. *)
  ObjectId_isValid : JsVal -> bool;
  (** The hexadecimal string of the ObjectId a valid value is cast to. *)
  ObjectId_hex : JsVal -> string;
  (** The message of the [CastError] that rejects a query by [_id] when
      the ODM does not cast the value to an ObjectId; [None] when it casts
      it.  [ObjectId.isValid] accepts values that are not cast, a Number
      such as 5 for one. *)
  ObjectId_castError : JsVal -> option string;
  (** [sizes.includes(v)] on the array of a loaded document, which the ODM
      compares with [==]; [None] when a comparison throws a [TypeError] (a
      value that cannot be converted to a primitive). *)
  MongooseArray_includes : list JsVal -> JsVal -> option bool;
  (** The cast of a value to the schema type String; [Throw m] when the
      ODM refuses it, [m] being the text that the validation error of
      [save] has for the path. *)
  String_cast : JsVal -> Result string
}.

Module Js.

  (** [!!v]. *)
Definition truthy (v : JsVal) : bool :=
    match v with
    | JUndefined | JNull => false
    | JBool b => b
    | JNum q => negb (Qeq_bool q 0)
    | JStr s => negb (String.eqb s EmptyString)
    | JArr _ | JObj _ => true
    end.

Fixpoint lookup (k : string) (fs : list (string * JsVal)) : option JsVal :=
    match fs with
    | [] => None
    | (k', v) :: r => if String.eqb k k' then Some v else lookup k r
    end.

  (** [v.k] for a key that [Object.prototype], [Array.prototype] and the
      wrappers of the primitives do not define: [None] is the [TypeError] of
      reading a property of [undefined] or [null]. *)
Definition prop (k : string) (v : JsVal) : option JsVal :=
    match v with
    | JUndefined | JNull => None
    | JObj fs => Some (match lookup k fs with Some x => x | None => JUndefined end)
    | _ => Some JUndefined
    end.

Definition isArray (v : JsVal) : bool :=
    match v with JArr _ => true | _ => false end.

  (** [a === b], also the [SameValueZero] of [includes] (no [NaN] among
      these values).  Objects and arrays are compared by identity, and a
      value parsed from a request is never identical to a stored one. *)
Definition strictEq (a b : JsVal) : bool :=
    match a, b with
    | JUndefined, JUndefined => true
    | JNull, JNull => true
    | JBool x, JBool y => Bool.eqb x y
    | JNum x, JNum y => Qeq_bool x y
    | JStr x, JStr y => String.eqb x y
    | _, _ => false
    end.

  (** [arr.includes(v)] on an array of the language. *)
Definition arrIncludes (arr : list JsVal) (v : JsVal) : bool :=
    existsb (fun x => strictEq x v) arr.

Section Conversions.
Context `{Platform}.

    (** [ToString(v)]; [None] is the [TypeError] "Cannot convert object to
        primitive value".  A parsed object has no callable property of its
        own, so its conversion goes to [Object.prototype.toString] unless an
        own property named [toString] shadows it, and then it throws
        ([Object.prototype.valueOf] returns the object itself).  An array
        joins the strings of its elements with commas. *)
Fixpoint toStr (v : JsVal) : option string :=
      match v with
      | JUndefined => Some "undefined"
      | JNull => Some "null"
      | JBool true => Some "true"
      | JBool false => Some "false"
      | JNum q => Some (Number_toString q)
      | JStr s => Some s
      | JArr l =>
          (fix join (first : bool) (l : list JsVal) : option string :=
             match l with
             | [] => Some EmptyString
             | x :: r =>
                 let sx := match x with
                           | JUndefined | JNull => Some EmptyString
                           | _ => toStr x
                           end in
                 match sx, join false r with
                 | Some a, Some b => Some ((if first then EmptyString else ",") ++ a ++ b)
                 | _, _ => None
                 end
             end) true l
      | JObj fs =>
          match lookup "toString" fs with
          | Some _ => None
          | None => Some "[object Object]"
          end
      end.

    (** Whether [n - v] throws for a Number [n]: [ToNumber(v)] converts an
        object or an array to a primitive first, as [toStr] does. *)
Definition toNumberThrows (v : JsVal) : bool :=
      match toStr v with Some _ => false | None => true end.

End Conversions.

  (** The value of a digit in the given radix. *)
Definition digitVal (radix : Z) (c : ascii) : option Z :=
    let n := Z.of_N (N_of_ascii c) in
    let d := if (48 <=? n) && (n <=? 57) then n - 48
             else if (97 <=? n) && (n <=? 122) then n - 87
             else if (65 <=? n) && (n <=? 90) then n - 55
             else radix in
    if d <? radix then Some d else None.

  (** The longest prefix of digits, read in the radix; [None] when the
      string does not start with a digit. *)
Fixpoint digits (radix : Z) (s : string) (acc : option Z) : option Z :=
    match s with
    | EmptyString => acc
    | String c r =>
        match digitVal radix c with
        | Some d =>
            digits radix r
              (Some (radix * (match acc with Some a => a | None => 0 end) + d))
        | None => acc
        end
    end.

  (** [parseInt(s)] on a string, no radix given. *)
Definition parseIntStr (s : string) : Num :=
    let s1 := Str.trimStart s in
    let '(sign, s2) := match s1 with
                       | String "-" r => (-1, r)
                       | String "+" r => (1, r)
                       | _ => (1, s1)
                       end in
    let '(radix, s3) := match s2 with
                        | String "0" (String "x" r) => (16, r)
                        | String "0" (String "X" r) => (16, r)
                        | _ => (10, s2)
                        end in
    match digits radix s3 None with
    | Some n => Fin (sign * n)
    | None => NaN
    end.

  (** [parseInt(v)]: the argument is converted to a string first; [None]
      when that conversion throws. *)
Definition parseInt `{Platform} (v : JsVal) : option Num :=
    option_map parseIntStr (toStr v).

  (** [a <= b], [a > b], [a < b] on Numbers: false when one side is [NaN]. *)
Definition leb (a : Num) (b : Z) : bool :=
    match a with Fin x => x <=? b | NaN => false end.
Definition gtb (a : Num) (b : Z) : bool :=
    match a with Fin x => b <? x | NaN => false end.
Definition ltb_l (a : Z) (b : Num) : bool :=
    match b with Fin y => a <? y | NaN => false end.

End Js.


(* ===================================================================== *)
(** ** Documents *)

(** The enumeration of [order_status] in the order schema. *)
Inductive Status : Type :=
| Pending
| Processing
| Shipped
| Delivered
| Cancelled.

(** [models/productsModel.js]; [quantity] is the stock level, which the
    product handlers only ever set to a non-negative integer. *)
Module Product.
Record t : Type := mk {
  _id : string;
  name : string;
  quantity : Z;
  sizes : list JsVal;
  price : Q
}.
End Product.

(** [models/ordersModel.js]. *)
Module Order.
Record Line : Type := mkLine {
  product_id : string;
  quantity : Z;
  size : string;
  price : Q
}.
Record t : Type := mk {
  _id : string;
  user_id : string;
  products : list Line;
  subtotal : Q;
  shipping : Q;
  total_amount : Q;
  order_status : Status
}.
(** [order.order_status = s]. *)
Definition setStatus (s : Status) (o : t) : t :=
  mk (_id o) (user_id o) (products o) (subtotal o) (shipping o)
    (total_amount o) s.
End Order.

(** [models/cartModel.js].  The quantity of a line is a Number the handler
    computes, so it can be [NaN] until [save] validates it. *)
Module Cart.
Record Item : Type := mkItem {
  product : string;
  quantity : Num;
  size : string;
  price : Q
}.
Record t : Type := mk {
  user : string;
  items : list Item;
  total : Q
}.
End Cart.

(** A cart as [populateCartItems] shows it: every line whose product is
    still in the catalog, with the name, the current price and the sizes of
    the product beside it (the image is not part of [Product.t]). *)
Module CartView.
Record ProductInfo : Type := mkInfo {
  id : string;
  name : string;
  price : Q;
  availableSizes : list JsVal
}.
Record Item : Type := mkItem {
  line : Cart.Item;
  product : ProductInfo
}.
Record t : Type := mk {
  user : string;
  items : list Item;
  total : Q
}.
End CartView.

(** The three collections. *)
Module Db.
Record t : Type := mk {
  products : list Product.t;
  orders : list Order.t;
  carts : list Cart.t
}.
Definition setProducts (ps : list Product.t) (db : t) : t :=
  mk ps (orders db) (carts db).
Definition setOrders (os : list Order.t) (db : t) : t :=
  mk (products db) os (carts db).
Definition setCarts (cs : list Cart.t) (db : t) : t :=
  mk (products db) (orders db) cs.
End Db.

(** What the store and the driver decide during one placement. *)
Record Env : Type := mkEnv {
  (** the conditional stock update of the line at this index matches no
      document although the stock read before was sufficient *)
  lost_race : nat -> bool;
  (** persisting the new order fails with this message *)
  save_fault : option string;
  (** clearing the cart fails with this message *)
  cart_fault : option string;
  (** the identifier generated for the new order *)
  fresh_id : string
}.

(** The authenticated user that [isAuth] attaches to a request. *)
Module User.
Record t : Type := mk {
  id : string;
  role : string
}.
End User.

(** A response: [res.status(code).json(body)]. *)
Inductive Body : Type :=
| Message (m : string)
| OrderDoc (o : Order.t)
| CartDoc (v : CartView.t)
| Deleted (m : string) (o : Order.t).

Record Response : Type := mkResp {
  status : Z;
  body : Body
}.

(* ===================================================================== *)
(** ** Errors and transactions *)

Definition bind {A B : Type} (r : Result A) (k : A -> Result B) : Result B :=
  match r with
  | Ok a => k a
  | Throw m => Throw m
  end.

Notation "x <- r ;; k" := (bind r (fun x => k))
  (at level 61, r at next level, right associativity).
Notation "' p <- r ;; k" := (bind r (fun p => k))
  (at level 61, p pattern, r at next level, right associativity).

(** [session.withTransaction(callback)]: the writes of the callback, all of
    them made with the session, are committed when it returns and discarded
    when it throws; the error is thrown on to the caller. *)
Definition withTransaction {A : Type} (db : Db.t)
    (callback : Db.t -> Result (Db.t * A)) : Db.t * Result A :=
  match callback db with
  | Ok (db', a) => (db', Ok a)
  | Throw m => (db, Throw m)
  end.

(** The messages of the errors the runtime itself throws. *)
Definition TypeError_primitive : string :=
  "Cannot convert object to primitive value".
Definition TypeError_read (what key : string) : string :=
  "Cannot read properties of " ++ what ++ " (reading '" ++ key ++ "')".

(** [`${v}`] inside a message. *)
Definition interpolate `{Platform} (pre : string) (v : JsVal) (post : string)
  : Result string :=
  match Js.toStr v with
  | Some s => Ok (pre ++ s ++ post)
  | None => Throw TypeError_primitive
  end.

(* ===================================================================== *)
(** ** The store *)

Module Store.

Definition hasId (i : string) (p : Product.t) : bool :=
  String.eqb (Product._id p) i.

(** [Product.findById(id)]. *)
Definition findProduct (i : string) (ps : list Product.t) : option Product.t :=
  find (hasId i) ps.

(** [{ $inc: { quantity: delta } }] on one document. *)
Definition inc (delta : Z) (p : Product.t) : Product.t :=
  Product.mk (Product._id p) (Product.name p) (Product.quantity p + delta)
    (Product.sizes p) (Product.price p).

(** [Product.updateOne(filter, { $inc: { quantity: delta } })]: the first
    document that matches the filter is updated; the second component is
    [modifiedCount]. *)
Fixpoint updateOne (filter : Product.t -> bool) (delta : Z)
    (ps : list Product.t) : list Product.t * Z :=
  match ps with
  | [] => ([], 0)
  | p :: r =>
      if filter p then (inc delta p :: r, 1)
      else let '(r', n) := updateOne filter delta r in (p :: r', n)
  end.

(** The filter [{ _id: id, quantity: { $gte: q } }]. *)
Definition idAndAtLeast (i : string) (q : Z) (p : Product.t) : bool :=
  hasId i p && (q <=? Product.quantity p).

Definition orderHasId (i : string) (o : Order.t) : bool :=
  String.eqb (Order._id o) i.

(** [Order.findById(id)]. *)
Definition findOrder (i : string) (os : list Order.t) : option Order.t :=
  find (orderHasId i) os.

(** Writing back a loaded order: the document with its identifier is
    replaced. *)
Fixpoint replaceOrder (o : Order.t) (os : list Order.t) : list Order.t :=
  match os with
  | [] => []
  | x :: r => if orderHasId (Order._id o) x then o :: r else x :: replaceOrder o r
  end.

(** [Order.deleteOne({ _id: id })]. *)
Fixpoint deleteOne (i : string) (os : list Order.t) : list Order.t :=
  match os with
  | [] => []
  | x :: r => if orderHasId i x then r else x :: deleteOne i r
  end.

Definition cartOf (u : string) (c : Cart.t) : bool :=
  String.eqb (Cart.user c) u.

(** [Cart.findOne({ user })]. *)
Definition findCart (u : string) (cs : list Cart.t) : option Cart.t :=
  find (cartOf u) cs.

(** [Cart.findOneAndUpdate({ user }, { items: [], total: 0 })], without
    upsert: nothing happens when the user has no cart. *)
Fixpoint clearCartOf (u : string) (cs : list Cart.t) : list Cart.t :=
  match cs with
  | [] => []
  | c :: r => if cartOf u c then Cart.mk (Cart.user c) [] 0 :: r
              else c :: clearCartOf u r
  end.

(** Writing a cart: a loaded cart replaces the stored one, a new cart is
    inserted. *)
Fixpoint putCart (c : Cart.t) (cs : list Cart.t) : list Cart.t :=
  match cs with
  | [] => [c]
  | x :: r => if cartOf (Cart.user c) x then c :: r else x :: putCart c r
  end.

End Store.

(* ===================================================================== *)
(** ** The order model: validators and the pre-save hook *)

Module OrderModel.

Definition tolerance : Q := 1 # 100.

(** [OrderSchema.pre('save', ...)]. *)
Definition preSave (o : Order.t) : Order.t :=
  let calculatedTotal := (Order.subtotal o + Order.shipping o)%Q in
  if negb (Qle_bool (Qabs (Order.total_amount o - calculatedTotal)) tolerance)
  then Order.mk (Order._id o) (Order.user_id o) (Order.products o)
         (Order.subtotal o) (Order.shipping o) calculatedTotal
         (Order.order_status o)
  else o.

(** The [required] validator of [size] on every line. *)
Definition sizesPresent (o : Order.t) : bool :=
  forallb (fun l => negb (String.eqb (Order.size l) EmptyString)) (Order.products o).

(** The [min: 0] validators of the schema. *)
Definition minimaHold (o : Order.t) : bool :=
  forallb (fun l => Qle_bool 0 (Order.price l)) (Order.products o)
  && Qle_bool 0 (Order.subtotal o)
  && Qle_bool 0 (Order.shipping o)
  && Qle_bool 0 (Order.total_amount o).

(** Validation runs before the pre-save hooks of the schema.  The text of
    the error is abridged: like the library's, it has the word [required]
    exactly when a required path is empty. *)
Definition validate (o : Order.t) : Result unit :=
  if negb (sizesPresent o) then
    Throw "Order validation failed: products.size: Path `size` is required."
  else if negb (minimaHold o) then
    Throw "Order validation failed: Path is less than minimum allowed value (0)."
  else Ok tt.

(** [order.save()] of a loaded document. *)
Definition save (o : Order.t) (db : Db.t) : Result (Db.t * Order.t) :=
  _ <- validate o ;;
  let o' := preSave o in
  Ok (Db.setOrders (Store.replaceOrder o' (Db.orders db)) db, o').

(** [newOrder.save()] of a new document. *)
Definition saveNew (env : Env) (o : Order.t) (db : Db.t)
  : Result (Db.t * Order.t) :=
  match save_fault env with
  | Some m => Throw m
  | None =>
      _ <- validate o ;;
      let o' := preSave o in
      match Store.findOrder (Order._id o') (Db.orders db) with
      | Some _ => Throw "E11000 duplicate key error collection: orders index: _id_"
      | None => Ok (Db.setOrders (Db.orders db ++ [o']) db, o')
      end
  end.

End OrderModel.

(* ===================================================================== *)
(** ** [controllers/ordersController.js] *)

Module OrdersController.

Record Totals : Type := mkTotals {
  subtotal : Q;
  shipping : Q;
  tax : Q;
  total : Q
}.

(** [calculateOrderTotals(subtotal)]. *)
Definition calculateOrderTotals (subtotal : Q) : Totals :=
  let shipping := if negb (Qle_bool subtotal 100) then 0%Q else 10%Q in
  let tax := (subtotal * (8 # 100))%Q in
  let total := (subtotal + shipping + tax)%Q in
  mkTotals subtotal shipping tax total.

(** The [catch] block of [createOrder]. *)
Definition createOrder_catch (message : string) : Response :=
  if Str.includes message "Invalid" || Str.includes message "required" then
    mkResp 400 (Message message)
  else if Str.includes message "not found" || Str.includes message "not available" then
    mkResp 404 (Message message)
  else if Str.includes message "Insufficient" || Str.includes message "sold out" then
    mkResp 409 (Message message)
  else
    mkResp 500 (Message "Internal Server Error").

(** The body of [createOrder], request by request. *)
Record PlaceRequest : Type := mkPlace {
  req_products : JsVal;
  req_total_amount : JsVal;
  req_user : User.t
}.

Section Handlers.
Context `{Platform}.

(** The message of the error thrown when the conditional update of the
    stock matches no document. *)
Definition soldOutMessage (p : Product.t) : string :=
  "Failed to update inventory for product " ++ Product.name p
  ++ ". Possibly sold out.".

(** [product.attributes.sizes.includes(size)], once it is known not to
    throw. *)
Definition sizeAvailable (product : Product.t) (size : JsVal) : bool :=
  match MongooseArray_includes (Product.sizes product) size with
  | Some included => included
  | None => false
  end.

(** The size a line is stored with: the requested size cast to String.  A
    size that the ODM refuses to cast is never stored, [save] fails
    validation on it. *)
Definition sizeStored (size : JsVal) : string :=
  match String_cast size with
  | Ok s => s
  | Throw _ => EmptyString
  end.

(** One turn of the loop [for (const item of products)], on the [i]-th
    line: the store after it, the line pushed on [orderProducts] and the
    amount added to [calculatedSubtotal].  [Product.findById] throws the
    cast error of an identifier the ODM does not cast.  With a [NaN]
    quantity the library refuses to cast the filter and the update of
    [updateOne] and throws its cast error; the text of that error is
    abridged. *)
Definition processItem (env : Env) (i : nat) (item : JsVal) (db : Db.t)
  : Result (Db.t * Order.Line * Q) :=
  match Js.prop "product_id" item, Js.prop "quantity" item, Js.prop "size" item with
  | Some item_product_id, Some item_quantity, Some item_size =>
      if negb (Js.truthy item_product_id) || negb (Js.truthy item_quantity)
         || negb (Js.truthy item_size)
      then Throw "Each product must have product_id, quantity, and size"
      else if negb (ObjectId_isValid item_product_id) then
        m <- interpolate "Invalid product ID format: " item_product_id EmptyString ;;
        Throw m
      else
        match Js.parseInt item_quantity with
        | None => Throw TypeError_primitive
        | Some quantity =>
            if Js.leb quantity 0 || Js.gtb quantity 10 then
              Throw ("Invalid quantity: "
                     ++ match quantity with Fin z => Str.ofZ z | NaN => "NaN" end
                     ++ ". Must be between 1 and 10")
            else
              match ObjectId_castError item_product_id,
                    Store.findProduct (ObjectId_hex item_product_id) (Db.products db) with
              | Some m, _ => Throw m
              | None, None =>
                  m <- interpolate "Product with id " item_product_id " not found" ;;
                  Throw m
              | None, Some product =>
                  if match MongooseArray_includes (Product.sizes product) item_size with
                     | Some included => false
                     | None => true
                     end
                  then Throw TypeError_primitive
                  else if negb (sizeAvailable product item_size) then
                    m <- interpolate "Size " item_size
                           (" is not available for product " ++ Product.name product) ;;
                    Throw m
                  else if Js.ltb_l (Product.quantity product) quantity then
                    Throw ("Insufficient quantity for product " ++ Product.name product
                           ++ ". Available: " ++ Str.ofZ (Product.quantity product)
                           ++ ", Requested: "
                           ++ match quantity with Fin z => Str.ofZ z | NaN => "NaN" end)
                  else
                    match quantity with
                    | NaN =>
                        Throw "Cast to Number failed for value NaN (type number) at path quantity for model Product"
                    | Fin q =>
                        let currentPrice := Product.price product in
                        let itemTotal := (currentPrice * inject_Z q)%Q in
                        let '(products', modifiedCount) :=
                          if lost_race env i then (Db.products db, 0)
                          else Store.updateOne
                                 (Store.idAndAtLeast (ObjectId_hex item_product_id) q)
                                 (- q) (Db.products db) in
                        if modifiedCount =? 0 then Throw (soldOutMessage product)
                        else
                          Ok (Db.setProducts products' db,
                              Order.mkLine (ObjectId_hex item_product_id) q
                                (sizeStored item_size)
                                currentPrice,
                              itemTotal)
                    end
              end
        end
  | _, _, _ =>
      Throw (TypeError_read
               (match item with JNull => "null" | _ => "undefined" end) "product_id")
  end.

(** The loop over the requested lines. *)
Fixpoint processItems (env : Env) (i : nat) (items : list JsVal) (db : Db.t)
    (orderProducts : list Order.Line) (calculatedSubtotal : Q)
  : Result (Db.t * list Order.Line * Q) :=
  match items with
  | [] => Ok (db, orderProducts, calculatedSubtotal)
  | item :: rest =>
      '(db1, line, itemTotal) <- processItem env i item db ;;
      processItems env (S i) rest db1 (orderProducts ++ [line])
        (calculatedSubtotal + itemTotal)%Q
  end.

(** The comparison of the client's [total_amount] with the calculated
    subtotal: it only logs a warning, unless converting the client's value
    to a Number throws. *)
Definition checkClientTotal (total_amount : JsVal) : Result unit :=
  if Js.truthy total_amount && Js.toNumberThrows total_amount
  then Throw TypeError_primitive
  else Ok tt.

(** [Cart.findOneAndUpdate({ user }, { items: [], total: 0 }, { session })]. *)
Definition clearCart (env : Env) (userId : string) (db : Db.t) : Result Db.t :=
  match cart_fault env with
  | Some m => Throw m
  | None => Ok (Db.setCarts (Store.clearCartOf userId (Db.carts db)) db)
  end.

(** The sizes that [new Order(...)] could not cast to String, each with
    its path and the text of its error; [i] is the index of the first
    line. *)
Fixpoint sizeCastErrors (i : nat) (items : list JsVal) : list string :=
  match items with
  | [] => []
  | item :: rest =>
      let here :=
        match Js.prop "size" item with
        | Some size =>
            match String_cast size with
            | Ok _ => []
            | Throw m => ["products." ++ Str.ofZ (Z.of_nat i) ++ ".size: " ++ m]
            end
        | None => []
        end in
      (here ++ sizeCastErrors (S i) rest)%list
  end.

(** What the sizes that were not cast do to [newOrder.save()]: validation
    fails, and the message lists them.  (The validators do not run on a
    path that was not cast; what they say of other paths would follow in
    the message and is left out, none of it a word the [catch] block looks
    for.) *)
Definition castSizes (items : list JsVal) : Result unit :=
  match sizeCastErrors 0 items with
  | [] => Ok tt
  | errors => Throw ("Order validation failed: " ++ String.concat ", " errors)
  end.

(** The callback given to [session.withTransaction] by [createOrder]. *)
Definition createOrder_transaction (env : Env) (items : list JsVal)
    (total_amount : JsVal) (userId : string) (db : Db.t)
  : Result (Db.t * Order.t) :=
  '(db1, orderProducts, calculatedSubtotal) <-
     processItems env 0 items db [] 0%Q ;;
  let orderTotals := calculateOrderTotals calculatedSubtotal in
  _ <- checkClientTotal total_amount ;;
  let newOrder :=
    Order.mk (fresh_id env) userId orderProducts (subtotal orderTotals)
      (shipping orderTotals) (total orderTotals) Pending in
  _ <- castSizes items ;;
  '(db2, savedOrder) <- OrderModel.saveNew env newOrder db1 ;;
  db3 <- clearCart env userId db2 ;;
  Ok (db3, savedOrder).

(** [createOrder(req, res)]. *)
Definition createOrder (env : Env) (req : PlaceRequest) (db : Db.t)
  : Db.t * Response :=
  match req_products req with
  | JArr (item :: rest) =>
      match withTransaction db
              (createOrder_transaction env (item :: rest) (req_total_amount req)
                 (User.id (req_user req))) with
      | (db', Ok savedOrder) => (db', mkResp 201 (OrderDoc savedOrder))
      | (db', Throw message) => (db', createOrder_catch message)
      end
  | _ =>
      (db, mkResp 400 (Message "Products array is required and cannot be empty"))
  end.

(** [validStatuses]. *)
Definition validStatuses : list JsVal :=
  [JStr "Pending"; JStr "Processing"; JStr "Shipped"; JStr "Delivered";
   JStr "Cancelled"].

(** The member of the enumeration a request names, if it names one; the
    stored field is set to it by [order.order_status = status]. *)
Definition statusOf (v : JsVal) : option Status :=
  match v with
  | JStr s =>
      if String.eqb s "Pending" then Some Pending
      else if String.eqb s "Processing" then Some Processing
      else if String.eqb s "Shipped" then Some Shipped
      else if String.eqb s "Delivered" then Some Delivered
      else if String.eqb s "Cancelled" then Some Cancelled
      else None
  | _ => None
  end.

(** [['Pending', 'Processing'].includes(s)]. *)
Definition restorable (s : Status) : bool :=
  match s with
  | Pending | Processing => true
  | _ => false
  end.

Definition isCancelled (s : Status) : bool :=
  match s with
  | Cancelled => true
  | _ => false
  end.

(** [.populate('products.product_id')]: each line with the product it
    refers to, if the catalog still has it. *)
Definition populate (ps : list Product.t) (lines : list Order.Line)
  : list (Order.Line * option Product.t) :=
  map (fun l => (l, Store.findProduct (Order.product_id l) ps)) lines.

(** The loop that gives the quantities of the lines back to the stock. *)
Fixpoint restoreStock (items : list (Order.Line * option Product.t))
    (ps : list Product.t) : list Product.t :=
  match items with
  | [] => ps
  | (item, Some product) :: rest =>
      restoreStock rest
        (fst (Store.updateOne (Store.hasId (Product._id product))
                (Order.quantity item) ps))
  | (_, None) :: rest => restoreStock rest ps
  end.

(** The store once the lines of a loaded order have been given back. *)
Definition restoreOrder (order : Order.t) (db : Db.t) : Db.t :=
  Db.setProducts
    (restoreStock (populate (Db.products db) (Order.products order))
       (Db.products db)) db.

(** The store a status update saves the order in: the lines are given back
    if the order is being cancelled while pending or in processing. *)
Definition afterRestore (newStatus : Status) (order : Order.t) (db : Db.t)
  : Db.t :=
  let oldStatus := Order.order_status order in
  if isCancelled newStatus && restorable oldStatus
  then restoreOrder order db
  else db.

(** The callback given to [session.withTransaction] by
    [updateOrderStatus]. *)
Definition updateOrderStatus_transaction (orderId : string) (newStatus : Status)
    (db : Db.t) : Result (Db.t * Order.t) :=
  match Store.findOrder (ObjectId_hex (JStr orderId)) (Db.orders db) with
  | None => Throw "Order not found"
  | Some order =>
      let db1 := afterRestore newStatus order db in
      OrderModel.save (Order.setStatus newStatus order) db1
  end.

(** [updateOrderStatus(req, res)], with [orderId = req.params.id] and
    [status = req.body.status]. *)
Definition updateOrderStatus (orderId : string) (status : JsVal) (db : Db.t)
  : Db.t * Response :=
  if negb (ObjectId_isValid (JStr orderId)) then
    (db, mkResp 400 (Message "Invalid order ID format"))
  else if negb (Js.truthy status) then
    (db, mkResp 400 (Message "Status is required"))
  else
    match statusOf status with
    | None =>
        (db, mkResp 400 (Message "Invalid status. Valid statuses are: Pending, Processing, Shipped, Delivered, Cancelled"))
    | Some newStatus =>
        match withTransaction db (updateOrderStatus_transaction orderId newStatus) with
        | (db', Ok updatedOrder) => (db', mkResp 200 (OrderDoc updatedOrder))
        | (db', Throw message) =>
            if String.eqb message "Order not found"
            then (db', mkResp 404 (Message message))
            else (db', mkResp 500 (Message "Internal Server Error"))
        end
    end.

(** The callback given to [session.withTransaction] by [deleteOrder]. *)
Definition deleteOrder_transaction (orderId : string) (user : User.t)
    (db : Db.t) : Result (Db.t * Order.t) :=
  match Store.findOrder (ObjectId_hex (JStr orderId)) (Db.orders db) with
  | None => Throw "Order not found"
  | Some order =>
      if negb (String.eqb (User.role user) "admin")
         && negb (String.eqb (Order.user_id order) (User.id user))
      then Throw "Access denied"
      else
        let db1 :=
          if restorable (Order.order_status order)
          then restoreOrder order db
          else db in
        Ok (Db.setOrders
              (Store.deleteOne (ObjectId_hex (JStr orderId)) (Db.orders db1)) db1,
            order)
  end.

(** [deleteOrder(req, res)]. *)
Definition deleteOrder (orderId : string) (user : User.t) (db : Db.t)
  : Db.t * Response :=
  if negb (ObjectId_isValid (JStr orderId)) then
    (db, mkResp 400 (Message "Invalid order ID format"))
  else
    match withTransaction db (deleteOrder_transaction orderId user) with
    | (db', Ok deletedOrder) =>
        (db', mkResp 200 (Deleted "Order deleted successfully" deletedOrder))
    | (db', Throw message) =>
        if String.eqb message "Order not found"
        then (db', mkResp 404 (Message message))
        else if String.eqb message "Access denied"
        then (db', mkResp 403 (Message message))
        else (db', mkResp 500 (Message "Internal Server Error"))
    end.

End Handlers.

End OrdersController.

(* ===================================================================== *)
(** ** The cart controller: [addItemToCart] *)

Module CartController.

Record AddRequest : Type := mkAdd {
  productId : JsVal;
  quantity : JsVal;
  size : JsVal;
  req_user : User.t
}.

(** [sanitizeInput(input)]. *)
Definition sanitizeInput (input : JsVal) : JsVal :=
  match input with
  | JStr s => JStr (Str.stripAngles (Str.trim s))
  | _ => input
  end.

(** [a + b] on Numbers. *)
Definition add (a b : Num) : Num :=
  match a, b with
  | Fin x, Fin y => Fin (x + y)
  | _, _ => NaN
  end.

(** [cart.items.findIndex(pred)]; [None] is [-1]. *)
Fixpoint findIndex (pred : Cart.Item -> bool) (items : list Cart.Item)
  : option nat :=
  match items with
  | [] => None
  | x :: r => if pred x then Some O else option_map S (findIndex pred r)
  end.

(** [cart.items[i].quantity = q]. *)
Fixpoint setQuantity (i : nat) (q : Num) (items : list Cart.Item)
  : list Cart.Item :=
  match items, i with
  | [], _ => []
  | x :: r, O => Cart.mkItem (Cart.product x) q (Cart.size x) (Cart.price x) :: r
  | x :: r, S j => x :: setQuantity j q r
  end.

(** [cart.items.reduce((total, item) => total + item.quantity * item.price, 0)];
    [None] is [NaN]. *)
Definition itemsTotal (items : list Cart.Item) : option Q :=
  fold_left
    (fun total item =>
       match total, Cart.quantity item with
       | Some t, Fin z => Some (t + inject_Z z * Cart.price item)%Q
       | _, _ => None
       end)
    items (Some 0%Q).

(** The validators of the cart schema on one line: [quantity] is a Number
    not below 1, [size] is present, [price] is not below 0. *)
Definition itemValid (x : Cart.Item) : bool :=
  match Cart.quantity x with
  | Fin z => (1 <=? z) && negb (String.eqb (Cart.size x) EmptyString) && Qle_bool 0 (Cart.price x)
  | NaN => false
  end.

(** [cart.save()]: the document is validated and written; [None] when the
    library rejects it. *)
Definition save (u : string) (items : list Cart.Item) (total : option Q)
    (db : Db.t) : option (Db.t * Cart.t) :=
  match forallb itemValid items, total with
  | true, Some t =>
      let cart := Cart.mk u items t in
      Some (Db.setCarts (Store.putCart cart (Db.carts db)) db, cart)
  | _, _ => None
  end.

Definition internalError : Response :=
  mkResp 500 (Message "Internal Server Error").

(** [populateCartItems(cart)]: the lines whose product is gone are dropped,
    the total is the stored one. *)
Definition populateCartItems (ps : list Product.t) (cart : Cart.t) : CartView.t :=
  CartView.mk (Cart.user cart)
    (flat_map
       (fun item =>
          match Store.findProduct (Cart.product item) ps with
          | None => []
          | Some product =>
              [CartView.mkItem item
                 (CartView.mkInfo (Product._id product) (Product.name product)
                    (Product.price product) (Product.sizes product))]
          end)
       (Cart.items cart))
    (Cart.total cart).

Section Handler.
Context `{Platform}.

(** [addItemToCart(req, res)].  A size that the ODM refuses to cast to
    String leaves the line without a size, and [save] rejects the cart. *)
Definition addItemToCart (req : AddRequest) (db : Db.t) : Db.t * Response :=
  let quantity := match quantity req with JUndefined => JNum 1 | v => v end in
  let user := User.id (req_user req) in
  if negb (Js.truthy (productId req)) || negb (Js.truthy (size req)) then
    (db, mkResp 400 (Message "ProductId and size are required"))
  else if negb (ObjectId_isValid (productId req)) then
    (db, mkResp 400 (Message "Invalid product ID format"))
  else
    let sanitizedSize := sanitizeInput (size req) in
    match Js.parseInt quantity with
    | None => (db, internalError)
    | Some parsedQuantity =>
        if Js.leb parsedQuantity 0 || Js.gtb parsedQuantity 10 then
          (db, mkResp 400 (Message "Quantity must be between 1 and 10"))
        else
          match ObjectId_castError (productId req),
                Store.findProduct (ObjectId_hex (productId req)) (Db.products db) with
          | Some _, _ => (db, internalError)
          | None, None => (db, mkResp 404 (Message "Product not found"))
          | None, Some product =>
              if Js.ltb_l (Product.quantity product) parsedQuantity then
                (db, mkResp 400
                       (Message ("Only " ++ Str.ofZ (Product.quantity product)
                                 ++ " items available in stock")))
              else if match MongooseArray_includes (Product.sizes product)
                              sanitizedSize with
                      | Some included => false
                      | None => true
                      end
              then (db, internalError)
              else if negb (OrdersController.sizeAvailable product sanitizedSize) then
                match interpolate "Size " sanitizedSize
                        " is not available for this product" with
                | Ok m => (db, mkResp 400 (Message m))
                | Throw _ => (db, internalError)
                end
              else
                let itemPrice := Product.price product in
                let items :=
                  match Store.findCart user (Db.carts db) with
                  | Some cart => Cart.items cart
                  | None => []
                  end in
                let existingItemIndex :=
                  findIndex
                    (fun item =>
                       Js.strictEq (JStr (Cart.product item)) (productId req)
                       && Js.strictEq (JStr (Cart.size item)) sanitizedSize)
                    items in
                let merged : Result (list Cart.Item) :=
                  match existingItemIndex with
                  | Some i =>
                      let existing :=
                        match nth_error items i with
                        | Some x => Cart.quantity x
                        | None => NaN
                        end in
                      let newQuantity := add existing parsedQuantity in
                      if match newQuantity with
                         | Fin n => Product.quantity product <? n
                         | NaN => false
                         end
                      then
                        Throw ("Cannot add "
                               ++ match parsedQuantity with Fin z => Str.ofZ z | NaN => "NaN" end
                               ++ " more. Only "
                               ++ match existing with
                                  | Fin e => Str.ofZ (Product.quantity product - e)
                                  | NaN => "NaN"
                                  end
                               ++ " more available.")
                      else Ok (setQuantity i newQuantity items)
                  | None =>
                      Ok (items
                            ++ [Cart.mkItem (ObjectId_hex (productId req)) parsedQuantity
                                  (OrdersController.sizeStored sanitizedSize)
                                  itemPrice])%list
                  end in
                match merged with
                | Throw m => (db, mkResp 400 (Message m))
                | Ok items' =>
                    match save user items' (itemsTotal items') db with
                    | Some (db', cart) =>
                        (db', mkResp 201
                                (CartDoc (populateCartItems (Db.products db') cart)))
                    | None => (db, internalError)
                    end
                end
          end
    end.

End Handler.

End CartController.

(* ===================================================================== *)
(** ** A platform to run the handlers on *)

(** The runtime and the libraries as the handlers meet them: how a Number
    prints, which values [ObjectId.isValid] accepts (a string of 24
    hexadecimal digits, a string of 12 characters, ASCII ones here, and every
    Number), what the ODM casts them to, the [==] of the arrays of the ODM,
    and its cast to String.  A Number is printed from its exact value, with
    at most 20 digits after the point. *)
Module Node.

Fixpoint fraction (fuel : nat) (r d : Z) : string :=
  match fuel with
  | O => EmptyString
  | S fuel' =>
      if r =? 0 then EmptyString
      else Str.ofZ ((10 * r) / d) ++ fraction fuel' ((10 * r) mod d) d
  end.

(** The digits of [a / d], which is not negative: the integer part, and
    the fraction when there is one. *)
Definition positional (a d : Z) : string :=
  Str.ofZ (a / d)
  ++ (if a mod d =? 0 then EmptyString else "." ++ fraction 20 (a mod d) d).

(** The least [k] from [k0] on with [d <= a * 10 ^ (k - k0)]. *)
Fixpoint shiftUp (fuel : nat) (a d k0 : Z) : Z :=
  match fuel with
  | O => k0
  | S fuel' => if d <=? a then k0 else shiftUp fuel' (10 * a) d (k0 + 1)
  end.

(** [Number::toString]: positional notation from 1e-6 up to, and not
    including, 1e21; outside of that one digit, the fraction and the
    exponent. *)
Definition printNumber (q : Q) : string :=
  let n := Qnum q in
  let d := Z.pos (Qden q) in
  let a := Z.abs n in
  (if n <? 0 then "-" else EmptyString)
  ++ (if 10 ^ 21 * d <=? a then
        let k := Z.of_nat (String.length (Str.ofZ (a / d))) - 1 in
        positional a (d * 10 ^ k) ++ "e+" ++ Str.ofZ k
      else if (0 <? a) && (a * 10 ^ 6 <? d) then
        let k := shiftUp 400 a d 0 in
        positional (a * 10 ^ k) d ++ "e-" ++ Str.ofZ k
      else positional a d).

Fixpoint allHex (s : string) : bool :=
  match s with
  | EmptyString => true
  | String c r =>
      match Js.digitVal 16 c with
      | Some _ => allHex r
      | None => false
      end
  end.

Fixpoint allAscii (s : string) : bool :=
  match s with
  | EmptyString => true
  | String c r => (N_of_ascii c <? 128)%N && allAscii r
  end.

Definition lower (c : ascii) : ascii :=
  let n := N_of_ascii c in
  if ((65 <=? n) && (n <=? 90))%N then ascii_of_N (n + 32) else c.

Fixpoint lowerCase (s : string) : string :=
  match s with
  | EmptyString => EmptyString
  | String c r => String (lower c) (lowerCase r)
  end.

(** The strings an ObjectId is made from: 24 hexadecimal digits, or the 12
    bytes themselves. *)
Definition validString (s : string) : bool :=
  ((String.length s =? 24)%nat && allHex s)
  || ((String.length s =? 12)%nat && allAscii s).

Definition isValid (v : JsVal) : bool :=
  match v with
  | JStr s => validString s
  | JNum _ => true
  | _ => false
  end.

Definition hexDigit (n : N) : ascii :=
  ascii_of_N (if (n <? 10)%N then n + 48 else n + 87).

Fixpoint hexOfBytes (s : string) : string :=
  match s with
  | EmptyString => EmptyString
  | String c r =>
      String (hexDigit (N_of_ascii c / 16))
        (String (hexDigit (N_of_ascii c mod 16)) (hexOfBytes r))
  end.

Definition hexOfString (s : string) : string :=
  if (String.length s =? 24)%nat then lowerCase s else hexOfBytes s.

(** The ODM casts a value that is no ObjectId from its string. *)
Definition hex (v : JsVal) : string :=
  match v with
  | JStr s => hexOfString s
  | JNum q => hexOfString (printNumber q)
  | _ => EmptyString
  end.

(** The double quote. *)
Definition quote : string := String (ascii_of_nat 34) EmptyString.

Definition quoted (s : string) : string := quote ++ s ++ quote.

(** A Number is cast from the string it prints as, which for most Numbers
    is no string an ObjectId is made from. *)
Definition castError (v : JsVal) : option string :=
  match v with
  | JNum q =>
      if validString (printNumber q) then None
      else Some ("Cast to ObjectId failed for value " ++ quoted (printNumber q)
                 ++ " (type number) at path " ++ quoted "_id"
                 ++ " for model " ++ quoted "Product")
  | _ => None
  end.

(** The conversions of [Js] with the printing of Numbers above; they use
    nothing else of the platform. *)
Definition printing : Platform := {|
  Number_toString := printNumber;
  ObjectId_isValid := isValid;
  ObjectId_hex := hex;
  ObjectId_castError := castError;
  MongooseArray_includes := fun _ _ => Some false;
  String_cast := fun _ => Ok EmptyString
|}.

Definition toPrimitive (v : JsVal) : option string :=
  Js.toStr (H := printing) v.

(** The digits a string starts with, in the radix: their value, their
    number and the rest of the string. *)
Fixpoint takeDigits (radix : Z) (s : string) (acc : Z) (n : nat)
  : Z * nat * string :=
  match s with
  | EmptyString => (acc, n, s)
  | String c r =>
      match Js.digitVal radix c with
      | Some d => takeDigits radix r (radix * acc + d) (S n)
      | None => (acc, n, s)
      end
  end.

(** A string that is digits of the radix and nothing else. *)
Definition wholeIn (radix : Z) (s : string) : option Q :=
  match takeDigits radix s 0 0 with
  | (v, S _, EmptyString) => Some (inject_Z v)
  | _ => None
  end.

Definition power10 (e : Z) : Q :=
  if 0 <=? e then inject_Z (10 ^ e) else 1 # Z.to_pos (10 ^ (- e)).

(** A decimal literal without sign: digits, a point, digits, an exponent,
    with a digit before or after the point. *)
Definition unsignedDecimal (s : string) : option Q :=
  let '(ip, ni, r1) := takeDigits 10 s 0 0 in
  let '(fp, nf, r2) :=
    match r1 with
    | String "." r => takeDigits 10 r 0 0
    | _ => (0, O, r1)
    end in
  if (ni + nf =? 0)%nat then None
  else
    let mantissa := (inject_Z ip + inject_Z fp * power10 (- Z.of_nat nf))%Q in
    match r2 with
    | EmptyString => Some mantissa
    | String c r3 =>
        if (Ascii.eqb c "e" || Ascii.eqb c "E")%bool then
          let '(sign, r4) :=
            match r3 with
            | String "-" r => (-1, r)
            | String "+" r => (1, r)
            | _ => (1, r3)
            end in
          match takeDigits 10 r4 0 0 with
          | (e, S _, EmptyString) => Some (mantissa * power10 (sign * e))%Q
          | _ => None
          end
        else None
    end.

(** [StringToNumber(s)], when it is a finite Number: [None] for
    [Infinity] and for what is no numeral ([NaN]). *)
Definition stringToNumber (s : string) : option Q :=
  let t := Str.trim s in
  match t with
  | EmptyString => Some 0%Q
  | String "-" r => option_map Qopp (unsignedDecimal r)
  | String "+" r => unsignedDecimal r
  | String "0" (String c r) =>
      if (Ascii.eqb c "x" || Ascii.eqb c "X")%bool then wholeIn 16 r
      else if (Ascii.eqb c "o" || Ascii.eqb c "O")%bool then wholeIn 8 r
      else if (Ascii.eqb c "b" || Ascii.eqb c "B")%bool then wholeIn 2 r
      else unsignedDecimal t
  | _ => unsignedDecimal t
  end.

(** [ToNumber] of a primitive, when it is a finite Number. *)
Definition primToNumber (v : JsVal) : option Q :=
  match v with
  | JNull => Some 0%Q
  | JBool b => Some (if b then 1%Q else 0%Q)
  | JNum q => Some q
  | JStr s => stringToNumber s
  | _ => None
  end.

(** [a == b] on primitives. *)
Definition primLooseEq (a b : JsVal) : bool :=
  match a, b with
  | JUndefined, JUndefined | JUndefined, JNull
  | JNull, JUndefined | JNull, JNull => true
  | JUndefined, _ | JNull, _ | _, JUndefined | _, JNull => false
  | JStr x, JStr y => String.eqb x y
  | _, _ =>
      match primToNumber a, primToNumber b with
      | Some x, Some y => Qeq_bool x y
      | _, _ => false
      end
  end.

Definition isObject (v : JsVal) : bool :=
  match v with
  | JArr _ | JObj _ => true
  | _ => false
  end.

(** [a == b]; [None] when the conversion of an object to a primitive
    throws.  Two objects are equal when they are the same object, which a
    value of a request and a stored value never are. *)
Definition looseEq (a b : JsVal) : option bool :=
  match isObject a, isObject b with
  | true, true => Some false
  | false, false => Some (primLooseEq a b)
  | true, false =>
      match b with
      | JUndefined | JNull => Some false
      | _ => option_map (fun s => primLooseEq (JStr s) b) (toPrimitive a)
      end
  | false, true =>
      match a with
      | JUndefined | JNull => Some false
      | _ => option_map (fun s => primLooseEq a (JStr s)) (toPrimitive b)
      end
  end.

(** [indexOf] of the arrays of the ODM, behind their [includes]: a value
    that carries the mark of an ObjectId is replaced by its string, then
    the elements are compared with [==] from the first on. *)
Definition includes (arr : list JsVal) (v : JsVal) : option bool :=
  let obj :=
    match v with
    | JObj fs =>
        match Js.lookup "_bsontype" fs with
        | Some (JStr t) =>
            if String.eqb t "ObjectId" then option_map JStr (toPrimitive v)
            else Some v
        | _ => Some v
        end
    | _ => Some v
    end in
  match obj with
  | None => None
  | Some obj =>
      (fix from (arr : list JsVal) : option bool :=
         match arr with
         | [] => Some false
         | x :: r =>
             match looseEq obj x with
             | None => None
             | Some true => Some true
             | Some false => from r
             end
         end) arr
  end.

(** A value as the message of a cast error shows it, on one line and in
    full. *)
Fixpoint inspect (v : JsVal) : string :=
  match v with
  | JUndefined => "undefined"
  | JNull => "null"
  | JBool b => if b then "true" else "false"
  | JNum q => printNumber q
  | JStr s => "'" ++ s ++ "'"
  | JArr [] => "[]"
  | JArr l =>
      "[ " ++ String.concat ", " (map inspect l) ++ " ]"
  | JObj [] => "{}"
  | JObj fs =>
      "{ " ++ String.concat ", "
                (map (fun kv => fst kv ++ ": " ++ inspect (snd kv)) fs)
      ++ " }"
  end.

(** The cast to String of the ODM: a string as it is, a Number and a
    boolean printed, an object with a string as its [_id] by that string;
    an array and any other object are refused.  [null] stays [null], which
    the validator [required] refuses like the empty string. *)
Definition castString (v : JsVal) : Result string :=
  let refused (type : string) :=
    Throw ("Cast to string failed for value " ++ quoted (inspect v)
           ++ " (type " ++ type ++ ") at path " ++ quoted "size") in
  match v with
  | JUndefined | JNull => Ok EmptyString
  | JBool b => Ok (if b then "true" else "false")
  | JNum q => Ok (printNumber q)
  | JStr s => Ok s
  | JArr _ => refused "Array"
  | JObj fs =>
      match Js.lookup "_id" fs with
      | Some (JStr i) =>
          if String.eqb i EmptyString then refused "Object" else Ok i
      | _ => refused "Object"
      end
  end.

#[global] Instance platform : Platform := {|
  Number_toString := printNumber;
  ObjectId_isValid := isValid;
  ObjectId_hex := hex;
  ObjectId_castError := castError;
  MongooseArray_includes := includes;
  String_cast := castString
|}.

(** A store without interference: every conditional update sees the stock
    that was read, every write succeeds. *)
Definition quiet (orderId : string) : Env :=
  mkEnv (fun _ => false) None None orderId.

End Node.

(* ===================================================================== *)
(** ** Quantities the properties speak about *)

(** The same store and driver, with every conditional update seeing the
    stock that was read. *)
Definition quietly (env : Env) : Env :=
  mkEnv (fun _ => false) (save_fault env) (cart_fault env) (fresh_id env).

(** The stock level the store reports for an identifier. *)
Definition stock (i : string) (db : Db.t) : option Z :=
  option_map Product.quantity (Store.findProduct i (Db.products db)).

(** The units of one product on the lines of an order. *)
Fixpoint ordered (i : string) (lines : list Order.Line) : Z :=
  match lines with
  | [] => 0
  | l :: r =>
      (if String.eqb (Order.product_id l) i then Order.quantity l else 0)
      + ordered i r
  end.

(** The sum of price times quantity over the lines of an order. *)
Fixpoint linesTotal (lines : list Order.Line) : Q :=
  match lines with
  | [] => 0%Q
  | l :: r => (Order.price l * inject_Z (Order.quantity l) + linesTotal r)%Q
  end.

(** The stored total is the subtotal plus the shipping fee, up to the
    tolerance of the pre-save hook. *)
Definition withinTolerance (o : Order.t) : Prop :=
  (Qabs (Order.total_amount o - (Order.subtotal o + Order.shipping o))
   <= OrderModel.tolerance)%Q.

(** The record stored under an identifier has been removed: the store
    holds one order less, an order with another identifier is found as
    before, and, the identifiers of the stored orders being distinct, no
    order is found under the identifier. *)
Definition removed (i : string) (db db' : Db.t) : Prop :=
  S (List.length (Db.orders db')) = List.length (Db.orders db)
  /\ (forall j, j <> i ->
                Store.findOrder j (Db.orders db') = Store.findOrder j (Db.orders db))
  /\ (NoDup (map Order._id (Db.orders db)) ->
      Store.findOrder i (Db.orders db') = None).

(** A message that none of the earlier tests of the [catch] block of
    [createOrder] matches, so that the test for a conflict is reached. *)
Definition reachesConflictTest (message : string) : bool :=
  negb (Str.includes message "Invalid" || Str.includes message "required"
        || Str.includes message "not found" || Str.includes message "not available").

(* ===================================================================== *)
(** ** Sample data *)

Module Sample.

Definition runnerId : string := "64b000000000000000000001".
Definition sandalId : string := "64b000000000000000000002".
Definition lacesId : string := "64b000000000000000000003".

(** The product of the example of the specification: price 20, stock 5,
    sizes "9" and "10". *)
Definition runner : Product.t :=
  Product.mk runnerId "Runner" 5 [JStr "9"; JStr "10"] 20.
Definition sandal : Product.t :=
  Product.mk sandalId "Sandal" 20 [JStr "9"; JNum (19 # 2)] 45.
(** A product priced at ten cents. *)
Definition laces : Product.t :=
  Product.mk lacesId "Laces" 50 [JStr "one size"] (1 # 10).

(** A product whose name has the word [required] in it. *)
Definition slipOnId : string := "64b000000000000000000004".
Definition slipOn : Product.t :=
  Product.mk slipOnId "Slip-On, laces not required" 5 [JStr "9"] 35.

Definition alice : User.t := User.mk "64a0000000000000000000a1" "user".
Definition admin : User.t := User.mk "64a0000000000000000000ad" "admin".

(** The cart of [alice]: eight pairs of sandals in size "9". *)
Definition cart : Cart.t :=
  Cart.mk (User.id alice) [Cart.mkItem sandalId (Fin 8) "9" 45] 360.

Definition db : Db.t := Db.mk [runner; sandal; laces; slipOn] [] [cart].

Definition line (productId : string) (quantity size : JsVal) : JsVal :=
  JObj [("product_id", JStr productId); ("quantity", quantity); ("size", size)].

Definition orderId : string := "64c000000000000000000001".
Definition env : Env := Node.quiet orderId.

(** A store in which the conditional update of every line comes back with
    no document modified. *)
Definition outrun : Env := mkEnv (fun _ => true) None None orderId.

(** One pair of the slip-on. *)
Definition oneSlipOn : OrdersController.PlaceRequest :=
  OrdersController.mkPlace (JArr [line slipOnId (JNum 1) (JStr "9")])
    JUndefined alice.

(** Three pairs of the runner in size "10". *)
Definition threeRunners (total_amount : JsVal) : OrdersController.PlaceRequest :=
  OrdersController.mkPlace (JArr [line runnerId (JNum 3) (JStr "10")])
    total_amount alice.

(** Three pairs of the runner, then six more: the second line finds the
    stock short. *)
Definition tooManyRunners : OrdersController.PlaceRequest :=
  OrdersController.mkPlace
    (JArr [line runnerId (JNum 3) (JStr "10"); line runnerId (JNum 6) (JStr "9")])
    JUndefined alice.

(** Six pairs of the slip-on, of which five are in stock. *)
Definition sixSlipOns : OrdersController.PlaceRequest :=
  OrdersController.mkPlace (JArr [line slipOnId (JNum 6) (JStr "9")])
    JUndefined alice.

(** The JSON object [{"toString": 1}]. *)
Definition shadowed : JsVal := JObj [("toString", JNum 1)].

(** One pair of laces. *)
Definition onePairOfLaces : OrdersController.PlaceRequest :=
  OrdersController.mkPlace (JArr [line lacesId (JNum 1) (JStr "one size")])
    JUndefined alice.

(** A line without a quantity. *)
Definition noQuantity : OrdersController.PlaceRequest :=
  OrdersController.mkPlace
    (JArr [JObj [("product_id", JStr runnerId); ("size", JStr "10")]])
    JUndefined alice.

(** A line whose quantity is not a numeral. *)
Definition wordQuantity : OrdersController.PlaceRequest :=
  OrdersController.mkPlace (JArr [line runnerId (JStr "three") (JStr "10")])
    JUndefined alice.

(** An order of two pairs of the runner in the given status, and the store
    that holds it, the two pairs taken off the stock. *)
Definition orderIn (s : Status) : Order.t :=
  Order.mk orderId (User.id alice) [Order.mkLine runnerId 2 "10" 20] 40 10 50 s.
Definition dbWith (s : Status) : Db.t :=
  Db.mk [Store.inc (-2) runner; sandal; laces] [orderIn s] [cart].

(** The store after [alice] bought one pair of laces. *)
Definition dbAfterLaces : Db.t :=
  fst (OrdersController.createOrder env onePairOfLaces db).

(** Five more pairs of sandals in size "9" for the cart of [alice]. *)
Definition fiveMoreSandals : CartController.AddRequest :=
  CartController.mkAdd (JStr sandalId) (JNum 5) (JStr "9") alice.

End Sample.

(* ===================================================================== *)
(** ** The cart controller: the other handlers *)

Inductive CartBody : Type :=
| CartMessage (m : string)
| CartPlain (c : Cart.t)
| CartPopulated (v : CartView.t).

Record CartResponse : Type := mkCartResp {
  cart_status : Z;
  cart_body : CartBody
}.

Module CartHandlers.

(** [items.splice(i, 1)]. *)
Fixpoint splice (i : nat) (items : list Cart.Item) : list Cart.Item :=
  match items, i with
  | [], _ => []
  | _ :: r, O => r
  | x :: r, S j => x :: splice j r
  end.

(** [findIndex] over the identifiers of the lines; [None] is [-1]. *)
Fixpoint findIndexOf (pred : string -> bool) (ids : list string) : option nat :=
  match ids with
  | [] => None
  | x :: r => if pred x then Some O else option_map S (findIndexOf pred r)
  end.

(** [a < b] and [a === 0] on Numbers. *)
Definition ltb (a : Num) (b : Z) : bool :=
  match a with Fin x => x <? b | NaN => false end.
Definition isZero (a : Num) : bool :=
  match a with Fin x => x =? 0 | NaN => false end.

Definition internalError : CartResponse :=
  mkCartResp 500 (CartMessage "Internal Server Error").

Section Handlers.
Context `{Platform}.

(** [getCartByUserId(req, res)]. *)
Definition getCartByUserId (user : User.t) (db : Db.t) : CartResponse :=
  match Store.findCart (User.id user) (Db.carts db) with
  | None => mkCartResp 404 (CartMessage "Cart not found")
  | Some cart =>
      mkCartResp 200 (CartPopulated (CartController.populateCartItems (Db.products db) cart))
  end.

(** [clearCart(req, res)]. *)
Definition clearCart (user : User.t) (db : Db.t) : Db.t * CartResponse :=
  match Store.findCart (User.id user) (Db.carts db) with
  | None => (db, mkCartResp 404 (CartMessage "Cart not found"))
  | Some _ =>
      match CartController.save (User.id user) [] (Some 0%Q) db with
      | Some (db', cart) => (db', mkCartResp 200 (CartPlain cart))
      | None => (db, internalError)
      end
  end.

(** [removeItemFromCart(req, res)], with [itemId = req.params.itemId].
    The schema gives every line an [_id], which [Cart.Item] does not carry:
    [itemIds] are the identifiers of the lines of the user's cart, in the
    order of the lines. *)
Definition removeItemFromCart (itemIds : list string) (itemId : string)
    (user : User.t) (db : Db.t) : Db.t * CartResponse :=
  if negb (ObjectId_isValid (JStr itemId)) then
    (db, mkCartResp 400 (CartMessage "Invalid item ID format"))
  else
    match Store.findCart (User.id user) (Db.carts db) with
    | None => (db, mkCartResp 404 (CartMessage "Cart not found"))
    | Some cart =>
        match findIndexOf (fun i => String.eqb i itemId) itemIds with
        | None => (db, mkCartResp 404 (CartMessage "Item not found in cart"))
        | Some itemIndex =>
            let items := splice itemIndex (Cart.items cart) in
            match CartController.save (User.id user) items
                    (CartController.itemsTotal items) db with
            | Some (db', cart') =>
                (db', mkCartResp 200
                        (CartPopulated (CartController.populateCartItems (Db.products db') cart')))
            | None => (db, internalError)
            end
        end
    end.

(** [updateItemInCart(req, res)], with [itemId] and [quantity] from the
    body; [itemIds] as for [removeItemFromCart]. *)
Definition updateItemInCart (itemIds : list string) (itemId quantity : JsVal)
    (user : User.t) (db : Db.t) : Db.t * CartResponse :=
  if negb (Js.truthy itemId)
     || match quantity with JUndefined => true | _ => false end
  then (db, mkCartResp 400 (CartMessage "ItemId and quantity are required"))
  else if negb (ObjectId_isValid itemId) then
    (db, mkCartResp 400 (CartMessage "Invalid item ID format"))
  else
    match Js.parseInt quantity with
    | None => (db, internalError)
    | Some parsedQuantity =>
        if ltb parsedQuantity 0 || Js.gtb parsedQuantity 10 then
          (db, mkCartResp 400 (CartMessage "Quantity must be between 0 and 10"))
        else
          match Store.findCart (User.id user) (Db.carts db) with
          | None => (db, mkCartResp 404 (CartMessage "Cart not found"))
          | Some cart =>
              match findIndexOf (fun i => Js.strictEq (JStr i) itemId) itemIds with
              | None => (db, mkCartResp 404 (CartMessage "Item not found in cart"))
              | Some itemIndex =>
                  let updated : Result (option (list Cart.Item)) :=
                    if isZero parsedQuantity then
                      Ok (Some (splice itemIndex (Cart.items cart)))
                    else
                      match nth_error (Cart.items cart) itemIndex with
                      | None => Ok None
                      | Some line =>
                          match Store.findProduct (Cart.product line) (Db.products db) with
                          | Some product =>
                              if Js.gtb parsedQuantity (Product.quantity product)
                              then Throw ("Only " ++ Str.ofZ (Product.quantity product)
                                          ++ " items available in stock")
                              else Ok (Some (CartController.setQuantity itemIndex
                                               parsedQuantity (Cart.items cart)))
                          | None =>
                              Ok (Some (CartController.setQuantity itemIndex
                                          parsedQuantity (Cart.items cart)))
                          end
                      end in
                  match updated with
                  | Throw m => (db, mkCartResp 400 (CartMessage m))
                  | Ok None => (db, internalError)
                  | Ok (Some items) =>
                      match CartController.save (User.id user) items
                              (CartController.itemsTotal items) db with
                      | Some (db', cart') =>
                          (db', mkCartResp 200
                                  (CartPopulated
                                     (CartController.populateCartItems (Db.products db') cart')))
                      | None => (db, internalError)
                      end
                  end
              end
          end
    end.

End Handlers.

End CartHandlers.

(* ===================================================================== *)
(** ** [controllers/ordersController.js]: the queries *)

Inductive QueryBody : Type :=
| QueryMessage (m : string)
| QueryOrders (os : list Order.t)
| QueryStats (statusBreakdown : list (Status * Z * Q)) (totalOrders : Z)
    (totalRevenue : Q).

Record QueryResponse : Type := mkQuery {
  query_status : Z;
  query_body : QueryBody
}.

Module OrderQueries.

(** [.sort({ createdAt: -1 })]: insertion of one order into a listing that
    has the latest first. *)
Fixpoint insertLatestFirst (createdAt : Order.t -> Z) (o : Order.t)
    (l : list Order.t) : list Order.t :=
  match l with
  | [] => [o]
  | x :: r =>
      if createdAt x <=? createdAt o then o :: l
      else x :: insertLatestFirst createdAt o r
  end.

Fixpoint sortLatestFirst (createdAt : Order.t -> Z) (l : list Order.t)
  : list Order.t :=
  match l with
  | [] => []
  | o :: r => insertLatestFirst createdAt o (sortLatestFirst createdAt r)
  end.

Definition statusEqb (a b : Status) : bool :=
  match a, b with
  | Pending, Pending | Processing, Processing | Shipped, Shipped
  | Delivered, Delivered | Cancelled, Cancelled => true
  | _, _ => false
  end.

Definition allStatuses : list Status :=
  [Pending; Processing; Shipped; Delivered; Cancelled].

(** [{ $sum: '$total_amount' }]. *)
Definition sumTotals (os : list Order.t) : Q :=
  fold_right (fun o acc => (Order.total_amount o + acc)%Q) 0%Q os.

(** The stage [{ $group: { _id: '$order_status', count, totalAmount } }]:
    one group for every status that some order has. *)
Definition groupByStatus (os : list Order.t) : list (Status * Z * Q) :=
  flat_map
    (fun s =>
       let group := filter (fun o => statusEqb (Order.order_status o) s) os in
       match group with
       | [] => []
       | _ => [(s, Z.of_nat (List.length group), sumTotals group)]
       end)
    allStatuses.

Section Queries.
Context `{Platform}.

(** The time stamp [createdAt] that the schema option [timestamps] adds to
    an order; [Order.t] does not carry it. *)
Variable createdAt : Order.t -> Z.

(** Whether the users collection has a document with the identifier, for
    [.populate('user_id', ...)]. *)
Variable userExists : string -> bool.

(** [new Date(s).getTime()]; [None] is an invalid date. *)
Variable parseDate : string -> option Z.

(** [getUserOrders(req, res)].  An identifier that cannot be cast makes the
    query throw.  The response lists the orders; joining the lines with the
    catalog for display is left out. *)
Definition getUserOrders (user : User.t) (db : Db.t) : QueryResponse :=
  if negb (ObjectId_isValid (JStr (User.id user))) then
    mkQuery 500 (QueryMessage "Internal Server Error")
  else
    mkQuery 200
      (QueryOrders
         (sortLatestFirst createdAt
            (filter
               (fun o => String.eqb (Order.user_id o)
                           (ObjectId_hex (JStr (User.id user))))
               (Db.orders db)))).

(** [getOrderById(req, res)].  When the owner of the order is gone,
    [populate] leaves [null] in [user_id], and reading [_id] of it throws;
    an administrator is answered before that is read. *)
Definition getOrderById (orderId : string) (user : User.t) (db : Db.t)
  : Response :=
  if negb (ObjectId_isValid (JStr orderId)) then
    mkResp 400 (Message "Invalid order ID format")
  else
    match Store.findOrder (ObjectId_hex (JStr orderId)) (Db.orders db) with
    | None => mkResp 404 (Message "Order not found")
    | Some order =>
        if String.eqb (User.role user) "admin" then mkResp 200 (OrderDoc order)
        else if negb (userExists (Order.user_id order)) then
          mkResp 500 (Message "Internal Server Error")
        else if negb (String.eqb (Order.user_id order) (User.id user)) then
          mkResp 403 (Message "Access denied")
        else mkResp 200 (OrderDoc order)
    end.

(** The bound a query parameter gives: none when the parameter is absent or
    empty, else the date it is parsed to. *)
Definition bound (param : option string) : option (option Z) :=
  match param with
  | None => None
  | Some s => if String.eqb s EmptyString then None else Some (parseDate s)
  end.

Definition invalidBound (b : option (option Z)) : bool :=
  match b with Some None => true | _ => false end.

(** [dateFilter] as a test on one order. *)
Definition inRange (lower upper : option (option Z)) (o : Order.t) : bool :=
  match lower with Some (Some t) => t <=? createdAt o | _ => true end
  && match upper with Some (Some t) => createdAt o <=? t | _ => true end.

(** [getOrderStats(req, res)].  A parameter that is not a date makes
    [countDocuments] throw when it casts the filter. *)
Definition getOrderStats (startDate endDate : option string) (db : Db.t)
  : QueryResponse :=
  let lower := bound startDate in
  let upper := bound endDate in
  if invalidBound lower || invalidBound upper then
    mkQuery 500 (QueryMessage "Internal Server Error")
  else
    let matched := filter (inRange lower upper) (Db.orders db) in
    let stats := groupByStatus matched in
    let totalOrders := Z.of_nat (List.length matched) in
    let totalRevenue :=
      sumTotals
        (filter (fun o => negb (statusEqb (Order.order_status o) Cancelled))
           matched) in
    mkQuery 200 (QueryStats stats totalOrders totalRevenue).

End Queries.

End OrderQueries.

(* ===================================================================== *)
(** ** The middleware [isAdmin], the routes, and the stock of a product *)

Inductive ProductBody : Type :=
| ProductMessage (m : string)
| ProductDoc (p : Product.t).

Record ProductResponse : Type := mkProductResp {
  product_status : Z;
  product_body : ProductBody
}.

Module Routes.

(** [isAdmin(req, res, next)]: [None] is the call of [next]. *)
Definition isAdmin (user : option User.t) : option Response :=
  match user with
  | None => Some (mkResp 401 (Message "Unauthorized - Please authenticate first"))
  | Some u =>
      if negb (String.eqb (User.role u) "admin")
      then Some (mkResp 403 (Message "Forbidden - Admin access required"))
      else None
  end.

(** [Number.isInteger(v)], with the integer. *)
Definition isInteger (v : JsVal) : option Z :=
  match v with
  | JNum q =>
      if Z.rem (Qnum q) (Z.pos (Qden q)) =? 0
      then Some (Z.quot (Qnum q) (Z.pos (Qden q))) else None
  | _ => None
  end.

(** [Product.findByIdAndUpdate(id, { quantity }, { new: true })]. *)
Fixpoint findByIdAndUpdate (i : string) (quantity : Z) (ps : list Product.t)
  : list Product.t * option Product.t :=
  match ps with
  | [] => ([], None)
  | p :: r =>
      if Store.hasId i p then
        let p' := Product.mk (Product._id p) (Product.name p) quantity
                    (Product.sizes p) (Product.price p) in
        (p' :: r, Some p')
      else
        let '(r', found) := findByIdAndUpdate i quantity r in (p :: r', found)
  end.

Section Handlers.
Context `{Platform}.

(** [router.put('/:id/status', requireAdmin, updateOrderStatus)], for the
    user that [isAuth] has put on the request. *)
Definition putOrderStatus (user : User.t) (orderId : string) (status : JsVal)
    (db : Db.t) : Db.t * Response :=
  match isAdmin (Some user) with
  | Some response => (db, response)
  | None => OrdersController.updateOrderStatus orderId status db
  end.

(** [updateProductQuantity(req, res)], with [params = req.params] and
    [fields = req.body], both objects. *)
Definition updateProductQuantity (params fields : list (string * JsVal))
    (db : Db.t) : Db.t * ProductResponse :=
  let productId := match Js.lookup "productId" params with
                   | Some v => v | None => JUndefined end in
  let quantity := match Js.lookup "quantity" fields with
                  | Some v => v | None => JUndefined end in
  if negb (ObjectId_isValid productId) then
    (db, mkProductResp 400 (ProductMessage "Invalid product ID format"))
  else
    match isInteger quantity with
    | None =>
        (db, mkProductResp 400 (ProductMessage "Quantity must be a non-negative integer"))
    | Some z =>
        if z <? 0 then
          (db, mkProductResp 400 (ProductMessage "Quantity must be a non-negative integer"))
        else
          match findByIdAndUpdate (ObjectId_hex productId) z (Db.products db) with
          | (_, None) => (db, mkProductResp 404 (ProductMessage "Product not found"))
          | (ps, Some product) =>
              (Db.setProducts ps db, mkProductResp 200 (ProductDoc product))
          end
    end.

(** [router.put('/:id/quantity', requireAdmin, updateProductQuantity)]: the
    parameter of the path is named [id]. *)
Definition putProductQuantity (user : User.t) (id : string)
    (fields : list (string * JsVal)) (db : Db.t) : Db.t * ProductResponse :=
  match isAdmin (Some user) with
  | Some response =>
      (db, mkProductResp (status response)
             (ProductMessage
                (match body response with
                 | Message m => m
                 | _ => EmptyString
                 end)))
  | None => updateProductQuantity [("id", JStr id)] fields db
  end.

End Handlers.

End Routes.

(* ===================================================================== *)
(** ** Quantities the further properties speak about *)

(** A line as the catalog has it: between one and ten units of a product
    of the catalog, at the price of the catalog. *)
Definition lineFromCatalog (db : Db.t) (l : Order.Line) : Prop :=
  1 <= Order.quantity l <= 10
  /\ option_map Product.price
       (Store.findProduct (Order.product_id l) (Db.products db))
     = Some (Order.price l).

(** Whether a line of a cart has the product and the size that the
    request of [addItemToCart] names: the test of its [findIndex]. *)
Definition sameLine (req : CartController.AddRequest)
    (item : Cart.Item) : bool :=
  Js.strictEq (JStr (Cart.product item)) (CartController.productId req)
  && Js.strictEq (JStr (Cart.size item))
       (CartController.sanitizeInput (CartController.size req)).

(** The lines of the stored cart of a user; none when the user has no
    cart. *)
Definition storedLines (u : string) (db : Db.t) : list Cart.Item :=
  match Store.findCart u (Db.carts db) with
  | Some cart => Cart.items cart
  | None => []
  end.

(** A handler that answers 200 after writing the cart of the user, or
    answers something else and writes nothing. *)
Definition writesOwnCart (user : User.t) (db : Db.t)
    (r : Db.t * CartResponse) : Prop :=
  (fst r = db /\ cart_status (snd r) <> 200)
  \/ exists items total,
       fst r = Db.setCarts
                 (Store.putCart (Cart.mk (User.id user) items total) (Db.carts db))
                 db
       /\ cart_status (snd r) = 200
       /\ forallb CartController.itemValid items = true
       /\ CartController.itemsTotal items = Some total.

(** The orders the groups of a status breakdown count, and the amount of
    the groups of the statuses other than [Cancelled]. *)
Definition groupCounts (stats : list (Status * Z * Q)) : Z :=
  fold_right (fun g acc => snd (fst g) + acc) 0 stats.
Definition revenueOutsideCancelled (stats : list (Status * Z * Q)) : Q :=
  fold_right
    (fun g acc =>
       if OrderQueries.statusEqb (fst (fst g)) Cancelled then acc
       else (snd g + acc)%Q)
    0%Q stats.

(** The group of one status in a status breakdown. *)
Definition groupOf (s : Status) (os : list Order.t) : list (Status * Z * Q) :=
  match filter (fun o => OrderQueries.statusEqb (Order.order_status o) s) os with
  | [] => []
  | g => [(s, Z.of_nat (List.length g), OrderQueries.sumTotals g)]
  end.

(** Whether the catalog has the product of a cart line. *)
Definition inCatalog (ps : list Product.t) (l : Cart.Item) : bool :=
  match Store.findProduct (Cart.product l) ps with
  | Some _ => true
  | None => false
  end.

(** The characters of a string. *)
Fixpoint chars (s : string) : list ascii :=
  match s with
  | EmptyString => []
  | String c r => c :: chars r
  end.

(* ===================================================================== *)
(** ** Sample data for the further handlers *)

Module Scene.

Definition bob : User.t := User.mk "64a0000000000000000000b0" "user".

(** The identifier of the one line of the cart of [Sample.alice]. *)
Definition lineId : string := "64d000000000000000000001".

(** An order of [bob] that was shipped and an order of [Sample.alice] that
    was cancelled. *)
Definition shippedId : string := "64c000000000000000000002".
Definition cancelledId : string := "64c000000000000000000003".
Definition shipped : Order.t :=
  Order.mk shippedId (User.id bob) [Order.mkLine Sample.sandalId 1 "9" 45]
    45 10 55 Shipped.
Definition cancelled : Order.t :=
  Order.mk cancelledId (User.id Sample.alice)
    [Order.mkLine Sample.sandalId 3 "9" 45] 135 0 135 Cancelled.

(** A store with three orders. *)
Definition db : Db.t :=
  Db.mk [Store.inc (-2) Sample.runner; Store.inc (-1) Sample.sandal; Sample.laces]
    [Sample.orderIn Pending; shipped; cancelled] [Sample.cart].

(** The time the orders were created at, in milliseconds: the pending order
    first, the cancelled one last. *)
Definition createdAt (o : Order.t) : Z :=
  if String.eqb (Order._id o) Sample.orderId then 1700000000000
  else if String.eqb (Order._id o) shippedId then 1700000600000
  else 1700001200000.

Definition userExists (u : string) : bool :=
  String.eqb u (User.id Sample.alice) || String.eqb u (User.id bob).

(** Two dates the requests use. *)
Definition parseDate (s : string) : option Z :=
  if String.eqb s "2023-11-14T22:20:00.000Z" then Some 1700000400000
  else if String.eqb s "2023-11-15" then Some 1700006400000
  else None.

(** One more pair of the runner in size "9" for the cart of [Sample.alice]. *)
Definition oneRunner : CartController.AddRequest :=
  CartController.mkAdd (JStr Sample.runnerId) JUndefined (JStr " <9> ")
    Sample.alice.

End Scene.

(* ===================================================================== *)
(** * Properties *)

Import OrdersController.

Ltac case_match_in H :=
  match type of H with
  | context [match ?x with _ => _ end] => destruct x eqn:?
  end.

Section StoreFacts.

Lemma hasId_true i p : Store.hasId i p = true <-> Product._id p = i.
Proof. unfold Store.hasId. apply String.eqb_eq. Qed.

Lemma hasId_other i j p :
  Store.hasId i p = true -> String.eqb j i = false -> Store.hasId j p = false.
Proof.
  intros Hi Hj. apply hasId_true in Hi. unfold Store.hasId.
  rewrite Hi, String.eqb_sym. exact Hj.
Qed.

Lemma hasId_same i j p :
  Store.hasId i p = true -> String.eqb j i = true -> Store.hasId j p = true.
Proof.
  intros Hi Hj. apply String.eqb_eq in Hj. subst j. exact Hi.
Qed.

(** An update whose filter asks for the identifier [i], and holds of the
    document found under [i], changes that document and no other. *)
Lemma updateOne_found (f : Product.t -> bool) i d ps p :
  (forall x, f x = true -> Store.hasId i x = true) ->
  Store.findProduct i ps = Some p ->
  f p = true ->
  snd (Store.updateOne f d ps) = 1
  /\ forall j, Store.findProduct j (fst (Store.updateOne f d ps))
               = if String.eqb j i then Some (Store.inc d p)
                 else Store.findProduct j ps.
Proof.
  intros Hf. induction ps as [|x r IH]; simpl; intros Hfind Hp.
  - discriminate.
  - unfold Store.findProduct in Hfind. simpl in Hfind.
    destruct (Store.hasId i x) eqn:Hx.
    + injection Hfind as ->. rewrite Hp. simpl. split; [reflexivity|].
      intros j. unfold Store.findProduct. simpl.
      change (Store.hasId j (Store.inc d p)) with (Store.hasId j p).
      destruct (String.eqb j i) eqn:Hj.
      * rewrite (hasId_same _ _ _ Hx Hj). reflexivity.
      * rewrite (hasId_other _ _ _ Hx Hj). reflexivity.
    + destruct (f x) eqn:Hfx.
      * apply Hf in Hfx. congruence.
      * destruct (IH Hfind Hp) as [Hn Hj].
        destruct (Store.updateOne f d r) as [r' n]. simpl in *.
        split; [exact Hn|]. intros j. unfold Store.findProduct in *. simpl.
        destruct (Store.hasId j x) eqn:Hjx.
        -- destruct (String.eqb j i) eqn:Hji; [|reflexivity].
           apply String.eqb_eq in Hji. subst j. congruence.
        -- apply Hj.
Qed.

(** A filter that no document satisfies leaves the collection as it is. *)
Lemma updateOne_none (f : Product.t -> bool) d ps :
  snd (Store.updateOne f d ps) = 0 -> fst (Store.updateOne f d ps) = ps.
Proof.
  induction ps as [|x r IH]; simpl; [reflexivity|].
  destruct (f x).
  - simpl. discriminate.
  - destruct (Store.updateOne f d r) as [r' n]. simpl in *.
    intros Hn. rewrite (IH Hn). reflexivity.
Qed.

Lemma idAndAtLeast_hasId i q x :
  Store.idAndAtLeast i q x = true -> Store.hasId i x = true.
Proof.
  unfold Store.idAndAtLeast. intros Hx.
  apply andb_true_iff in Hx. tauto.
Qed.

End StoreFacts.

Section Placement.
Context `{Platform}.

(** What an accepted line went through. *)
Lemma processItem_Ok env i item db db1 line t :
  processItem env i item db = Ok (db1, line, t) ->
  exists pid q p,
    Js.prop "product_id" item = Some pid
    /\ 1 <= q <= 10
    /\ Store.findProduct (ObjectId_hex pid) (Db.products db) = Some p
    /\ q <= Product.quantity p
    /\ lost_race env i = false
    /\ db1 = Db.setProducts
               (fst (Store.updateOne (Store.idAndAtLeast (ObjectId_hex pid) q)
                       (- q) (Db.products db))) db
    /\ Order.product_id line = ObjectId_hex pid
    /\ Order.quantity line = q
    /\ Order.price line = Product.price p
    /\ t = (Product.price p * inject_Z q)%Q.
Proof.
  unfold processItem, interpolate, bind. intros Hok.
  repeat (case_match_in Hok; try discriminate Hok).
  all: injection Hok as <- <- <-.
  all: match goal with
       | Hq : (Js.leb (Fin ?z) 0 || Js.gtb (Fin ?z) 10) = false,
         Hp : Store.findProduct (ObjectId_hex ?pid) _ = Some ?p |- _ =>
           exists pid, z, p
       end.
  all: repeat match goal with
       | Hq : (_ || _) = false |- _ => apply orb_false_iff in Hq; destruct Hq
       end.
  all: assert (Hrace : lost_race env i = false)
         by (destruct (lost_race env i); [|reflexivity];
             match goal with
             | Hu : (_, 0) = (_, ?n), Hn : (?n =? 0) = false |- _ =>
                 injection Hu as _ <-; discriminate Hn
             end).
  all: rewrite Hrace in *.
  all: match goal with
       | Hu : Store.updateOne _ _ _ = (_, _) |- _ => rewrite Hu
       end.
  all: simpl in *.
  all: repeat split; try reflexivity; try assumption; try lia.
Qed.


Lemma createOrder_catch_status message :
  status (createOrder_catch message) <> 201.
Proof.
  unfold createOrder_catch.
  repeat match goal with
  | |- context [if ?b then _ else _] => destruct b
  end; simpl; discriminate.
Qed.

(** The two ways [createOrder] ends once the request has lines: the
    transaction returned and is committed, or it threw and left nothing. *)
Lemma createOrder_cases env req db :
  (exists items db' o,
      req_products req = JArr items
      /\ createOrder_transaction env items (req_total_amount req)
           (User.id (req_user req)) db = Ok (db', o)
      /\ createOrder env req db = (db', mkResp 201 (OrderDoc o)))
  \/ (fst (createOrder env req db) = db
      /\ status (snd (createOrder env req db)) <> 201
      /\ forall item rest message,
           req_products req = JArr (item :: rest) ->
           createOrder_transaction env (item :: rest) (req_total_amount req)
             (User.id (req_user req)) db = Throw message ->
           snd (createOrder env req db) = createOrder_catch message).
Proof.
  unfold createOrder.
  destruct (req_products req) as [| |b|q|s|[|item rest]|fs];
    try (right; simpl; repeat split;
         [discriminate | intros item' rest' message E; discriminate E]).
  unfold withTransaction.
  destruct (createOrder_transaction env (item :: rest) (req_total_amount req)
              (User.id (req_user req)) db) as [[db' o]|m] eqn:Htx.
  - left. exists (item :: rest), db', o. auto.
  - right. simpl. repeat split.
    + apply createOrder_catch_status.
    + intros item' rest' message E Hm. injection E as <- <-.
      rewrite Htx in Hm. injection Hm as ->. reflexivity.
Qed.

(** C1. Whenever a placement is not answered with 201 (the products list is
    missing or empty, a line is malformed, a product or a size is not
    found, the stock is short, the conditional decrement matched nothing,
    persisting the order or clearing the cart failed), the store after the
    request is the store before it: no stock was decremented, no order
    exists for the request and the cart is as it was. *)
Theorem createOrder_failure_rolls_back env req db :
  status (snd (createOrder env req db)) <> 201 ->
  fst (createOrder env req db) = db.
Proof.
  intros Hfail.
  destruct (createOrder_cases env req db) as [(items & db' & o & _ & _ & E)|[E _]].
  - rewrite E in Hfail. simpl in Hfail. contradiction Hfail. reflexivity.
  - exact E.
Qed.

End Placement.

(** The writes that are discarded exist: the first line of this request
    takes three pairs off the stock, the second line throws, and the store
    after the request has the five pairs again. *)
Example rollback_discards_first_line :
  (exists db1 line itemTotal,
      processItem Sample.env 0
        (Sample.line Sample.runnerId (JNum 3) (JStr "10")) Sample.db
      = Ok (db1, line, itemTotal)
      /\ stock Sample.runnerId db1 = Some 2)
  /\ stock Sample.runnerId
       (fst (createOrder Sample.env Sample.tooManyRunners Sample.db)) = Some 5
  /\ status (snd (createOrder Sample.env Sample.tooManyRunners Sample.db)) = 409.
Proof.
  split; [|split; vm_compute; reflexivity].
  eexists. eexists. eexists. split; vm_compute; reflexivity.
Qed.

(** A driver that fails to persist the order, or to clear the cart, after
    the stock has been decremented: nothing of the placement remains. *)
Example store_faults_roll_back :
  createOrder (mkEnv (fun _ => false) (Some "connection closed") None Sample.orderId)
    (Sample.threeRunners JUndefined) Sample.db
  = (Sample.db, mkResp 500 (Message "Internal Server Error"))
  /\ createOrder (mkEnv (fun _ => false) None (Some "connection closed") Sample.orderId)
       (Sample.threeRunners JUndefined) Sample.db
     = (Sample.db, mkResp 500 (Message "Internal Server Error")).
Proof. split; vm_compute; reflexivity. Qed.

(** A failing placement whose first line had already taken three pairs off
    the stock when the second line threw. *)
Lemma createOrder_failure_rolls_back_witness :
  status (snd (createOrder Sample.env Sample.tooManyRunners Sample.db)) <> 201
  /\ fst (createOrder Sample.env Sample.tooManyRunners Sample.db) = Sample.db.
Proof.
  split.
  - vm_compute. discriminate.
  - apply createOrder_failure_rolls_back. vm_compute. discriminate.
Defined.

Section Stock.
Context `{Platform}.

Lemma includes_app_r a b sub :
  Str.includes b sub = true -> Str.includes (a ++ b) sub = true.
Proof.
  intros Hb. induction a as [|c a IH]; simpl; [exact Hb|].
  rewrite IH. apply orb_true_r.
Qed.

Lemma soldOutMessage_sold_out p :
  Str.includes (soldOutMessage p) "sold out" = true.
Proof.
  unfold soldOutMessage. apply includes_app_r, includes_app_r. reflexivity.
Qed.

(** The stock after an accepted line: the product of the line has exactly
    the units of the line less, which leaves it non-negative; every other
    product is as before; orders and carts are untouched. *)
Lemma processItem_stock env i item db db1 line t :
  processItem env i item db = Ok (db1, line, t) ->
  exists s,
    stock (Order.product_id line) db = Some s
    /\ 1 <= Order.quantity line <= 10
    /\ Order.quantity line <= s
    /\ (forall j, stock j db1
                  = if String.eqb j (Order.product_id line)
                    then Some (s - Order.quantity line) else stock j db)
    /\ Db.orders db1 = Db.orders db
    /\ Db.carts db1 = Db.carts db
    /\ lost_race env i = false
    /\ (t == Order.price line * inject_Z (Order.quantity line))%Q.
Proof.
  intros Hok.
  destruct (processItem_Ok _ _ _ _ _ _ _ Hok)
    as (pid & q & p & _ & Hq & Hfind & Hle & Hrace & -> & Hid & Hqty & Hprice & ->).
  rewrite Hid, Hqty, Hprice. exists (Product.quantity p).
  assert (Hp : Store.idAndAtLeast (ObjectId_hex pid) q p = true).
  { unfold Store.idAndAtLeast. apply andb_true_iff. split.
    - unfold Store.findProduct in Hfind. apply find_some in Hfind. tauto.
    - apply Z.leb_le. exact Hle. }
  destruct (updateOne_found _ _ (- q) _ _
              (idAndAtLeast_hasId (ObjectId_hex pid) q) Hfind Hp) as [_ Hupd].
  unfold stock. rewrite Hfind. simpl.
  repeat split; try assumption; try lia; try reflexivity.
  intros j. rewrite Hupd. destruct (String.eqb j (ObjectId_hex pid)); reflexivity.
Qed.

(** The loop over the lines: what it pushes, what it takes off the stock,
    what it adds to the subtotal. *)
Lemma processItems_effect env items :
  forall i db acc sub db' lines sub',
    processItems env i items db acc sub = Ok (db', lines, sub') ->
    exists new,
      lines = (acc ++ new)%list
      /\ List.length new = List.length items
      /\ (forall j, stock j db'
                    = option_map (fun s => s - ordered j new) (stock j db))
      /\ (forall j s s', stock j db = Some s -> stock j db' = Some s' ->
                         s' <= s /\ (s' < s -> 0 <= s'))
      /\ (forall k, (k < List.length items)%nat -> lost_race env (i + k) = false)
      /\ Db.orders db' = Db.orders db
      /\ Db.carts db' = Db.carts db
      /\ (sub' == sub + linesTotal new)%Q.
Proof.
  induction items as [|item rest IH]; simpl; intros i db acc sub db' lines sub' Hok.
  - injection Hok as <- <- <-. exists []. rewrite app_nil_r. simpl.
    repeat apply conj; try reflexivity.
    + intros j. destruct (stock j db); simpl; [f_equal; lia | reflexivity].
    + intros j s s' Hs Hs'. assert (s = s') by congruence. lia.
    + intros k Hk. lia.
    + ring.
  - unfold bind in Hok.
    destruct (processItem env i item db) as [[[db1 line] t]|m] eqn:Hstep;
      [|discriminate Hok].
    destruct (processItem_stock _ _ _ _ _ _ _ Hstep)
      as (s0 & Hs0 & Hq & Hle & Hst & Hord & Hcart & Hrace & Ht).
    destruct (IH _ _ _ _ _ _ _ Hok)
      as (new & -> & Hlen & Hstock & Hmono & Hraces & Hord' & Hcart' & Hsub).
    exists (line :: new). rewrite <- app_assoc. simpl.
    repeat apply conj.
    + reflexivity.
    + rewrite Hlen. reflexivity.
    + intros j. rewrite Hstock, Hst. rewrite String.eqb_sym.
      destruct (String.eqb (Order.product_id line) j) eqn:Hj.
      * apply String.eqb_eq in Hj. subst j. rewrite Hs0. simpl. f_equal. lia.
      * destruct (stock j db); simpl; [f_equal; lia | reflexivity].
    + intros j s s' Hs Hs'. specialize (Hst j).
      destruct (String.eqb j (Order.product_id line)) eqn:Hj.
      * apply String.eqb_eq in Hj. subst j.
        destruct (Hmono _ _ _ Hst Hs') as [Ha Hb].
        assert (s0 = s) by congruence. lia.
      * rewrite Hs in Hst. exact (Hmono _ _ _ Hst Hs').
    + intros k Hk. destruct k as [|k].
      * rewrite Nat.add_0_r. exact Hrace.
      * replace (i + S k)%nat with (S i + k)%nat by lia. apply Hraces. lia.
    + congruence.
    + congruence.
    + rewrite Hsub, Ht. ring.
Qed.


(** What a committed placement wrote. *)
Lemma createOrder_transaction_Ok env items total_amount userId db db' o :
  createOrder_transaction env items total_amount userId db = Ok (db', o) ->
  exists db1 lines sub,
    processItems env 0 items db [] 0%Q = Ok (db1, lines, sub)
    /\ checkClientTotal total_amount = Ok tt
    /\ o = OrderModel.preSave
             (Order.mk (fresh_id env) userId lines
                (subtotal (calculateOrderTotals sub))
                (shipping (calculateOrderTotals sub))
                (total (calculateOrderTotals sub)) Pending)
    /\ db' = Db.mk (Db.products db1) (Db.orders db1 ++ [o])
               (Store.clearCartOf userId (Db.carts db1)).
Proof.
  unfold createOrder_transaction, OrderModel.saveNew, clearCart, bind.
  intros Hok.
  destruct (processItems env 0 items db [] 0%Q) as [[[db1 lines] sub]|m] eqn:Hloop;
    [|discriminate Hok].
  exists db1, lines, sub.
  destruct (checkClientTotal total_amount) as [[]|m]; [|discriminate Hok].
  destruct (castSizes items) as [[]|m]; [|discriminate Hok].
  destruct (save_fault env); [discriminate Hok|].
  destruct (OrderModel.validate _) as [[]|m]; [|discriminate Hok].
  destruct (Store.findOrder _ _); [discriminate Hok|].
  destruct (cart_fault env); [discriminate Hok|].
  injection Hok as <- <-.
  repeat split.
Qed.

(** A line whose conditional update comes back with no document modified
    throws the inventory error, whatever else holds of the line. *)
Lemma processItem_lost_race env i item db :
  lost_race env i = true ->
  (forall r, processItem env i item db <> Ok r)
  /\ (forall db1 line t,
         processItem (quietly env) i item db = Ok (db1, line, t) ->
         exists p,
           Store.findProduct (Order.product_id line) (Db.products db) = Some p
           /\ processItem env i item db = Throw (soldOutMessage p)).
Proof.
  intros Hrace. split.
  - intros [[db1 line] t] Hok.
    destruct (processItem_Ok _ _ _ _ _ _ _ Hok)
      as (pid & q & p & _ & _ & _ & _ & Hno & _).
    congruence.
  - intros db1 line t Hok.
    unfold processItem, interpolate, bind in *. rewrite Hrace.
    repeat (case_match_in Hok; try discriminate Hok).
    all: injection Hok as <- <- <-; simpl.
    all: match goal with
         | Hf : Store.findProduct _ _ = Some ?p |- _ =>
             exists p; split; [exact Hf | reflexivity]
         end.
Qed.

(** The stock under placement.  (1) The conditional update leaves a
    collection alone in which no document with the identifier has the
    amount in stock.  (2) After a placement answered 201 every product has
    exactly the units of the order's lines less: [s - q] for a product with
    stock [s] that one line orders [q] of.  (3) A conditional update that
    reports no modified document, on any line of the request, leaves the
    store untouched and the request unanswered by 201: the whole placement
    aborts.  (4) The error it aborts with is the inventory error of the
    product, "Failed to update inventory ... Possibly sold out.", and
    (5) the [catch] block answers that message with 409 provided its tests
    for a client error and for not-found, which come first, do not match
    it.  (6) No stock level rises through a placement, and one that falls
    stays non-negative. *)
Theorem createOrder_stock_accounting env req db db' resp :
  createOrder env req db = (db', resp) ->
  (forall i q ps,
      (forall x, In x ps -> Store.hasId i x = true -> Product.quantity x < q) ->
      Store.updateOne (Store.idAndAtLeast i q) (- q) ps = (ps, 0))
  /\ (forall o, resp = mkResp 201 (OrderDoc o) ->
        forall j, stock j db'
                  = option_map (fun s => s - ordered j (Order.products o))
                      (stock j db))
  /\ (forall items k,
        req_products req = JArr items -> (k < List.length items)%nat ->
        lost_race env k = true -> db' = db /\ status resp <> 201)
  /\ (forall i item st st1 line t,
        lost_race env i = true ->
        processItem (quietly env) i item st = Ok (st1, line, t) ->
        exists p,
          Store.findProduct (Order.product_id line) (Db.products st) = Some p
          /\ processItem env i item st = Throw (soldOutMessage p))
  /\ (forall item rest p,
        req_products req = JArr (item :: rest) ->
        createOrder_transaction env (item :: rest) (req_total_amount req)
          (User.id (req_user req)) db = Throw (soldOutMessage p) ->
        reachesConflictTest (soldOutMessage p) = true ->
        resp = mkResp 409 (Message (soldOutMessage p)))
  /\ (forall j s s', stock j db = Some s -> stock j db' = Some s' ->
                     s' <= s /\ (s' < s -> 0 <= s')).
Proof.
  intros Hrun.
  assert (Hfst : fst (createOrder env req db) = db') by (rewrite Hrun; reflexivity).
  assert (Hsnd : snd (createOrder env req db) = resp) by (rewrite Hrun; reflexivity).
  repeat apply conj.
  - intros i q ps. induction ps as [|x r IH]; intros Hlow; simpl; [reflexivity|].
    unfold Store.idAndAtLeast at 1.
    destruct (Store.hasId i x) eqn:Hx; simpl.
    + assert (Hq : Product.quantity x < q) by (apply Hlow; simpl; auto).
      apply Z.leb_gt in Hq. rewrite Hq.
      rewrite IH; [reflexivity|]. intros y Hy. apply Hlow. simpl. auto.
    + rewrite IH; [reflexivity|]. intros y Hy. apply Hlow. simpl. auto.
  - intros o ->.
    destruct (createOrder_cases env req db)
      as [(items & db2 & o2 & _ & Htx & E)|(_ & Hno & _)].
    + rewrite E in Hrun. injection Hrun as <- <-.
      destruct (createOrder_transaction_Ok _ _ _ _ _ _ _ Htx)
        as (db1 & lines & sub & Hloop & _ & -> & ->).
      destruct (processItems_effect _ _ _ _ _ _ _ _ _ Hloop)
        as (new & -> & _ & Hstock & _).
      intros j. unfold OrderModel.preSave.
      destruct (negb _); simpl; exact (Hstock j).
    + rewrite Hsnd in Hno. contradiction Hno. reflexivity.
  - intros items k Hitems Hk Hrace.
    destruct (createOrder_cases env req db)
      as [(items2 & db2 & o2 & Hitems2 & Htx & E)|(Hdb & Hno & _)].
    + rewrite Hitems in Hitems2. injection Hitems2 as <-.
      destruct (createOrder_transaction_Ok _ _ _ _ _ _ _ Htx)
        as (db1 & lines & sub & Hloop & _).
      destruct (processItems_effect _ _ _ _ _ _ _ _ _ Hloop)
        as (new & _ & _ & _ & _ & Hraces & _).
      specialize (Hraces k Hk). simpl in Hraces. congruence.
    + split; congruence.
  - intros i item st st1 line t Hrace.
    apply (proj2 (processItem_lost_race env i item st Hrace)).
  - intros item rest p Hitems Hthrow Hreach.
    destruct (createOrder_cases env req db)
      as [(items2 & db2 & o2 & Hitems2 & Htx & E)|(_ & _ & Hcatch)].
    + rewrite Hitems in Hitems2. injection Hitems2 as <-. congruence.
    + rewrite <- Hsnd, (Hcatch _ _ _ Hitems Hthrow).
      unfold createOrder_catch. unfold reachesConflictTest in Hreach.
      rewrite soldOutMessage_sold_out, orb_true_r.
      destruct (Str.includes (soldOutMessage p) "Invalid");
        [discriminate Hreach|].
      destruct (Str.includes (soldOutMessage p) "required");
        [discriminate Hreach|].
      destruct (Str.includes (soldOutMessage p) "not found");
        [discriminate Hreach|].
      destruct (Str.includes (soldOutMessage p) "not available");
        [discriminate Hreach|].
      reflexivity.
  - intros j s s' Hs Hs'.
    destruct (createOrder_cases env req db)
      as [(items & db2 & o2 & _ & Htx & E)|(Hdb & _)].
    + rewrite E in Hrun. injection Hrun as <- <-.
      destruct (createOrder_transaction_Ok _ _ _ _ _ _ _ Htx)
        as (db1 & lines & sub & Hloop & _ & _ & ->).
      destruct (processItems_effect _ _ _ _ _ _ _ _ _ Hloop)
        as (new & _ & _ & _ & Hmono & _).
      exact (Hmono j s s' Hs Hs').
    + assert (db' = db) by congruence. subst db'.
      assert (s = s') by congruence. lia.
Qed.

End Stock.

(** The example of the specification: three pairs of a product with five in
    stock leave two. *)
Lemma createOrder_stock_accounting_witness :
  createOrder Sample.env (Sample.threeRunners JUndefined) Sample.db
  = (fst (createOrder Sample.env (Sample.threeRunners JUndefined) Sample.db),
     snd (createOrder Sample.env (Sample.threeRunners JUndefined) Sample.db))
  /\ stock Sample.runnerId
       (fst (createOrder Sample.env (Sample.threeRunners JUndefined) Sample.db))
     = Some 2.
Proof.
  split; [apply surjective_pairing|].
  destruct (createOrder_stock_accounting Sample.env
              (Sample.threeRunners JUndefined) Sample.db _ _
              (surjective_pairing _)) as (_ & Hacc & _).
  erewrite Hacc by (vm_compute; reflexivity).
  vm_compute. reflexivity.
Defined.

(* ===================================================================== *)
(** ** Totals *)

Section Totals.

Lemma preSave_products o :
  Order.products (OrderModel.preSave o) = Order.products o.
Proof. unfold OrderModel.preSave. destruct (negb _); reflexivity. Qed.

Lemma preSave_status o :
  Order.order_status (OrderModel.preSave o) = Order.order_status o.
Proof. unfold OrderModel.preSave. destruct (negb _); reflexivity. Qed.

Lemma preSave_id o : Order._id (OrderModel.preSave o) = Order._id o.
Proof. unfold OrderModel.preSave. destruct (negb _); reflexivity. Qed.

Lemma preSave_subtotal o :
  Order.subtotal (OrderModel.preSave o) = Order.subtotal o
  /\ Order.shipping (OrderModel.preSave o) = Order.shipping o.
Proof. unfold OrderModel.preSave. destruct (negb _); split; reflexivity. Qed.

(** The hook leaves the total within the tolerance of the sum. *)
Lemma preSave_within o : withinTolerance (OrderModel.preSave o).
Proof.
  unfold OrderModel.preSave.
  destruct (Qle_bool _ _) eqn:Hle; cbn [negb].
  - apply Qle_bool_iff. exact Hle.
  - unfold withinTolerance.
    cbn [Order.total_amount Order.subtotal Order.shipping].
    setoid_replace (Order.subtotal o + Order.shipping o
                    - (Order.subtotal o + Order.shipping o))%Q with 0%Q by ring.
    discriminate.
Qed.

(** It replaces a total that is further away... *)
Lemma preSave_outside o :
  ~ withinTolerance o ->
  Order.total_amount (OrderModel.preSave o)
  = (Order.subtotal o + Order.shipping o)%Q.
Proof.
  unfold withinTolerance, OrderModel.preSave. intros Hout.
  destruct (Qle_bool _ _) eqn:Hle; simpl; [|reflexivity].
  apply Qle_bool_iff in Hle. contradiction.
Qed.

(** ... and no other. *)
Lemma preSave_inside o : withinTolerance o -> OrderModel.preSave o = o.
Proof.
  unfold withinTolerance, OrderModel.preSave. intros Hin.
  apply Qle_bool_iff in Hin. rewrite Hin. reflexivity.
Qed.

Context `{Platform}.

(** The amounts of a placed order: the subtotal is the sum of price times
    quantity over its lines, at the prices read from the catalog; shipping
    is 10 up to a subtotal of 100 and free above; the total is the subtotal
    plus shipping once the subtotal exceeds 0.125, and within 0.01 of it
    otherwise. *)
Lemma createOrder_totals env req db db' o :
  createOrder env req db = (db', mkResp 201 (OrderDoc o)) ->
  (Order.subtotal o == linesTotal (Order.products o))%Q
  /\ Order.shipping o
     = (if Qle_bool (Order.subtotal o) 100 then 10%Q else 0%Q)
  /\ withinTolerance o
  /\ ((1 # 8 < Order.subtotal o)%Q ->
      Order.total_amount o = (Order.subtotal o + Order.shipping o)%Q).
Proof.
  intros Hrun.
  destruct (createOrder_cases env req db)
    as [(items & db2 & o2 & _ & Htx & E)|(_ & Hno & _)];
    [|rewrite Hrun in Hno; contradiction Hno; reflexivity].
  rewrite E in Hrun. injection Hrun as <- <-.
  destruct (createOrder_transaction_Ok _ _ _ _ _ _ _ Htx)
    as (db1 & lines & sub & Hloop & _ & -> & _).
  destruct (processItems_effect _ _ _ _ _ _ _ _ _ Hloop)
    as (new & -> & _ & _ & _ & _ & _ & _ & Hsub).
  set (o0 := Order.mk _ _ _ _ _ _ _).
  destruct (preSave_subtotal o0) as [Hs Hsh].
  rewrite preSave_products, Hs, Hsh. simpl.
  repeat apply conj.
  - rewrite Hsub. ring.
  - destruct (Qle_bool sub 100); reflexivity.
  - apply preSave_within.
  - intros Hbig. apply preSave_outside.
    unfold withinTolerance, OrderModel.tolerance, o0, calculateOrderTotals.
    cbn [Order.total_amount Order.subtotal Order.shipping subtotal shipping total].
    intros Habs.
    set (sh := if negb (Qle_bool sub 100) then 0%Q else 10%Q) in *.
    setoid_replace (sub + sh + sub * (8 # 100) - (sub + sh))%Q
      with (sub * (8 # 100))%Q in Habs by ring.
    assert (Hpos : (0 <= sub * (8 # 100))%Q).
    { apply Qmult_le_0_compat; [|discriminate].
      apply Qlt_le_weak. eapply Qlt_trans; [|exact Hbig]. reflexivity. }
    rewrite (Qabs_pos _ Hpos) in Habs.
    unfold Qlt, Qle in *. simpl in *. lia.
Qed.

(** Up to a subtotal of 0.125 the tax stays in the total of the order that
    is persisted. *)
Lemma createOrder_small_subtotal env req db db' o :
  createOrder env req db = (db', mkResp 201 (OrderDoc o)) ->
  (0 <= Order.subtotal o)%Q -> (Order.subtotal o <= 1 # 8)%Q ->
  Order.total_amount o
  = (Order.subtotal o + 10 + Order.subtotal o * (8 # 100))%Q.
Proof.
  intros Hrun Hpos Hsmall.
  destruct (createOrder_cases env req db)
    as [(items & db2 & o2 & _ & Htx & E)|(_ & Hno & _)];
    [|rewrite Hrun in Hno; contradiction Hno; reflexivity].
  rewrite E in Hrun. injection Hrun as <- <-.
  destruct (createOrder_transaction_Ok _ _ _ _ _ _ _ Htx)
    as (db1 & lines & sub & _ & _ & -> & _).
  set (o0 := Order.mk _ _ _ _ _ _ _) in *.
  destruct (preSave_subtotal o0) as [Hs _]. rewrite Hs in *.
  change (Order.subtotal o0) with sub in *.
  assert (Hle : Qle_bool sub 100 = true).
  { apply Qle_bool_iff. eapply Qle_trans; [exact Hsmall|discriminate]. }
  rewrite preSave_inside.
  - unfold o0, calculateOrderTotals.
    cbn [Order.total_amount subtotal shipping total]. rewrite Hle. reflexivity.
  - unfold withinTolerance, OrderModel.tolerance, o0, calculateOrderTotals.
    cbn [Order.total_amount Order.subtotal Order.shipping subtotal shipping total].
    rewrite Hle. cbn [negb].
    setoid_replace (sub + 10 + sub * (8 # 100) - (sub + 10))%Q
      with (sub * (8 # 100))%Q by ring.
    assert (H0 : (0 <= sub * (8 # 100))%Q)
      by (apply Qmult_le_0_compat; [exact Hpos|discriminate]).
    rewrite (Qabs_pos _ H0).
    unfold Qle in *. simpl in *. lia.
Qed.

End Totals.

(** C3. A placement of one pair of laces at ten cents is accepted; the
    order it persists has subtotal 0.1 and shipping 10, and its total is
    10.108: the eight per cent that [calculateOrderTotals] adds stay in the
    total, because they are within the tolerance of the pre-save hook.  The
    total is not the subtotal plus shipping. *)
Theorem createOrder_small_subtotal_keeps_tax :
  exists db' o,
    createOrder Sample.env Sample.onePairOfLaces Sample.db
    = (db', mkResp 201 (OrderDoc o))
    /\ In o (Db.orders db')
    /\ (Order.subtotal o == 1 # 10)%Q
    /\ (Order.shipping o == 10)%Q
    /\ (Order.total_amount o == 10108 # 1000)%Q
    /\ ~ (Order.total_amount o == Order.subtotal o + Order.shipping o)%Q.
Proof.
  eexists. eexists. split; [vm_compute; reflexivity|].
  split; [left; reflexivity|].
  repeat split; try reflexivity.
  intros Heq. vm_compute in Heq. discriminate Heq.
Qed.

(* ===================================================================== *)
(** ** The order status engine *)

Section StatusEngine.
Context `{Platform}.

Lemma statusOf_truthy v s : statusOf v = Some s -> Js.truthy v = true.
Proof.
  destruct v as [| |b|q|str|l|fs]; simpl; try discriminate.
  destruct (String.eqb str EmptyString) eqn:E; [|reflexivity].
  apply String.eqb_eq in E. subst str. discriminate.
Qed.

(** The names [statusOf] accepts are the members of [validStatuses]. *)
Lemma statusOf_validStatuses v :
  Js.arrIncludes validStatuses v = true <-> statusOf v <> None.
Proof.
  destruct v as [| |b|q|str|l|fs]; try (simpl; split; congruence).
  unfold Js.arrIncludes, validStatuses, statusOf.
  cbn [existsb Js.strictEq].
  rewrite (String.eqb_sym "Pending"), (String.eqb_sym "Processing"),
    (String.eqb_sym "Shipped"), (String.eqb_sym "Delivered"),
    (String.eqb_sym "Cancelled").
  repeat destruct (String.eqb str _); simpl; split; congruence.
Qed.

Lemma validate_setStatus s o :
  OrderModel.validate (Order.setStatus s o) = OrderModel.validate o.
Proof. reflexivity. Qed.

(** A status update of a stored order, step by step. *)
Lemma updateOrderStatus_run orderId status newStatus order db :
  ObjectId_isValid (JStr orderId) = true ->
  statusOf status = Some newStatus ->
  Store.findOrder (ObjectId_hex (JStr orderId)) (Db.orders db) = Some order ->
  OrderModel.validate order = Ok tt ->
  updateOrderStatus orderId status db
  = (let db1 := afterRestore newStatus order db in
     let o := OrderModel.preSave (Order.setStatus newStatus order) in
     (Db.setOrders (Store.replaceOrder o (Db.orders db1)) db1,
      mkResp 200 (OrderDoc o))).
Proof.
  intros Hvalid Hstatus Hfind Hschema.
  unfold updateOrderStatus, withTransaction, updateOrderStatus_transaction,
    OrderModel.save, bind, afterRestore.
  rewrite Hvalid, (statusOf_truthy _ _ Hstatus), Hstatus, Hfind.
  rewrite validate_setStatus, Hschema. reflexivity.
Qed.

(** What an update answered with 200 did. *)
Lemma updateOrderStatus_200 orderId status db db' o :
  updateOrderStatus orderId status db = (db', mkResp 200 (OrderDoc o)) ->
  exists newStatus order,
    statusOf status = Some newStatus
    /\ Store.findOrder (ObjectId_hex (JStr orderId)) (Db.orders db) = Some order
    /\ o = OrderModel.preSave (Order.setStatus newStatus order)
    /\ db' = Db.setOrders
               (Store.replaceOrder o (Db.orders (afterRestore newStatus order db)))
               (afterRestore newStatus order db).
Proof.
  unfold updateOrderStatus, withTransaction, updateOrderStatus_transaction,
    OrderModel.save, bind, afterRestore.
  intros Hrun.
  destruct (negb (ObjectId_isValid (JStr orderId))); [discriminate Hrun|].
  destruct (negb (Js.truthy status)); [discriminate Hrun|].
  destruct (statusOf status) as [newStatus|]; [|discriminate Hrun].
  destruct (Store.findOrder _ _) as [order|]; [|discriminate Hrun].
  exists newStatus, order.
  destruct (OrderModel.validate _) as [[]|m].
  - injection Hrun as <- <-. repeat split.
  - destruct (String.eqb m "Order not found"); discriminate Hrun.
Qed.

(** An order that is neither pending nor in processing: whatever a request
    does to its status, and whether it succeeds, the catalog is as before. *)
Lemma updateOrderStatus_no_restore orderId status order db :
  Store.findOrder (ObjectId_hex (JStr orderId)) (Db.orders db) = Some order ->
  restorable (Order.order_status order) = false ->
  Db.products (fst (updateOrderStatus orderId status db)) = Db.products db.
Proof.
  intros Hfind Hgate.
  unfold updateOrderStatus, withTransaction, updateOrderStatus_transaction,
    OrderModel.save, bind, afterRestore.
  destruct (negb (ObjectId_isValid (JStr orderId))); [reflexivity|].
  destruct (negb (Js.truthy status)); [reflexivity|].
  destruct (statusOf status) as [newStatus|]; [|reflexivity].
  rewrite Hfind, Hgate, andb_false_r.
  destruct (OrderModel.validate _) as [[]|m]; [reflexivity|].
  destruct (String.eqb m "Order not found"); reflexivity.
Qed.

Lemma deleteOrder_no_restore orderId user order db :
  Store.findOrder (ObjectId_hex (JStr orderId)) (Db.orders db) = Some order ->
  restorable (Order.order_status order) = false ->
  Db.products (fst (deleteOrder orderId user db)) = Db.products db.
Proof.
  intros Hfind Hgate.
  unfold deleteOrder, withTransaction, deleteOrder_transaction.
  destruct (negb (ObjectId_isValid (JStr orderId))); [reflexivity|].
  rewrite Hfind, Hgate.
  destruct (negb _ && negb _); [reflexivity|]. reflexivity.
Qed.


Lemma findProduct_id j ps p :
  Store.findProduct j ps = Some p -> Store.hasId j p = true.
Proof.
  unfold Store.findProduct. intros Hfind. apply find_some in Hfind. tauto.
Qed.

(** Giving the lines back adds, to every product of the catalog, the units
    the lines hold of it. *)
Lemma restoreStock_stock lines :
  forall ps0 ps,
    (forall j, Store.findProduct j ps0 = None <-> Store.findProduct j ps = None) ->
    forall j,
      option_map Product.quantity
        (Store.findProduct j (restoreStock (populate ps0 lines) ps))
      = option_map (fun s => s + ordered j lines)
          (option_map Product.quantity (Store.findProduct j ps)).
Proof.
  induction lines as [|l lines IH]; intros ps0 ps Hsame j; simpl.
  - destruct (Store.findProduct j ps); simpl; [f_equal; lia | reflexivity].
  - destruct (Store.findProduct (Order.product_id l) ps0) as [product|] eqn:E0.
    + assert (Hid : Product._id product = Order.product_id l)
        by (apply hasId_true, (findProduct_id _ _ _ E0)).
      rewrite Hid.
      destruct (Store.findProduct (Order.product_id l) ps) as [p'|] eqn:E;
        [|apply Hsame in E; congruence].
      destruct (updateOne_found (Store.hasId (Order.product_id l))
                  (Order.product_id l) (Order.quantity l) ps p'
                  (fun x Hx => Hx) E (findProduct_id _ _ _ E)) as [_ Hupd].
      rewrite (IH ps0); [|intros k; rewrite Hupd;
                          destruct (String.eqb k (Order.product_id l)) eqn:Hk;
                          [apply String.eqb_eq in Hk; subst k; split; congruence
                          |apply Hsame]].
      rewrite Hupd, (String.eqb_sym j).
      destruct (String.eqb (Order.product_id l) j) eqn:Hj.
      * apply String.eqb_eq in Hj. subst j. rewrite E. simpl. f_equal. lia.
      * destruct (Store.findProduct j ps); simpl; [f_equal; lia | reflexivity].
    + rewrite (IH ps0 ps Hsame).
      destruct (String.eqb (Order.product_id l) j) eqn:Hj.
      * apply String.eqb_eq in Hj. subst j.
        apply Hsame in E0. rewrite E0. reflexivity.
      * destruct (Store.findProduct j ps); simpl; [f_equal; lia | reflexivity].
Qed.

Lemma restoreOrder_stock order db j :
  stock j (restoreOrder order db)
  = option_map (fun s => s + ordered j (Order.products order)) (stock j db).
Proof.
  unfold stock, restoreOrder. simpl.
  apply restoreStock_stock. intros k. tauto.
Qed.

Lemma findOrder_id i os o :
  Store.findOrder i os = Some o -> Order._id o = i.
Proof.
  unfold Store.findOrder. intros Hfind. apply find_some in Hfind.
  apply String.eqb_eq. tauto.
Qed.

(** A saved order is the one found under its identifier afterwards. *)
Lemma findOrder_replaceOrder i os old o :
  Store.findOrder i os = Some old -> Order._id o = i ->
  Store.findOrder i (Store.replaceOrder o os) = Some o.
Proof.
  intros Hfind Hid. subst i.
  induction os as [|x r IH]; [discriminate Hfind|].
  unfold Store.findOrder in *. simpl in *.
  destruct (Store.orderHasId (Order._id o) x) eqn:Hx; simpl.
  - unfold Store.orderHasId at 1. rewrite String.eqb_refl. reflexivity.
  - rewrite Hx. apply IH. exact Hfind.
Qed.

Lemma deleteOne_found i os o :
  Store.findOrder i os = Some o ->
  S (List.length (Store.deleteOne i os)) = List.length os
  /\ forall j, j <> i ->
       Store.findOrder j (Store.deleteOne i os) = Store.findOrder j os.
Proof.
  unfold Store.findOrder.
  induction os as [|x r IH]; simpl; [discriminate|].
  destruct (Store.orderHasId i x) eqn:Hx.
  - intros _. split; [reflexivity|]. intros j Hj.
    unfold Store.orderHasId in *. apply String.eqb_eq in Hx.
    destruct (String.eqb (Order._id x) j) eqn:E; [|reflexivity].
    apply String.eqb_eq in E. congruence.
  - intros Hfind. destruct (IH Hfind) as [Hlen Hother]. split.
    + simpl. rewrite Hlen. reflexivity.
    + intros j Hj. simpl. rewrite (Hother j Hj). reflexivity.
Qed.

Lemma deleteOne_gone i os o :
  NoDup (map Order._id os) ->
  Store.findOrder i os = Some o ->
  Store.findOrder i (Store.deleteOne i os) = None.
Proof.
  unfold Store.findOrder.
  induction os as [|x r IH]; simpl; [discriminate|].
  intros Hnodup. apply NoDup_cons_iff in Hnodup. destruct Hnodup as [Hx Hr].
  destruct (Store.orderHasId i x) eqn:E.
  - intros _. destruct (find (Store.orderHasId i) r) as [y|] eqn:Hy; [|reflexivity].
    apply find_some in Hy. destruct Hy as [Hin Hid].
    unfold Store.orderHasId in *. apply String.eqb_eq in E, Hid.
    contradiction Hx. rewrite E, <- Hid. apply in_map. exact Hin.
  - intros Hfind. simpl. rewrite E. exact (IH Hr Hfind).
Qed.

(** A deletion by the owner or an administrator, step by step. *)
Lemma deleteOrder_run orderId user order db :
  ObjectId_isValid (JStr orderId) = true ->
  Store.findOrder (ObjectId_hex (JStr orderId)) (Db.orders db) = Some order ->
  String.eqb (User.role user) "admin"
  || String.eqb (Order.user_id order) (User.id user) = true ->
  deleteOrder orderId user db
  = (let db1 := if restorable (Order.order_status order)
                then restoreOrder order db else db in
     (Db.setOrders
        (Store.deleteOne (ObjectId_hex (JStr orderId)) (Db.orders db1)) db1,
      mkResp 200 (Deleted "Order deleted successfully" order))).
Proof.
  intros Hvalid Hfind Hauth.
  unfold deleteOrder, withTransaction, deleteOrder_transaction.
  rewrite Hvalid, Hfind. simpl negb.
  rewrite <- negb_orb, Hauth. reflexivity.
Qed.

(** C5. For an order that is pending or in processing (stored under a
    valid identifier and satisfying its schema): setting its status to
    Cancelled is answered 200 and adds to the stock of every product the
    units the order's lines hold of it; deleting it, as its owner or as an
    administrator, adds the same units and then removes the record.
    Deleting an order in any other status leaves the catalog as it is and
    removes the record.  That the record is removed is said of the store
    after the request: it holds one order less, every order with another
    identifier is found as before, and, the identifiers of the stored
    orders being distinct, no order is found under the identifier. *)
Theorem cancel_or_delete_restores_stock orderId order user db :
  ObjectId_isValid (JStr orderId) = true ->
  Store.findOrder (ObjectId_hex (JStr orderId)) (Db.orders db) = Some order ->
  OrderModel.validate order = Ok tt ->
  String.eqb (User.role user) "admin"
  || String.eqb (Order.user_id order) (User.id user) = true ->
  (restorable (Order.order_status order) = true ->
   (status (snd (updateOrderStatus orderId (JStr "Cancelled") db)) = 200
    /\ forall j,
         stock j (fst (updateOrderStatus orderId (JStr "Cancelled") db))
         = option_map (fun s => s + ordered j (Order.products order))
             (stock j db))
   /\ (status (snd (deleteOrder orderId user db)) = 200
       /\ (forall j,
             stock j (fst (deleteOrder orderId user db))
             = option_map (fun s => s + ordered j (Order.products order))
                 (stock j db))
       /\ removed (ObjectId_hex (JStr orderId)) db
            (fst (deleteOrder orderId user db))))
  /\ (restorable (Order.order_status order) = false ->
      status (snd (deleteOrder orderId user db)) = 200
      /\ Db.products (fst (deleteOrder orderId user db)) = Db.products db
      /\ removed (ObjectId_hex (JStr orderId)) db
           (fst (deleteOrder orderId user db))).
Proof.
  intros Hvalid Hfind Hschema Hauth.
  assert (Hgone : forall db1,
             Db.orders db1 = Db.orders db ->
             removed (ObjectId_hex (JStr orderId)) db
               (Db.setOrders
                  (Store.deleteOne (ObjectId_hex (JStr orderId)) (Db.orders db1))
                  db1)).
  { intros db1 Horders. unfold removed. cbn [Db.orders Db.setOrders].
    rewrite Horders. destruct (deleteOne_found _ _ _ Hfind) as [Hlen Hother].
    repeat apply conj; trivial.
    intros Hnodup. exact (deleteOne_gone _ _ _ Hnodup Hfind). }
  rewrite (deleteOrder_run _ _ _ _ Hvalid Hfind Hauth).
  rewrite (updateOrderStatus_run orderId (JStr "Cancelled") Cancelled order db
             Hvalid eq_refl Hfind Hschema).
  unfold afterRestore. split; intros Hgate; rewrite Hgate; cbn [fst snd status].
  - split; [split; [reflexivity|intros j; apply restoreOrder_stock]|].
    split; [reflexivity|].
    split; [intros j; apply restoreOrder_stock|].
    apply Hgone. reflexivity.
  - split; [reflexivity|]. split; [reflexivity|].
    apply Hgone. reflexivity.
Qed.

End StatusEngine.

(** Cancelling, or deleting, the pending order of two pairs of the runner
    brings the stock from three back to five. *)
Lemma cancel_or_delete_restores_stock_witness :
  stock Sample.runnerId (Sample.dbWith Pending) = Some 3
  /\ stock Sample.runnerId
       (fst (updateOrderStatus Sample.orderId (JStr "Cancelled")
               (Sample.dbWith Pending))) = Some 5
  /\ stock Sample.runnerId
       (fst (deleteOrder Sample.orderId Sample.alice (Sample.dbWith Pending)))
     = Some 5
  /\ Store.findOrder Sample.orderId (Db.orders (Sample.dbWith Pending))
     = Some (Sample.orderIn Pending)
  /\ Store.findOrder Sample.orderId
       (Db.orders
          (fst (deleteOrder Sample.orderId Sample.alice (Sample.dbWith Pending))))
     = None.
Proof.
  destruct (cancel_or_delete_restores_stock (H := Node.platform)
              Sample.orderId (Sample.orderIn Pending) Sample.alice
              (Sample.dbWith Pending) eq_refl eq_refl eq_refl eq_refl)
    as [Hopen _].
  destruct (Hopen eq_refl) as [[_ Hcancel] [_ [Hdelete [_ [_ Hgone]]]]].
  split; [reflexivity|].
  rewrite Hcancel, Hdelete.
  split; [reflexivity|]. split; [reflexivity|]. split; [reflexivity|].
  apply Hgone. repeat constructor. intros [].
Defined.

Section Transitions.
Context `{Platform}.

(** C4, as the handler has it.  There is no table of transitions: a status
    update that names any of the five statuses is applied to a stored
    order, whatever its current status, and answered 200; the stored order
    then has the status named.  A request is answered with a client error
    (400), and the store left alone, when its status names none of the five. *)
Theorem updateOrderStatus_applies_any_status orderId requested order db :
  Store.findOrder (ObjectId_hex (JStr orderId)) (Db.orders db) = Some order ->
  (forall newStatus,
      ObjectId_isValid (JStr orderId) = true ->
      OrderModel.validate order = Ok tt ->
      statusOf requested = Some newStatus ->
      status (snd (updateOrderStatus orderId requested db)) = 200
      /\ option_map Order.order_status
           (Store.findOrder (ObjectId_hex (JStr orderId))
              (Db.orders (fst (updateOrderStatus orderId requested db))))
         = Some newStatus)
  /\ (statusOf requested = None ->
      status (snd (updateOrderStatus orderId requested db)) = 400
      /\ fst (updateOrderStatus orderId requested db) = db).
Proof.
  intros Hfind. split.
  - intros newStatus Hvalid Hschema Hstatus.
    rewrite (updateOrderStatus_run _ _ _ _ _ Hvalid Hstatus Hfind Hschema).
    simpl. split; [reflexivity|].
    erewrite findOrder_replaceOrder.
    + simpl. rewrite preSave_status. reflexivity.
    + unfold afterRestore. destruct (_ && _); exact Hfind.
    + rewrite preSave_id. simpl. exact (findOrder_id _ _ _ Hfind).
  - intros Hnone. unfold updateOrderStatus. rewrite Hnone.
    destruct (negb (ObjectId_isValid (JStr orderId))); [split; reflexivity|].
    destruct (negb (Js.truthy requested)); split; reflexivity.
Qed.

(** C9, as the handlers have it.  While the current status of an order is
    Cancelled (or Shipped, or Delivered) no status update of it and no
    deletion of it changes the catalog, whatever the request asks for and
    whoever sends it: both loops that give stock back are behind the test
    that the current status is Pending or Processing. *)
Theorem no_restore_unless_pending_or_processing orderId order db :
  Store.findOrder (ObjectId_hex (JStr orderId)) (Db.orders db) = Some order ->
  restorable (Order.order_status order) = false ->
  (forall requested,
      Db.products (fst (updateOrderStatus orderId requested db)) = Db.products db)
  /\ (forall user,
        Db.products (fst (deleteOrder orderId user db)) = Db.products db).
Proof.
  intros Hfind Hgate. split.
  - intros requested. exact (updateOrderStatus_no_restore _ requested _ _ Hfind Hgate).
  - intros user. exact (deleteOrder_no_restore _ user _ _ Hfind Hgate).
Qed.

(** C6, as the hook has it.  Every save of an order leaves the total within
    0.01 of the subtotal plus shipping: the hook replaces a total that is
    further away by that sum and keeps any other total as it is.  This holds
    of the order a placement persists and of the order a status update
    writes back. *)
Theorem saved_total_within_tolerance :
  (forall o,
      withinTolerance (OrderModel.preSave o)
      /\ (~ withinTolerance o ->
          Order.total_amount (OrderModel.preSave o)
          = (Order.subtotal o + Order.shipping o)%Q)
      /\ (withinTolerance o -> OrderModel.preSave o = o))
  /\ (forall env req db db' o,
        createOrder env req db = (db', mkResp 201 (OrderDoc o)) ->
        withinTolerance o /\ In o (Db.orders db'))
  /\ (forall orderId requested db db' o,
        updateOrderStatus orderId requested db = (db', mkResp 200 (OrderDoc o)) ->
        withinTolerance o
        /\ Store.findOrder (ObjectId_hex (JStr orderId)) (Db.orders db') = Some o).
Proof.
  repeat apply conj.
  - intros o. repeat apply conj.
    + apply preSave_within.
    + apply preSave_outside.
    + apply preSave_inside.
  - intros env req db db' o Hrun. split.
    + exact (proj1 (proj2 (proj2 (createOrder_totals _ _ _ _ _ Hrun)))).
    + destruct (createOrder_cases env req db)
        as [(items & db2 & o2 & _ & Htx & E)|(_ & Hno & _)];
        [|rewrite Hrun in Hno; contradiction Hno; reflexivity].
      rewrite E in Hrun. injection Hrun as <- <-.
      destruct (createOrder_transaction_Ok _ _ _ _ _ _ _ Htx)
        as (db1 & lines & sub & _ & _ & Ho & ->).
      simpl. apply in_or_app. right. left. reflexivity.
  - intros orderId requested db db' o Hrun.
    destruct (updateOrderStatus_200 _ _ _ _ _ Hrun)
      as (newStatus & order & _ & Hfind & -> & ->).
    split; [apply preSave_within|].
    simpl. eapply findOrder_replaceOrder.
    + unfold afterRestore. destruct (_ && _); exact Hfind.
    + rewrite preSave_id. simpl. exact (findOrder_id _ _ _ Hfind).
Qed.

End Transitions.

(** An administrator cancels a shipped order: the request is answered 200,
    not with a client error, and the stored order is cancelled. *)
Lemma shipped_order_is_cancelled :
  let r := updateOrderStatus Sample.orderId (JStr "Cancelled")
             (Sample.dbWith Shipped) in
  status (snd r) = 200
  /\ ~ (400 <= status (snd r) < 500)
  /\ option_map Order.order_status
       (Store.findOrder Sample.orderId (Db.orders (fst r))) = Some Cancelled
  /\ fst r <> Sample.dbWith Shipped.
Proof.
  vm_compute. split; [reflexivity|]. split; [intros [Hlo _]; apply Hlo; reflexivity|].
  split; [reflexivity|]. discriminate.
Qed.

(** A delivered order is set back to Pending. *)
Lemma updateOrderStatus_applies_any_status_witness :
  Store.findOrder Sample.orderId (Db.orders (Sample.dbWith Delivered))
  = Some (Sample.orderIn Delivered)
  /\ status (snd (updateOrderStatus Sample.orderId (JStr "Pending")
                    (Sample.dbWith Delivered))) = 200
  /\ option_map Order.order_status
       (Store.findOrder Sample.orderId
          (Db.orders (fst (updateOrderStatus Sample.orderId (JStr "Pending")
                             (Sample.dbWith Delivered))))) = Some Pending.
Proof.
  split; [reflexivity|].
  exact (proj1 (updateOrderStatus_applies_any_status (H := Node.platform)
                  Sample.orderId (JStr "Pending") (Sample.orderIn Delivered)
                  (Sample.dbWith Delivered) eq_refl)
           Pending eq_refl eq_refl eq_refl).
Defined.

(** An order is cancelled, which gives its two pairs back (three in stock
    become five); it is then set to Pending again and cancelled again: the
    later request on the order that had been cancelled gives the two pairs
    back a second time (seven in stock), though they were sold once. *)
Lemma reopened_order_is_restored_twice :
  let db1 := fst (updateOrderStatus Sample.orderId (JStr "Cancelled")
                    (Sample.dbWith Pending)) in
  let db2 := fst (updateOrderStatus Sample.orderId (JStr "Pending") db1) in
  let db3 := fst (updateOrderStatus Sample.orderId (JStr "Cancelled") db2) in
  stock Sample.runnerId (Sample.dbWith Pending) = Some 3
  /\ option_map Order.order_status
       (Store.findOrder Sample.orderId (Db.orders db1)) = Some Cancelled
  /\ stock Sample.runnerId db1 = Some 5
  /\ stock Sample.runnerId db2 = Some 5
  /\ stock Sample.runnerId db3 = Some 7.
Proof.
  vm_compute. repeat split; reflexivity.
Qed.

(** A cancelled order: cancelling it again, or deleting it, leaves the
    catalog alone. *)
Lemma no_restore_unless_pending_or_processing_witness :
  Db.products (fst (updateOrderStatus Sample.orderId (JStr "Cancelled")
                      (Sample.dbWith Cancelled)))
  = Db.products (Sample.dbWith Cancelled)
  /\ Db.products (fst (deleteOrder Sample.orderId Sample.admin
                         (Sample.dbWith Cancelled)))
     = Db.products (Sample.dbWith Cancelled).
Proof.
  destruct (no_restore_unless_pending_or_processing (H := Node.platform)
              Sample.orderId (Sample.orderIn Cancelled)
              (Sample.dbWith Cancelled) eq_refl eq_refl) as [Hupdate Hdelete].
  split; [apply Hupdate | apply Hdelete].
Defined.

(** The order of one pair of laces, stored with a total of 10.108 against a
    subtotal of 0.1 and shipping of 10, is moved to Processing: the save of
    the status update writes the same total back. *)
Lemma status_update_keeps_total_apart :
  exists db' o,
    updateOrderStatus Sample.orderId (JStr "Processing") Sample.dbAfterLaces
    = (db', mkResp 200 (OrderDoc o))
    /\ Store.findOrder Sample.orderId (Db.orders db') = Some o
    /\ ~ (Order.total_amount o == Order.subtotal o + Order.shipping o)%Q.
Proof.
  eexists. eexists. split; [vm_compute; reflexivity|].
  split; [reflexivity|].
  intros Heq. vm_compute in Heq. discriminate Heq.
Qed.

(** The same status update, within the tolerance. *)
Lemma saved_total_within_tolerance_witness :
  exists db' o,
    updateOrderStatus Sample.orderId (JStr "Processing") Sample.dbAfterLaces
    = (db', mkResp 200 (OrderDoc o))
    /\ withinTolerance o.
Proof.
  eexists. eexists. split; [vm_compute; reflexivity|].
  refine (proj1 (proj2 (proj2 (saved_total_within_tolerance (H := Node.platform)))
                  Sample.orderId (JStr "Processing") Sample.dbAfterLaces _ _ _)).
  vm_compute. reflexivity.
Defined.

(* ===================================================================== *)
(** ** Malformed lines and the client's total *)

(** C8. A line without a quantity makes the loop throw "Each product must
    have product_id, quantity, and size"; none of the words the [catch]
    block looks for is in that message, so the request is answered with the
    internal error 500, not with a client error.  Nothing is written. *)
Theorem line_without_quantity_is_internal_error :
  createOrder_transaction Sample.env
    [JObj [("product_id", JStr Sample.runnerId); ("size", JStr "10")]]
    JUndefined (User.id Sample.alice) Sample.db
  = Throw "Each product must have product_id, quantity, and size"
  /\ createOrder Sample.env Sample.noQuantity Sample.db
     = (Sample.db, mkResp 500 (Message "Internal Server Error"))
  /\ ~ (400 <= status (snd (createOrder Sample.env Sample.noQuantity Sample.db))
        < 500).
Proof.
  split; [vm_compute; reflexivity|].
  split; [vm_compute; reflexivity|].
  vm_compute. intros [_ Hhi]. discriminate Hhi.
Qed.

(** A quantity that is not a numeral passes the test of the range, because
    [NaN] compares false both ways, and ends as an internal error too. *)
Example word_quantity_is_internal_error :
  Js.parseInt (JStr "three") = Some NaN
  /\ Js.leb NaN 0 || Js.gtb NaN 10 = false
  /\ createOrder Sample.env Sample.wordQuantity Sample.db
     = (Sample.db, mkResp 500 (Message "Internal Server Error")).
Proof. repeat split; vm_compute; reflexivity. Qed.

(** The tests of the [catch] block read the whole message, the name of the
    product included: short stock of a product whose name has the word
    [required] in it is answered 400. *)
Example short_stock_answered_as_client_error :
  snd (createOrder Sample.env Sample.sixSlipOns Sample.db)
  = mkResp 400
      (Message "Insufficient quantity for product Slip-On, laces not required. Available: 5, Requested: 6").
Proof. vm_compute. reflexivity. Qed.

(** C2. One pair of the slip-on, of which five are in stock, is ordered,
    and the conditional update of the stock reports no modified document.
    The placement aborts with the inventory error and the store is as
    before, but the answer is 400, not the conflict 409: the name of the
    product is part of the message, and the test of the [catch] block for
    the word [required] comes before its test for [sold out].  The same
    event on the runner is answered 409. *)
Theorem lost_race_answered_as_client_error :
  lost_race Sample.outrun 0 = true
  /\ createOrder_transaction Sample.outrun
       [Sample.line Sample.slipOnId (JNum 1) (JStr "9")] JUndefined
       (User.id Sample.alice) Sample.db
     = Throw (soldOutMessage Sample.slipOn)
  /\ createOrder Sample.outrun Sample.oneSlipOn Sample.db
     = (Sample.db, mkResp 400 (Message (soldOutMessage Sample.slipOn)))
  /\ status (snd (createOrder Sample.outrun Sample.oneSlipOn Sample.db)) <> 409
  /\ createOrder Sample.outrun (Sample.threeRunners JUndefined) Sample.db
     = (Sample.db, mkResp 409 (Message (soldOutMessage Sample.runner))).
Proof.
  split; [reflexivity|].
  split; [vm_compute; reflexivity|].
  split; [vm_compute; reflexivity|].
  split; [vm_compute; discriminate|].
  vm_compute. reflexivity.
Qed.

Section ClientTotal.
Context `{Platform}.

(** The first line of a request lacks its identifier, its quantity or its
    size, or has an empty string, a zero, [false] or [null] for it: the
    answer is the internal error, whatever the rest of the request. *)
Lemma missing_field_is_internal_error
    env item rest total_amount user db item_product_id item_quantity item_size :
  Js.prop "product_id" item = Some item_product_id ->
  Js.prop "quantity" item = Some item_quantity ->
  Js.prop "size" item = Some item_size ->
  Js.truthy item_product_id && Js.truthy item_quantity && Js.truthy item_size
  = false ->
  createOrder env (mkPlace (JArr (item :: rest)) total_amount user) db
  = (db, mkResp 500 (Message "Internal Server Error")).
Proof.
  intros Hid Hqty Hsize Hmissing.
  unfold createOrder, withTransaction, createOrder_transaction. simpl.
  unfold bind, processItem. rewrite Hid, Hqty, Hsize.
  rewrite <- !negb_andb, Hmissing. reflexivity.
Qed.

(** A [total_amount] that is absent, or a number, a string, a boolean or
    [null], never makes the comparison throw. *)
Lemma checkClientTotal_primitive v :
  match v with JArr _ | JObj _ => False | _ => True end ->
  checkClientTotal v = Ok tt.
Proof.
  unfold checkClientTotal, Js.toNumberThrows.
  destruct v as [| |[|]|q|s|l|fs]; simpl; intros Hprim;
    try contradiction; try reflexivity; rewrite andb_false_r; reflexivity.
Qed.

(** Two requests that differ in [total_amount] only, neither of which makes
    the comparison throw, are answered alike and leave the same store. *)
Lemma createOrder_ignores_total_amount env products user t1 t2 db :
  checkClientTotal t1 = Ok tt ->
  checkClientTotal t2 = Ok tt ->
  createOrder env (mkPlace products t1 user) db
  = createOrder env (mkPlace products t2 user) db.
Proof.
  intros H1 H2. unfold createOrder, withTransaction, createOrder_transaction, bind.
  simpl. rewrite H1, H2. reflexivity.
Qed.

End ClientTotal.

(** C10. The same three pairs are ordered three times over the same store:
    without a [total_amount], with the [total_amount] 60, and with the
    object [{"toString": 1}] as [total_amount].  The first two are answered
    201 with the same order; the third is answered 500 and no order is
    stored, because subtracting the object from the subtotal throws. *)
Theorem total_amount_object_rejects_placement :
  createOrder Sample.env (Sample.threeRunners (JNum 60)) Sample.db
  = createOrder Sample.env (Sample.threeRunners JUndefined) Sample.db
  /\ status (snd (createOrder Sample.env (Sample.threeRunners JUndefined)
                    Sample.db)) = 201
  /\ checkClientTotal Sample.shadowed = Throw TypeError_primitive
  /\ createOrder Sample.env (Sample.threeRunners Sample.shadowed) Sample.db
     = (Sample.db, mkResp 500 (Message "Internal Server Error")).
Proof. repeat split; vm_compute; reflexivity. Qed.

(* ===================================================================== *)
(** ** The cart *)

Import CartController.

(** C7. The cart holds eight pairs of sandals in size "9", of which twenty
    are in stock; five more pairs of the same size are added.  The request
    is answered 201 and the line now holds thirteen pairs, in the store and
    in the cart the answer shows: the limit of ten is tested on the
    quantity of the request, the merged quantity is tested against the
    stock only. *)
Theorem merged_line_exceeds_cap :
  Store.findCart (User.id Sample.alice) (Db.carts Sample.db)
  = Some (Cart.mk (User.id Sample.alice)
            [Cart.mkItem Sample.sandalId (Fin 8) "9" 45] 360)
  /\ exists db' shown cart,
       addItemToCart Sample.fiveMoreSandals Sample.db
       = (db', mkResp 201 (CartDoc shown))
       /\ Store.findCart (User.id Sample.alice) (Db.carts db') = Some cart
       /\ Cart.items cart = [Cart.mkItem Sample.sandalId (Fin 13) "9" 45]
       /\ (Cart.total cart == 585)%Q
       /\ map CartView.line (CartView.items shown) = Cart.items cart
       /\ (CartView.total shown == 585)%Q.
Proof.
  split; [reflexivity|].
  eexists. eexists. eexists. split; [vm_compute; reflexivity|].
  split; [vm_compute; reflexivity|].
  repeat split; reflexivity.
Qed.

(* ===================================================================== *)
(** * Further properties of the handlers *)

(** ** What a committed placement leaves behind *)

Import OrdersController.

Section PlacementEffects.
Context `{Platform}.

Lemma find_app_none {A : Type} (f : A -> bool) (l l' : list A) :
  find f l = None -> find f (l ++ l') = find f l'.
Proof.
  induction l as [|x r IH]; simpl; [reflexivity|].
  destruct (f x); [discriminate | exact IH].
Qed.

Lemma find_app_some {A : Type} (f : A -> bool) (l l' : list A) x :
  find f l = Some x -> find f (l ++ l') = Some x.
Proof.
  induction l as [|y r IH]; simpl; [discriminate|].
  destruct (f y); [trivial | exact IH].
Qed.

(** Everything the transaction of a placement answered 201 went through. *)
Lemma createOrder_committed env req db db' o :
  createOrder env req db = (db', mkResp 201 (OrderDoc o)) ->
  exists items db1 lines sub,
    req_products req = JArr items
    /\ processItems env 0 items db [] 0%Q = Ok (db1, lines, sub)
    /\ OrderModel.validate
         (Order.mk (fresh_id env) (User.id (req_user req)) lines
            (subtotal (calculateOrderTotals sub))
            (shipping (calculateOrderTotals sub))
            (total (calculateOrderTotals sub)) Pending) = Ok tt
    /\ o = OrderModel.preSave
             (Order.mk (fresh_id env) (User.id (req_user req)) lines
                (subtotal (calculateOrderTotals sub))
                (shipping (calculateOrderTotals sub))
                (total (calculateOrderTotals sub)) Pending)
    /\ Store.findOrder (fresh_id env) (Db.orders db1) = None
    /\ db' = Db.mk (Db.products db1) (Db.orders db1 ++ [o])
               (Store.clearCartOf (User.id (req_user req)) (Db.carts db1)).
Proof.
  intros Hrun.
  destruct (createOrder_cases env req db)
    as [(items & db2 & o2 & Hitems & Htx & E)|(_ & Hno & _)];
    [|rewrite Hrun in Hno; contradiction Hno; reflexivity].
  rewrite E in Hrun. injection Hrun as <- <-.
  unfold createOrder_transaction, OrderModel.saveNew, clearCart, bind in Htx.
  destruct (processItems env 0 items db [] 0%Q) as [[[db1 lines] sub]|m] eqn:Hloop;
    [|discriminate Htx].
  exists items, db1, lines, sub.
  destruct (checkClientTotal (req_total_amount req)) as [[]|m]; [|discriminate Htx].
  destruct (castSizes items) as [[]|m]; [|discriminate Htx].
  destruct (save_fault env); [discriminate Htx|].
  destruct (OrderModel.validate _) as [[]|m] eqn:Hschema; [|discriminate Htx].
  rewrite preSave_id in Htx. cbn [Order._id] in Htx.
  destruct (Store.findOrder _ _) eqn:Hfresh; [discriminate Htx|].
  destruct (cart_fault env); [discriminate Htx|].
  injection Htx as <- <-.
  repeat split; assumption.
Qed.

(** The stored order, as found afterwards. *)
Lemma createOrder_stores_pending_order_facts env req db db' o :
  createOrder env req db = (db', mkResp 201 (OrderDoc o)) ->
  Order._id o = fresh_id env
  /\ Order.order_status o = Pending
  /\ Order.user_id o = User.id (req_user req)
  /\ Store.findOrder (fresh_id env) (Db.orders db) = None
  /\ forall j,
       Store.findOrder j (Db.orders db')
       = if String.eqb j (fresh_id env) then Some o
         else Store.findOrder j (Db.orders db).
Proof.
  intros Hrun.
  destruct (createOrder_committed _ _ _ _ _ Hrun)
    as (items & db1 & lines & sub & Hitems & Hloop & _ & Ho & Hfresh & ->).
  destruct (processItems_effect _ _ _ _ _ _ _ _ _ Hloop)
    as (new & -> & Hlen & _ & _ & _ & Hord & _).
  rewrite Hord in *.
  assert (Hid : Order._id o = fresh_id env) by (rewrite Ho, preSave_id; reflexivity).
  repeat apply conj.
  - exact Hid.
  - rewrite Ho, preSave_status. reflexivity.
  - rewrite Ho. unfold OrderModel.preSave. destruct (negb _); reflexivity.
  - exact Hfresh.
  - intros j. cbn [Db.orders]. unfold Store.findOrder in *.
    destruct (String.eqb j (fresh_id env)) eqn:Hj.
    + apply String.eqb_eq in Hj. subst j.
      rewrite (find_app_none _ _ _ Hfresh). simpl.
      unfold Store.orderHasId. rewrite Hid, String.eqb_refl. reflexivity.
    + destruct (find (Store.orderHasId j) (Db.orders db)) as [x|] eqn:Hfind.
      * exact (find_app_some _ _ _ _ Hfind).
      * rewrite (find_app_none _ _ _ Hfind). simpl.
        unfold Store.orderHasId. rewrite Hid, String.eqb_sym, Hj. reflexivity.
Qed.

(** X1. A placement answered 201 has stored, under the identifier the
    driver generated, an order that is pending, belongs to the requesting
    user and has one line for every line of the request; no order was
    stored under that identifier before, and every other order is found as
    before. *)
Theorem createOrder_stores_pending_order env req db db' o :
  createOrder env req db = (db', mkResp 201 (OrderDoc o)) ->
  Order._id o = fresh_id env
  /\ Order.order_status o = Pending
  /\ Order.user_id o = User.id (req_user req)
  /\ (exists items,
         req_products req = JArr items
         /\ List.length (Order.products o) = List.length items)
  /\ Store.findOrder (fresh_id env) (Db.orders db) = None
  /\ forall j,
       Store.findOrder j (Db.orders db')
       = if String.eqb j (fresh_id env) then Some o
         else Store.findOrder j (Db.orders db).
Proof.
  intros Hrun.
  destruct (createOrder_stores_pending_order_facts _ _ _ _ _ Hrun)
    as (Hid & Hstatus & Huser & Hfresh & Hfind).
  destruct (createOrder_committed _ _ _ _ _ Hrun)
    as (items & db1 & lines & sub & Hitems & Hloop & _ & Ho & _).
  destruct (processItems_effect _ _ _ _ _ _ _ _ _ Hloop)
    as (new & -> & Hlen & _).
  repeat apply conj; try assumption.
  exists items. split; [exact Hitems|].
  rewrite Ho, preSave_products. simpl. exact Hlen.
Qed.

Lemma findCart_clearCartOf u v cs :
  Store.findCart u (Store.clearCartOf v cs)
  = if String.eqb u v
    then option_map (fun c => Cart.mk (Cart.user c) [] 0) (Store.findCart u cs)
    else Store.findCart u cs.
Proof.
  unfold Store.findCart.
  induction cs as [|c r IH]; simpl.
  - destruct (String.eqb u v); reflexivity.
  - unfold Store.cartOf in *.
    destruct (String.eqb (Cart.user c) v) eqn:Hv; simpl.
    + apply String.eqb_eq in Hv. subst v.
      rewrite (String.eqb_sym u).
      destruct (String.eqb (Cart.user c) u); reflexivity.
    + destruct (String.eqb (Cart.user c) u) eqn:Hu.
      * apply String.eqb_eq in Hu. subst u. rewrite Hv. reflexivity.
      * exact IH.
Qed.

(** X2. A placement answered 201 has emptied the cart of the requesting
    user, lines and total, and has left the cart of every other user as it
    was. *)
Theorem createOrder_clears_own_cart env req db db' o :
  createOrder env req db = (db', mkResp 201 (OrderDoc o)) ->
  forall u,
    Store.findCart u (Db.carts db')
    = if String.eqb u (User.id (req_user req))
      then option_map (fun c => Cart.mk (Cart.user c) [] 0)
             (Store.findCart u (Db.carts db))
      else Store.findCart u (Db.carts db).
Proof.
  intros Hrun u.
  destruct (createOrder_committed _ _ _ _ _ Hrun)
    as (items & db1 & lines & sub & _ & Hloop & _ & _ & _ & ->).
  destruct (processItems_effect _ _ _ _ _ _ _ _ _ Hloop)
    as (new & _ & _ & _ & _ & _ & _ & Hcart & _).
  cbn [Db.carts]. rewrite Hcart. apply findCart_clearCartOf.
Qed.

Lemma processItem_prices env i item db db1 line t :
  processItem env i item db = Ok (db1, line, t) ->
  lineFromCatalog db line
  /\ forall j,
       option_map Product.price (Store.findProduct j (Db.products db1))
       = option_map Product.price (Store.findProduct j (Db.products db)).
Proof.
  intros Hok.
  destruct (processItem_Ok _ _ _ _ _ _ _ Hok)
    as (pid & q & p & _ & Hq & Hfind & Hle & _ & -> & Hid & Hqty & Hprice & _).
  assert (Hp : Store.idAndAtLeast (ObjectId_hex pid) q p = true).
  { unfold Store.idAndAtLeast. apply andb_true_iff. split.
    - exact (findProduct_id _ _ _ Hfind).
    - apply Z.leb_le. exact Hle. }
  destruct (updateOne_found _ _ (- q) _ _
              (idAndAtLeast_hasId (ObjectId_hex pid) q) Hfind Hp) as [_ Hupd].
  split.
  - unfold lineFromCatalog. rewrite Hid, Hqty, Hprice, Hfind. split; [exact Hq|reflexivity].
  - intros j. cbn [Db.products Db.setProducts]. rewrite Hupd.
    destruct (String.eqb j (ObjectId_hex pid)) eqn:Hj; [|reflexivity].
    apply String.eqb_eq in Hj. subst j. rewrite Hfind. reflexivity.
Qed.

Lemma processItems_prices env items :
  forall i db acc sub db' lines sub',
    processItems env i items db acc sub = Ok (db', lines, sub') ->
    exists new, lines = (acc ++ new)%list /\ Forall (lineFromCatalog db) new.
Proof.
  induction items as [|item rest IH]; simpl; intros i db acc sub db' lines sub' Hok.
  - injection Hok as <- <- <-. exists []. rewrite app_nil_r. split; constructor.
  - unfold bind in Hok.
    destruct (processItem env i item db) as [[[db1 line] t]|m] eqn:Hstep;
      [|discriminate Hok].
    destruct (processItem_prices _ _ _ _ _ _ _ Hstep) as [Hline Hsame].
    destruct (IH _ _ _ _ _ _ _ Hok) as (new & -> & Hnew).
    exists (line :: new). rewrite <- app_assoc. split; [reflexivity|].
    constructor; [exact Hline|].
    eapply Forall_impl; [|exact Hnew].
    intros l [Hq Hp]. split; [exact Hq|]. rewrite <- Hsame. exact Hp.
Qed.

(** X3. Every line of an order placed with 201 holds between one and ten
    units of a product that was in the catalog when the request arrived,
    at the price the catalog had for it then. *)
Theorem createOrder_lines_from_catalog env req db db' o :
  createOrder env req db = (db', mkResp 201 (OrderDoc o)) ->
  Forall (lineFromCatalog db) (Order.products o).
Proof.
  intros Hrun.
  destruct (createOrder_committed _ _ _ _ _ Hrun)
    as (items & db1 & lines & sub & _ & Hloop & _ & -> & _).
  destruct (processItems_prices _ _ _ _ _ _ _ _ _ Hloop) as (new & -> & Hnew).
  rewrite preSave_products. exact Hnew.
Qed.

End PlacementEffects.

(** ** Placing and taking back; refusals of the status engine *)

Section TakingBack.
Context `{Platform}.

Lemma Qle_bool_plus a b :
  Qle_bool 0 a = true -> Qle_bool 0 b = true -> Qle_bool 0 (a + b) = true.
Proof.
  rewrite !Qle_bool_iff. intros Ha Hb.
  setoid_replace 0%Q with (0 + 0)%Q by ring.
  apply Qplus_le_compat; assumption.
Qed.

(** An order that passes the validators still passes them after the hook. *)
Lemma validate_preSave o :
  OrderModel.validate o = Ok tt ->
  OrderModel.validate (OrderModel.preSave o) = Ok tt.
Proof.
  unfold OrderModel.validate, OrderModel.preSave.
  destruct (negb (Qle_bool _ _)); [|trivial].
  unfold OrderModel.sizesPresent, OrderModel.minimaHold.
  cbn [Order.products Order.subtotal Order.shipping Order.total_amount].
  destruct (forallb (fun l => negb _) _); cbn [negb]; [|trivial].
  destruct (forallb (fun l => Qle_bool 0 _) _); cbn [andb negb]; [|trivial].
  destruct (Qle_bool 0 (Order.subtotal o)) eqn:Hs; cbn [andb negb]; [|trivial].
  destruct (Qle_bool 0 (Order.shipping o)) eqn:Hh; cbn [andb negb].
  - rewrite (Qle_bool_plus _ _ Hs Hh). trivial.
  - trivial.
Qed.

Lemma deleteOne_fresh i os o :
  Store.findOrder i os = None -> Order._id o = i ->
  Store.deleteOne i (os ++ [o]) = os.
Proof.
  intros Hnone Hid. unfold Store.findOrder in Hnone.
  induction os as [|x r IH]; simpl in *.
  - unfold Store.orderHasId. rewrite Hid, String.eqb_refl. reflexivity.
  - destruct (Store.orderHasId i x); [discriminate Hnone|].
    rewrite (IH Hnone). reflexivity.
Qed.

(** X4. An order that has just been placed is taken back in full: setting
    it to Cancelled, or deleting it as the user who placed it, is answered
    200 and leaves every product with the stock it had before the
    placement; the deletion also leaves the orders as they were before the
    placement.  (The identifier the driver generated is a valid one, in the
    form the library prints.) *)
Theorem place_then_take_back env req db db1 o :
  createOrder env req db = (db1, mkResp 201 (OrderDoc o)) ->
  ObjectId_isValid (JStr (fresh_id env)) = true ->
  ObjectId_hex (JStr (fresh_id env)) = fresh_id env ->
  (status (snd (updateOrderStatus (fresh_id env) (JStr "Cancelled") db1)) = 200
   /\ forall j,
        stock j (fst (updateOrderStatus (fresh_id env) (JStr "Cancelled") db1))
        = stock j db)
  /\ (status (snd (deleteOrder (fresh_id env) (req_user req) db1)) = 200
      /\ (forall j,
            stock j (fst (deleteOrder (fresh_id env) (req_user req) db1))
            = stock j db)
      /\ Db.orders (fst (deleteOrder (fresh_id env) (req_user req) db1))
         = Db.orders db).
Proof.
  intros Hrun Hvalid Hhex.
  destruct (createOrder_stores_pending_order_facts env req db db1 o Hrun)
    as (Hid & Hstatus & Huser & Hfresh & Hfind).
  destruct (createOrder_committed _ _ _ _ _ Hrun)
    as (items & db0 & lines & sub & _ & Hloop & Hschema & Ho & _ & Hdb1).
  destruct (processItems_effect _ _ _ _ _ _ _ _ _ Hloop)
    as (new & Hlines & _ & Hstock & _ & _ & Hord & _).
  simpl in Hlines. subst lines.
  assert (Hproducts : Order.products o = new)
    by (rewrite Ho, preSave_products; reflexivity).
  assert (Hback : forall j, stock j (restoreOrder o db1) = stock j db).
  { intros j. rewrite restoreOrder_stock, Hproducts.
    replace (stock j db1) with (stock j db0) by (rewrite Hdb1; reflexivity).
    rewrite Hstock. destruct (stock j db); simpl; [f_equal; lia | reflexivity]. }
  assert (Hstored : Store.findOrder (ObjectId_hex (JStr (fresh_id env)))
                      (Db.orders db1) = Some o)
    by (rewrite Hhex, Hfind, String.eqb_refl; reflexivity).
  assert (Hok : OrderModel.validate o = Ok tt)
    by (rewrite Ho; apply validate_preSave; exact Hschema).
  split.
  - rewrite (updateOrderStatus_run (fresh_id env) (JStr "Cancelled") Cancelled
               o db1 Hvalid eq_refl Hstored Hok).
    unfold afterRestore. rewrite Hstatus. simpl. split; [reflexivity|].
    exact Hback.
  - rewrite (deleteOrder_run (fresh_id env) (req_user req) o db1 Hvalid Hstored).
    + rewrite Hstatus. simpl. repeat apply conj.
      * reflexivity.
      * exact Hback.
      * rewrite Hhex, Hdb1. cbn [Db.orders]. rewrite Hord.
        apply deleteOne_fresh; assumption.
    + rewrite Huser, String.eqb_refl. apply orb_true_r.
Qed.

End TakingBack.

Section StatusEngineEffects.
Context `{Platform}.

(** X5. A status update that is not answered 200, and a deletion that is
    not answered 200, leave the store as it was: a malformed identifier, a
    missing or unknown status, an order that does not exist, a user who may
    not delete it, and a save that the validators refuse after stock has
    been given back. *)
Theorem status_engine_refusal_leaves_store orderId requested user db :
  (status (snd (updateOrderStatus orderId requested db)) <> 200 ->
   fst (updateOrderStatus orderId requested db) = db)
  /\ (status (snd (deleteOrder orderId user db)) <> 200 ->
      fst (deleteOrder orderId user db) = db).
Proof.
  split.
  - unfold updateOrderStatus, withTransaction.
    destruct (negb (ObjectId_isValid (JStr orderId))); [reflexivity|].
    destruct (negb (Js.truthy requested)); [reflexivity|].
    destruct (statusOf requested) as [newStatus|]; [|reflexivity].
    destruct (updateOrderStatus_transaction orderId newStatus db) as [[db' o]|m].
    + simpl. intros Hno. contradiction Hno. reflexivity.
    + destruct (String.eqb m "Order not found"); reflexivity.
  - unfold deleteOrder, withTransaction.
    destruct (negb (ObjectId_isValid (JStr orderId))); [reflexivity|].
    destruct (deleteOrder_transaction orderId user db) as [[db' o]|m].
    + simpl. intros Hno. contradiction Hno. reflexivity.
    + destruct (String.eqb m "Order not found"); [reflexivity|].
      destruct (String.eqb m "Access denied"); reflexivity.
Qed.

Lemma findOrder_replaceOrder_other j o os :
  j <> Order._id o ->
  Store.findOrder j (Store.replaceOrder o os) = Store.findOrder j os.
Proof.
  intros Hj. unfold Store.findOrder.
  induction os as [|x r IH]; simpl; [reflexivity|].
  destruct (Store.orderHasId (Order._id o) x) eqn:Hx; simpl.
  - unfold Store.orderHasId in *. apply String.eqb_eq in Hx.
    rewrite Hx. destruct (String.eqb (Order._id o) j) eqn:E; [|reflexivity].
    apply String.eqb_eq in E. congruence.
  - rewrite IH. reflexivity.
Qed.

(** X6. A status update answered 200 changes the status of the one order
    and nothing else of it: identifier, owner, lines, subtotal and shipping
    are those of the stored order.  The carts are untouched, every other
    order is found as before, and the catalog is untouched unless the
    status set is Cancelled. *)
Theorem updateOrderStatus_touches_status_only orderId requested db db' o :
  updateOrderStatus orderId requested db = (db', mkResp 200 (OrderDoc o)) ->
  exists old,
    Store.findOrder (ObjectId_hex (JStr orderId)) (Db.orders db) = Some old
    /\ statusOf requested = Some (Order.order_status o)
    /\ Order._id o = Order._id old
    /\ Order.user_id o = Order.user_id old
    /\ Order.products o = Order.products old
    /\ Order.subtotal o = Order.subtotal old
    /\ Order.shipping o = Order.shipping old
    /\ Db.carts db' = Db.carts db
    /\ (forall j, j <> ObjectId_hex (JStr orderId) ->
                  Store.findOrder j (Db.orders db')
                  = Store.findOrder j (Db.orders db))
    /\ (Order.order_status o <> Cancelled -> Db.products db' = Db.products db).
Proof.
  intros Hrun.
  destruct (updateOrderStatus_200 _ _ _ _ _ Hrun)
    as (newStatus & old & Hstatus & Hfind & -> & ->).
  exists old.
  destruct (preSave_subtotal (Order.setStatus newStatus old)) as [Hs Hh].
  rewrite preSave_status, preSave_id, preSave_products, Hs, Hh.
  assert (Hcarts : Db.carts (afterRestore newStatus old db) = Db.carts db)
    by (unfold afterRestore; destruct (_ && _); reflexivity).
  assert (Horders : Db.orders (afterRestore newStatus old db) = Db.orders db)
    by (unfold afterRestore; destruct (_ && _); reflexivity).
  repeat apply conj; try reflexivity; try assumption.
  - unfold OrderModel.preSave. destruct (negb _); reflexivity.
  - intros j Hj. cbn [Db.orders Db.setOrders]. rewrite Horders.
    apply findOrder_replaceOrder_other.
    rewrite preSave_id. cbn [Order._id Order.setStatus].
    rewrite (findOrder_id _ _ _ Hfind). exact Hj.
  - cbn [Order.order_status Order.setStatus]. intros Hnot.
    cbn [Db.products Db.setOrders]. unfold afterRestore.
    destruct newStatus; try reflexivity. contradiction Hnot. reflexivity.
Qed.

(** X7. A deletion answered 200 was asked for by an administrator or by
    the owner of the order, whatever the status of the order; it removes
    one order, the one stored under the identifier, and leaves every other
    order and every cart as it was. *)
Theorem deleteOrder_removes_one_order orderId user db db' message o :
  deleteOrder orderId user db = (db', mkResp 200 (Deleted message o)) ->
  Store.findOrder (ObjectId_hex (JStr orderId)) (Db.orders db) = Some o
  /\ (User.role user = "admin" \/ Order.user_id o = User.id user)
  /\ S (List.length (Db.orders db')) = List.length (Db.orders db)
  /\ (forall j, j <> ObjectId_hex (JStr orderId) ->
                Store.findOrder j (Db.orders db')
                = Store.findOrder j (Db.orders db))
  /\ Db.carts db' = Db.carts db.
Proof.
  unfold deleteOrder, withTransaction, deleteOrder_transaction.
  destruct (negb (ObjectId_isValid (JStr orderId))); [discriminate|].
  destruct (Store.findOrder _ _) as [order|] eqn:Hfind; [|discriminate].
  destruct (negb (String.eqb (User.role user) "admin")) eqn:Hrole;
    destruct (negb (String.eqb (Order.user_id order) (User.id user))) eqn:Howner;
    cbn [andb]; try discriminate.
  all: intros Hrun; injection Hrun as <- _ <-.
  all: assert (Horders :
         Db.orders (if restorable (Order.order_status order)
                    then restoreOrder order db else db) = Db.orders db)
         by (destruct (restorable _); reflexivity).
  all: assert (Hcarts :
         Db.carts (if restorable (Order.order_status order)
                   then restoreOrder order db else db) = Db.carts db)
         by (destruct (restorable _); reflexivity).
  all: cbn [Db.orders Db.carts Db.setOrders]; rewrite Horders, Hcarts.
  all: destruct (deleteOne_found _ _ _ Hfind) as [Hlen Hother].
  all: repeat apply conj; try reflexivity; try assumption.
  - right. apply negb_false_iff, String.eqb_eq in Howner. exact Howner.
  - left. apply negb_false_iff, String.eqb_eq in Hrole. exact Hrole.
  - left. apply negb_false_iff, String.eqb_eq in Hrole. exact Hrole.
Qed.

End StatusEngineEffects.

(** ** The cart *)

Section CartEffects.
Context `{Platform}.

Lemma findCart_putCart u c cs :
  Store.findCart u (Store.putCart c cs)
  = if String.eqb u (Cart.user c) then Some c else Store.findCart u cs.
Proof.
  unfold Store.findCart.
  induction cs as [|x r IH]; simpl; unfold Store.cartOf in *.
  - rewrite (String.eqb_sym u). destruct (String.eqb (Cart.user c) u); reflexivity.
  - destruct (String.eqb (Cart.user x) (Cart.user c)) eqn:Hx; simpl.
    + apply String.eqb_eq in Hx. rewrite Hx, (String.eqb_sym u).
      destruct (String.eqb (Cart.user c) u); reflexivity.
    + destruct (String.eqb (Cart.user x) u) eqn:Hu.
      * apply String.eqb_eq in Hu. subst u.
        rewrite Hx. reflexivity.
      * exact IH.
Qed.

Lemma putCart_twice c c' cs :
  Cart.user c' = Cart.user c ->
  Store.putCart c' (Store.putCart c cs) = Store.putCart c' cs.
Proof.
  intros Hu. induction cs as [|x r IH]; simpl; unfold Store.cartOf.
  - rewrite Hu, String.eqb_refl. reflexivity.
  - rewrite Hu.
    destruct (String.eqb (Cart.user x) (Cart.user c)) eqn:Hx; simpl;
      unfold Store.cartOf; rewrite Hu.
    + rewrite String.eqb_refl. reflexivity.
    + rewrite Hx, IH. reflexivity.
Qed.

(** What [cart.save()] wrote when it did not reject the document. *)
Lemma cart_save_Some u items total db db' cart :
  CartController.save u items total db = Some (db', cart) ->
  forallb CartController.itemValid items = true
  /\ total = Some (Cart.total cart)
  /\ cart = Cart.mk u items (Cart.total cart)
  /\ db' = Db.setCarts (Store.putCart cart (Db.carts db)) db.
Proof.
  unfold CartController.save.
  destruct (forallb CartController.itemValid items); [|discriminate].
  destruct total as [t|]; [|discriminate].
  intros Hsave. injection Hsave as <- <-. repeat split.
Qed.

Lemma findIndex_Some pred items i :
  CartController.findIndex pred items = Some i ->
  exists x, nth_error items i = Some x /\ pred x = true.
Proof.
  revert i. induction items as [|x r IH]; simpl; intros i; [discriminate|].
  destruct (pred x) eqn:Hx.
  - intros Hi. injection Hi as <-. exists x. split; [reflexivity|exact Hx].
  - destruct (CartController.findIndex pred r) as [j|]; [|discriminate].
    simpl. intros Hi. injection Hi as <-. apply IH. reflexivity.
Qed.

(** A line whose quantity is set to [NaN] makes the cart invalid. *)
Lemma setQuantity_valid i q items x :
  nth_error items i = Some x ->
  forallb CartController.itemValid (CartController.setQuantity i q items) = true ->
  exists z, q = Fin z /\ 1 <= z.
Proof.
  revert i. induction items as [|y r IH]; intros i; [destruct i; discriminate|].
  destruct i as [|j]; simpl.
  - intros _ Hvalid. apply andb_true_iff in Hvalid. destruct Hvalid as [Hy _].
    unfold CartController.itemValid in Hy. simpl in Hy.
    destruct q as [|z]; [discriminate|]. exists z. split; [reflexivity|].
    apply andb_true_iff in Hy. destruct Hy as [Hy _].
    apply andb_true_iff in Hy. destruct Hy as [Hy _].
    apply Z.leb_le. exact Hy.
  - intros Hnth Hvalid. apply andb_true_iff in Hvalid. destruct Hvalid as [_ Hr].
    exact (IH _ Hnth Hr).
Qed.

Lemma setQuantity_firstn_skipn i q (items : list Cart.Item) line :
  nth_error items i = Some line ->
  CartController.setQuantity i q items
  = (firstn i items
     ++ Cart.mkItem (Cart.product line) q (Cart.size line) (Cart.price line)
        :: skipn (S i) items)%list.
Proof.
  revert i. induction items as [|x r IH]; intros [|j]; cbn; try discriminate.
  - intros [= ->]. reflexivity.
  - intros Hnth. rewrite (IH _ Hnth). reflexivity.
Qed.

Lemma storedLines_saved u items total db db' cart :
  CartController.save u items total db = Some (db', cart) ->
  storedLines u db' = items.
Proof.
  intros Hsave. destruct (cart_save_Some _ _ _ _ _ _ Hsave) as (_ & _ & -> & ->).
  unfold storedLines. cbn [Db.carts Db.setCarts].
  rewrite findCart_putCart. cbn [Cart.user]. rewrite String.eqb_refl.
  reflexivity.
Qed.

Lemma findIndex_first pred items i :
  CartController.findIndex pred items = Some i ->
  exists x,
    nth_error items i = Some x
    /\ pred x = true
    /\ forall j y, (j < i)%nat -> nth_error items j = Some y -> pred y = false.
Proof.
  revert i. induction items as [|x r IH]; cbn [CartController.findIndex];
    intros i; [discriminate|].
  destruct (pred x) eqn:Hx.
  - intros [= <-]. exists x. repeat split; trivial. intros j y Hj. lia.
  - destruct (CartController.findIndex pred r) as [k|]; [|discriminate].
    cbn [option_map]. intros [= <-].
    destruct (IH k eq_refl) as (y & Hy & Hp & Hbefore).
    exists y. repeat split; trivial.
    intros [|j] z Hj; cbn [nth_error].
    + intros [= <-]. exact Hx.
    + apply Hbefore. lia.
Qed.

Lemma findIndex_None pred items :
  CartController.findIndex pred items = None ->
  Forall (fun x => pred x = false) items.
Proof.
  induction items as [|x r IH]; cbn [CartController.findIndex];
    [constructor|].
  destruct (pred x) eqn:Hx; [discriminate|].
  destruct (CartController.findIndex pred r); [discriminate|].
  intros _. constructor; [exact Hx|]. apply IH. reflexivity.
Qed.

Lemma itemValid_quantity line :
  CartController.itemValid line = true ->
  (exists z, Cart.quantity line = Fin z /\ 1 <= z)
  /\ Cart.size line <> EmptyString.
Proof.
  unfold CartController.itemValid.
  destruct (Cart.quantity line) as [|z]; [discriminate|].
  intros Hval.
  apply andb_true_iff in Hval. destruct Hval as [Hval _].
  apply andb_true_iff in Hval. destruct Hval as [Hq Hs].
  split.
  - exists z. split; [reflexivity|]. apply Z.leb_le. exact Hq.
  - apply negb_true_iff, String.eqb_neq in Hs. exact Hs.
Qed.

(** [addItemToCart] either leaves the store and answers something other
    than 201, or writes one valid cart of the user and answers 201 with
    what [populateCartItems] shows of it. *)
Lemma addItemToCart_cases req db :
  fst (CartController.addItemToCart req db) = db
  /\ status (snd (CartController.addItemToCart req db)) <> 201
  \/ exists cart,
       CartController.addItemToCart req db
       = (Db.setCarts (Store.putCart cart (Db.carts db)) db,
          mkResp 201
            (CartDoc (CartController.populateCartItems (Db.products db) cart)))
       /\ Cart.user cart = User.id (CartController.req_user req)
       /\ forallb CartController.itemValid (Cart.items cart) = true
       /\ CartController.itemsTotal (Cart.items cart) = Some (Cart.total cart).
Proof.
  unfold CartController.addItemToCart, CartController.internalError, interpolate.
  repeat match goal with
  | |- context [CartController.save ?u ?items ?total ?d] =>
      destruct (CartController.save u items total d) as [[db' cart]|] eqn:Hsave
  | |- context [match ?x with _ => _ end] => destruct x eqn:?
  end;
  try (left; split; [reflexivity | simpl; discriminate]).
  all: right; destruct (cart_save_Some _ _ _ _ _ _ Hsave) as (Hval & Htot & Hc & ->).
  all: exists cart; rewrite Hc in *; simpl in *; repeat split; assumption.
Qed.

(** X8. Adding to a cart never touches the catalog, the orders or the cart
    of another user, and a request that is not answered 201 leaves the
    whole store as it was. *)
Theorem addItemToCart_touches_own_cart_only req db :
  Db.products (fst (CartController.addItemToCart req db)) = Db.products db
  /\ Db.orders (fst (CartController.addItemToCart req db)) = Db.orders db
  /\ (forall u, u <> User.id (CartController.req_user req) ->
        Store.findCart u (Db.carts (fst (CartController.addItemToCart req db)))
        = Store.findCart u (Db.carts db))
  /\ (status (snd (CartController.addItemToCart req db)) <> 201 ->
      fst (CartController.addItemToCart req db) = db).
Proof.
  destruct (addItemToCart_cases req db) as [[Hdb Hno]|(cart & Hrun & Huser & _)].
  - rewrite Hdb. repeat split; trivial.
  - rewrite Hrun. simpl. repeat split.
    + intros u Hu. rewrite findCart_putCart, Huser.
      destruct (String.eqb u (User.id (CartController.req_user req))) eqn:E;
        [|reflexivity].
      apply String.eqb_eq in E. contradiction.
    + intros Hno. contradiction Hno. reflexivity.
Qed.

(** X9. After a request answered 201 the user has a stored cart whose
    total is the sum of quantity times price over its lines and whose
    lines all have a quantity of at least one; the answer shows that cart
    as [populateCartItems] joins it with the catalog, the lines whose
    product the catalog no longer has left out. *)
Theorem addItemToCart_total_is_sum req db db' body :
  CartController.addItemToCart req db = (db', mkResp 201 body) ->
  exists cart,
    Store.findCart (User.id (CartController.req_user req)) (Db.carts db')
    = Some cart
    /\ body = CartDoc (CartController.populateCartItems (Db.products db') cart)
    /\ CartController.itemsTotal (Cart.items cart) = Some (Cart.total cart)
    /\ Forall (fun line => exists z, Cart.quantity line = Fin z /\ 1 <= z)
         (Cart.items cart).
Proof.
  intros Hrun.
  destruct (addItemToCart_cases req db) as [[_ Hno]|(c & Hrun' & Huser & Hval & Htot)].
  - rewrite Hrun in Hno. contradiction Hno. reflexivity.
  - rewrite Hrun in Hrun'. injection Hrun' as -> ->.
    exists c. repeat apply conj.
    + cbn [Db.carts Db.setCarts].
      rewrite findCart_putCart, Huser, String.eqb_refl. reflexivity.
    + reflexivity.
    + exact Htot.
    + apply Forall_forall. intros line Hin.
      rewrite forallb_forall in Hval.
      exact (proj1 (itemValid_quantity _ (Hval line Hin))).
Qed.

(** X10. A request answered 201 has done one of two things to the stored
    lines of the cart, with the quantity [q] that [parseInt] reads from the
    request (from 1 when the request names none): [q] is between one and
    ten and within the stock of the product.  Either no line had the
    product and the size of the request, and one line was appended, for the
    product at the price the catalog has for it, with quantity [q] and the
    size of the request as the ODM casts it to a string; or the first line
    with the product and the size of the request had its quantity raised
    by [q], to a sum that is within the stock.  The other lines are as they
    were. *)
Theorem addItemToCart_line_within_stock req db db' body :
  CartController.addItemToCart req db = (db', mkResp 201 body) ->
  let old := storedLines (User.id (CartController.req_user req)) db in
  exists product q,
    Js.parseInt (match CartController.quantity req with
                 | JUndefined => JNum 1
                 | v => v
                 end) = Some (Fin q)
    /\ 1 <= q <= 10
    /\ Store.findProduct (ObjectId_hex (CartController.productId req))
         (Db.products db) = Some product
    /\ q <= Product.quantity product
    /\ ((Forall (fun line => sameLine req line = false) old
         /\ exists size,
              String_cast (CartController.sanitizeInput (CartController.size req))
              = Ok size
              /\ storedLines (User.id (CartController.req_user req)) db'
                 = (old ++ [Cart.mkItem (ObjectId_hex (CartController.productId req))
                              (Fin q) size (Product.price product)])%list)
        \/ (exists i line e,
               nth_error old i = Some line
               /\ sameLine req line = true
               /\ (forall j other,
                      (j < i)%nat -> nth_error old j = Some other ->
                      sameLine req other = false)
               /\ Cart.quantity line = Fin e
               /\ e + q <= Product.quantity product
               /\ storedLines (User.id (CartController.req_user req)) db'
                  = (firstn i old
                     ++ Cart.mkItem (Cart.product line) (Fin (e + q))
                          (Cart.size line) (Cart.price line)
                        :: skipn (S i) old)%list)).
Proof.
  intros Hrun old.
  unfold CartController.addItemToCart, CartController.internalError,
    interpolate in Hrun.
  fold (storedLines (User.id (CartController.req_user req)) db) in Hrun.
  fold old in Hrun. fold (sameLine req) in Hrun.
  destruct (negb _ || negb _); [discriminate|].
  destruct (negb (ObjectId_isValid _)); [discriminate|].
  destruct (Js.parseInt _) as [parsed|] eqn:Hparse; [|discriminate].
  destruct (Js.leb parsed 0 || Js.gtb parsed 10) eqn:Hrange; [discriminate|].
  apply orb_false_iff in Hrange. destruct Hrange as [Hlow Hhigh].
  destruct (ObjectId_castError _); [discriminate|].
  destruct (Store.findProduct _ _) as [product|] eqn:Hproduct; [|discriminate].
  destruct (Js.ltb_l (Product.quantity product) parsed) eqn:Hstock;
    [discriminate|].
  destruct (match MongooseArray_includes _ _ with Some _ => false | None => true end);
    [discriminate|].
  destruct (negb (sizeAvailable product _));
    [destruct (Js.toStr _); discriminate|].
  exists product.
  destruct (CartController.findIndex (sameLine req) old) as [i|] eqn:Hidx.
  - destruct (findIndex_first _ _ _ Hidx) as (line & Hnth & Hsame & Hbefore).
    rewrite Hnth in Hrun.
    destruct (match CartController.add (Cart.quantity line) parsed with
              | Fin n => Product.quantity product <? n
              | NaN => false
              end) eqn:Hsum; [discriminate|].
    destruct (CartController.save _ _ _ _) as [[d c]|] eqn:Hsave; [|discriminate].
    injection Hrun as <- _.
    destruct (cart_save_Some _ _ _ _ _ _ Hsave) as (Hval & _).
    destruct (setQuantity_valid _ _ _ _ Hnth Hval) as (z & Hz & _).
    destruct (Cart.quantity line) as [|e] eqn:He; [discriminate Hz|].
    destruct parsed as [|q]; [discriminate Hz|].
    cbn [CartController.add] in Hz, Hsum. injection Hz as <-.
    cbn [Js.leb Js.gtb Js.ltb_l] in Hlow, Hhigh, Hstock.
    exists q. split; [reflexivity|]. split; [lia|]. split; [reflexivity|].
    split; [lia|]. right. exists i, line, e.
    repeat apply conj; trivial; [lia|].
    rewrite (storedLines_saved _ _ _ _ _ _ Hsave).
    cbn [CartController.add].
    apply setQuantity_firstn_skipn. exact Hnth.
  - destruct (CartController.save _ _ _ _) as [[d c]|] eqn:Hsave; [|discriminate].
    injection Hrun as <- _.
    destruct (cart_save_Some _ _ _ _ _ _ Hsave) as (Hval & _).
    rewrite forallb_app in Hval. apply andb_true_iff in Hval.
    destruct Hval as [_ Hlast]. cbn [forallb] in Hlast.
    rewrite andb_true_r in Hlast.
    destruct (itemValid_quantity _ Hlast) as [(z & Hz & Hz1) Hsize].
    cbn [Cart.quantity Cart.size] in Hz, Hsize. subst parsed.
    cbn [Js.leb Js.gtb Js.ltb_l] in Hlow, Hhigh, Hstock.
    exists z. split; [reflexivity|]. split; [lia|]. split; [reflexivity|].
    split; [lia|]. left. split; [exact (findIndex_None _ _ Hidx)|].
    unfold sizeStored in *.
    destruct (String_cast _) as [size|m] eqn:Hcast;
      [|contradiction Hsize; reflexivity].
    exists size. split; [reflexivity|].
    exact (storedLines_saved _ _ _ _ _ _ Hsave).
Qed.

End CartEffects.

Section CartMutations.
Context `{Platform}.

Import CartHandlers.

Lemma saved_writesOwnCart user items db view :
  writesOwnCart user db
    match CartController.save (User.id user) items
            (CartController.itemsTotal items) db with
    | Some (db', cart') => (db', mkCartResp 200 (view db' cart'))
    | None => (db, internalError)
    end.
Proof.
  destruct (CartController.save _ _ _ _) as [[db' cart']|] eqn:Hsave.
  - destruct (cart_save_Some _ _ _ _ _ _ Hsave) as (Hval & Htot & Hc & ->).
    right. exists items, (Cart.total cart'). rewrite <- Hc.
    repeat split; assumption.
  - left. split; [reflexivity | simpl; discriminate].
Qed.

Lemma clearCart_writes user db : writesOwnCart user db (clearCart user db).
Proof.
  unfold clearCart.
  destruct (Store.findCart _ _); [|left; split; [reflexivity|simpl; discriminate]].
  exact (saved_writesOwnCart user [] db (fun _ c => CartPlain c)).
Qed.

Lemma removeItemFromCart_writes itemIds itemId user db :
  writesOwnCart user db (removeItemFromCart itemIds itemId user db).
Proof.
  unfold removeItemFromCart.
  destruct (negb _); [left; split; [reflexivity|simpl; discriminate]|].
  destruct (Store.findCart _ _); [|left; split; [reflexivity|simpl; discriminate]].
  destruct (findIndexOf _ _); [|left; split; [reflexivity|simpl; discriminate]].
  exact (saved_writesOwnCart user _ db
           (fun d c => CartPopulated (CartController.populateCartItems (Db.products d) c))).
Qed.

Lemma updateItemInCart_writes itemIds itemId quantity user db :
  writesOwnCart user db (updateItemInCart itemIds itemId quantity user db).
Proof.
  unfold updateItemInCart.
  repeat match goal with
  | |- writesOwnCart _ _ (_, _) => left; split; [reflexivity|simpl; discriminate]
  | |- writesOwnCart _ _ match CartController.save _ _ _ _ with _ => _ end =>
      exact (saved_writesOwnCart user _ db
               (fun d c => CartPopulated (CartController.populateCartItems (Db.products d) c)))
  | |- writesOwnCart _ _ (if ?b then _ else _) => destruct b
  | |- writesOwnCart _ _ (match ?x with _ => _ end) => destruct x
  end.
Qed.

(** X11. The handlers that clear a cart, remove a line and set the
    quantity of a line never touch the catalog, the orders or the cart of
    another user; when they do not answer 200 they leave the whole store as
    it was; when they answer 200 the cart they have written has every line
    at a quantity of at least one and a total that is the sum of quantity
    times price over its lines. *)
Theorem cart_mutations_write_own_cart itemIds itemId itemIdValue quantity user db r :
  r = clearCart user db
  \/ r = removeItemFromCart itemIds itemId user db
  \/ r = updateItemInCart itemIds itemIdValue quantity user db ->
  Db.products (fst r) = Db.products db
  /\ Db.orders (fst r) = Db.orders db
  /\ (forall u, u <> User.id user ->
                Store.findCart u (Db.carts (fst r)) = Store.findCart u (Db.carts db))
  /\ (cart_status (snd r) <> 200 -> fst r = db)
  /\ (cart_status (snd r) = 200 ->
      exists cart,
        Store.findCart (User.id user) (Db.carts (fst r)) = Some cart
        /\ CartController.itemsTotal (Cart.items cart) = Some (Cart.total cart)
        /\ Forall (fun line => exists z, Cart.quantity line = Fin z /\ 1 <= z)
             (Cart.items cart)).
Proof.
  intros Hr.
  assert (Hw : writesOwnCart user db r).
  { destruct Hr as [->|[->| ->]].
    - apply clearCart_writes.
    - apply removeItemFromCart_writes.
    - apply updateItemInCart_writes. }
  destruct Hw as [[Hdb Hno]|(items & total & Hdb & Hyes & Hval & Htot)];
    rewrite Hdb.
  - repeat split; trivial. intros Hok. contradiction.
  - cbn [Db.products Db.orders Db.carts Db.setCarts]. repeat apply conj; trivial.
    + intros u Hu. rewrite findCart_putCart. cbn [Cart.user].
      destruct (String.eqb u (User.id user)) eqn:E; [|reflexivity].
      apply String.eqb_eq in E. contradiction.
    + intros Hno. contradiction.
    + intros _. exists (Cart.mk (User.id user) items total).
      rewrite findCart_putCart. cbn [Cart.user Cart.items Cart.total].
      rewrite String.eqb_refl. repeat split; trivial.
      apply Forall_forall. intros line Hin.
      rewrite forallb_forall in Hval. specialize (Hval line Hin).
      unfold CartController.itemValid in Hval.
      destruct (Cart.quantity line) as [|z]; [discriminate|].
      exists z. split; [reflexivity|].
      apply andb_true_iff in Hval. destruct Hval as [Hval _].
      apply andb_true_iff in Hval. destruct Hval as [Hval _].
      apply Z.leb_le. exact Hval.
Qed.

End CartMutations.

Section CartLines.
Context `{Platform}.

Import CartHandlers.

Lemma splice_firstn_skipn i (items : list Cart.Item) :
  splice i items = (firstn i items ++ skipn (S i) items)%list.
Proof.
  revert i. induction items as [|x r IH]; intros [|j]; cbn; trivial.
  rewrite IH. reflexivity.
Qed.

Lemma findIndexOf_Some pred ids i :
  findIndexOf pred ids = Some i ->
  (exists x, nth_error ids i = Some x /\ pred x = true)
  /\ forall j x, (j < i)%nat -> nth_error ids j = Some x -> pred x = false.
Proof.
  revert i. induction ids as [|y r IH]; intros i; cbn; [discriminate|].
  destruct (pred y) eqn:Hy.
  - intros [= <-]. split; [exists y; split; trivial|]. intros j x Hj. lia.
  - destruct (findIndexOf pred r) as [k|]; [|discriminate].
    intros [= <-]. destruct (IH k eq_refl) as [Hx Hbefore]. split; [exact Hx|].
    intros [|j] x Hj; cbn.
    + intros [= <-]. exact Hy.
    + apply Hbefore. lia.
Qed.

(** X12. When [removeItemFromCart] answers 200, the identifier of the
    request is the identifier of a line of the cart, the first with that
    identifier; the stored cart of the user is the cart it was without that
    one line, the other lines as they were and in their order; and the
    answer shows the stored cart. *)
Theorem removeItemFromCart_removes_the_line itemIds itemId user db db' body :
  removeItemFromCart itemIds itemId user db = (db', mkCartResp 200 body) ->
  exists i cart',
    nth_error itemIds i = Some itemId
    /\ (forall j, (j < i)%nat -> nth_error itemIds j <> Some itemId)
    /\ storedLines (User.id user) db'
       = (firstn i (storedLines (User.id user) db)
          ++ skipn (S i) (storedLines (User.id user) db))%list
    /\ Store.findCart (User.id user) (Db.carts db') = Some cart'
    /\ body = CartPopulated (CartController.populateCartItems (Db.products db) cart').
Proof.
  unfold removeItemFromCart, storedLines.
  destruct (negb _); [discriminate|].
  destruct (Store.findCart (User.id user) (Db.carts db)) as [cart|] eqn:Hcart;
    [|discriminate].
  destruct (findIndexOf _ _) as [i|] eqn:Hi; [|discriminate].
  destruct (CartController.save _ _ _ _) as [[d c]|] eqn:Hsave;
    [|unfold internalError; discriminate].
  intros [= <- <-].
  destruct (findIndexOf_Some _ _ _ Hi) as [(x & Hx & Heq) Hbefore].
  apply String.eqb_eq in Heq. subst x.
  pose proof (storedLines_saved _ _ _ _ _ _ Hsave) as Hlines.
  unfold storedLines in Hlines.
  destruct (cart_save_Some _ _ _ _ _ _ Hsave) as (_ & _ & Hc & Hd).
  exists i, c. repeat apply conj.
  - exact Hx.
  - intros j Hj Hnth. specialize (Hbefore j itemId Hj Hnth).
    rewrite String.eqb_refl in Hbefore. discriminate.
  - rewrite Hlines. apply splice_firstn_skipn.
  - rewrite Hd. cbn [Db.carts Db.setCarts]. rewrite findCart_putCart.
    replace (Cart.user c) with (User.id user) by (rewrite Hc; reflexivity).
    rewrite String.eqb_refl. reflexivity.
  - rewrite Hd. reflexivity.
Qed.

(** X13. When [updateItemInCart] answers 200, the quantity of the request
    reads as a whole number between 0 and 10 and the identifier is that of a
    line of the cart; for 0 the stored cart is the cart without that line;
    for another number the line has that number as its quantity, its
    product, size and price as they were, the other lines are as they were,
    and the number is not above the stock of the product when the catalog
    still has the product. *)
Theorem updateItemInCart_sets_the_line itemIds itemId quantity user db db' body :
  updateItemInCart itemIds itemId quantity user db = (db', mkCartResp 200 body) ->
  exists i q,
    (exists x, nth_error itemIds i = Some x /\ Js.strictEq (JStr x) itemId = true)
    /\ Js.parseInt quantity = Some (Fin q)
    /\ 0 <= q <= 10
    /\ (q = 0 ->
        storedLines (User.id user) db'
        = (firstn i (storedLines (User.id user) db)
           ++ skipn (S i) (storedLines (User.id user) db))%list)
    /\ (q <> 0 ->
        exists line,
          nth_error (storedLines (User.id user) db) i = Some line
          /\ storedLines (User.id user) db'
             = (firstn i (storedLines (User.id user) db)
                ++ Cart.mkItem (Cart.product line) (Fin q) (Cart.size line)
                     (Cart.price line)
                   :: skipn (S i) (storedLines (User.id user) db))%list
          /\ forall product,
               Store.findProduct (Cart.product line) (Db.products db)
               = Some product ->
               q <= Product.quantity product).
Proof.
  unfold updateItemInCart, internalError.
  destruct (_ || _); [discriminate|].
  destruct (negb (ObjectId_isValid itemId)); [discriminate|].
  destruct (Js.parseInt quantity) as [parsed|] eqn:Hparse; [|discriminate].
  destruct (ltb parsed 0 || Js.gtb parsed 10) eqn:Hrange; [discriminate|].
  apply orb_false_iff in Hrange. destruct Hrange as [Hlow Hhigh].
  unfold storedLines.
  destruct (Store.findCart (User.id user) (Db.carts db)) as [cart|] eqn:Hcart;
    [|discriminate].
  destruct (findIndexOf _ _) as [i|] eqn:Hi; [|discriminate].
  destruct (findIndexOf_Some _ _ _ Hi) as [Hx _].
  intros Hrun.
  destruct parsed as [|q].
  { (* NaN: the line is set to NaN and the save is refused *)
    cbn [isZero] in Hrun.
    destruct (nth_error (Cart.items cart) i) as [line|] eqn:Hline;
      [|discriminate].
    assert (Hset : forall items,
               match CartController.save (User.id user)
                       (CartController.setQuantity i NaN (Cart.items cart))
                       items db
               with Some p => Some p | None => None end = None).
    { intros items. unfold CartController.save.
      rewrite (setQuantity_firstn_skipn _ _ _ _ Hline), forallb_app.
      cbn [forallb CartController.itemValid Cart.quantity].
      rewrite andb_false_r. reflexivity. }
    exfalso.
    destruct (Store.findProduct _ _) as [product|];
      [destruct (Js.gtb NaN _); [discriminate|]|];
      specialize (Hset (CartController.itemsTotal
                          (CartController.setQuantity i NaN (Cart.items cart))));
      destruct (CartController.save _ _ _ _) as [[d c]|]; discriminate. }
  cbn [ltb Js.gtb isZero] in Hlow, Hhigh, Hrun.
  exists i, q. split; [exact Hx|]. split; [reflexivity|].
  split; [lia|].
  destruct (q =? 0) eqn:Hz.
  - apply Z.eqb_eq in Hz. split; [|intros Hq; contradiction].
    intros _.
    destruct (CartController.save _ _ _ _) as [[d c]|] eqn:Hsave;
      [|discriminate].
    injection Hrun as <- _.
    pose proof (storedLines_saved _ _ _ _ _ _ Hsave) as Hlines.
    unfold storedLines in Hlines. rewrite Hlines.
    apply splice_firstn_skipn.
  - apply Z.eqb_neq in Hz. split; [intros Hq; contradiction|].
    intros _.
    destruct (nth_error (Cart.items cart) i) as [line|] eqn:Hline;
      [|discriminate].
    exists line. split; [reflexivity|].
    destruct (Store.findProduct _ _) as [product|] eqn:Hproduct.
    + destruct (Product.quantity product <? q) eqn:Hstock; [discriminate|].
      destruct (CartController.save _ _ _ _) as [[d c]|] eqn:Hsave;
        [|discriminate].
      injection Hrun as <- _.
      pose proof (storedLines_saved _ _ _ _ _ _ Hsave) as Hlines.
      unfold storedLines in Hlines. rewrite Hlines. split.
      * apply setQuantity_firstn_skipn. exact Hline.
      * intros p [= <-]. lia.
    + destruct (CartController.save _ _ _ _) as [[d c]|] eqn:Hsave;
        [|discriminate].
      injection Hrun as <- _.
      pose proof (storedLines_saved _ _ _ _ _ _ Hsave) as Hlines.
      unfold storedLines in Hlines. rewrite Hlines. split.
      * apply setQuantity_firstn_skipn. exact Hline.
      * intros p Hp. discriminate Hp.
Qed.

(** X14. Clearing the cart of a user who has one is answered 200 with the
    cart of the user with no line and total 0, which is then the stored
    cart; clearing again gives the same store and the same answer. *)
Theorem clearCart_empties_and_repeats user db cart :
  Store.findCart (User.id user) (Db.carts db) = Some cart ->
  let emptied := Cart.mk (User.id user) [] 0 in
  snd (clearCart user db) = mkCartResp 200 (CartPlain emptied)
  /\ Store.findCart (User.id user) (Db.carts (fst (clearCart user db)))
     = Some emptied
  /\ clearCart user (fst (clearCart user db)) = clearCart user db.
Proof.
  intros Hcart emptied.
  assert (Hrun : clearCart user db
                 = (Db.setCarts (Store.putCart emptied (Db.carts db)) db,
                    mkCartResp 200 (CartPlain emptied))).
  { unfold clearCart. rewrite Hcart. reflexivity. }
  rewrite Hrun. cbn [fst snd Db.carts Db.setCarts].
  assert (Hfound : Store.findCart (User.id user)
                     (Store.putCart emptied (Db.carts db)) = Some emptied).
  { rewrite findCart_putCart. cbn [Cart.user emptied].
    rewrite String.eqb_refl. reflexivity. }
  repeat apply conj; trivial.
  unfold clearCart. cbn [Db.carts Db.setCarts]. rewrite Hfound.
  unfold CartController.save. cbn [forallb Db.carts Db.setCarts].
  fold emptied. rewrite putCart_twice; reflexivity.
Qed.

End CartLines.

Section QueryFacts.
Context `{Platform}.

Import OrderQueries.

Variable createdAt : Order.t -> Z.
Variable userExists : string -> bool.
Variable parseDate : string -> option Z.

Lemma groupCounts_app a b :
  groupCounts (a ++ b) = groupCounts a + groupCounts b.
Proof.
  induction a as [|g r IH]; cbn [app groupCounts fold_right]; [reflexivity|].
  fold (groupCounts (r ++ b)). fold (groupCounts r). rewrite IH. lia.
Qed.

Lemma revenueOutsideCancelled_app a b :
  (revenueOutsideCancelled (a ++ b)
   == revenueOutsideCancelled a + revenueOutsideCancelled b)%Q.
Proof.
  induction a as [|g r IH]; cbn [app revenueOutsideCancelled fold_right].
  - fold (revenueOutsideCancelled b). ring.
  - fold (revenueOutsideCancelled (r ++ b)). fold (revenueOutsideCancelled r).
    destruct (statusEqb (fst (fst g)) Cancelled); rewrite IH; ring.
Qed.

Lemma groupByStatus_groups os :
  groupByStatus os
  = (groupOf Pending os ++ groupOf Processing os ++ groupOf Shipped os
     ++ groupOf Delivered os ++ groupOf Cancelled os)%list.
Proof.
  unfold groupByStatus, allStatuses, groupOf. cbn [flat_map].
  rewrite app_nil_r.
  repeat match goal with
  | |- context [filter ?f os] => destruct (filter f os)
  end; reflexivity.
Qed.

Lemma groupCounts_groupOf s os :
  groupCounts (groupOf s os)
  = Z.of_nat (List.length (filter (fun o => statusEqb (Order.order_status o) s) os)).
Proof.
  unfold groupOf. destruct (filter _ os); cbn; lia.
Qed.

Lemma revenue_groupOf s os :
  (revenueOutsideCancelled (groupOf s os)
   == if statusEqb s Cancelled then 0
      else sumTotals (filter (fun o => statusEqb (Order.order_status o) s) os))%Q.
Proof.
  unfold groupOf. destruct (filter _ os) as [|o r].
  - cbn. destruct (statusEqb s Cancelled); reflexivity.
  - cbn [revenueOutsideCancelled fold_right fst snd].
    destruct (statusEqb s Cancelled); ring.
Qed.

Lemma counts_cover os :
  Z.of_nat (List.length (filter (fun o => statusEqb (Order.order_status o) Pending) os))
  + Z.of_nat (List.length (filter (fun o => statusEqb (Order.order_status o) Processing) os))
  + Z.of_nat (List.length (filter (fun o => statusEqb (Order.order_status o) Shipped) os))
  + Z.of_nat (List.length (filter (fun o => statusEqb (Order.order_status o) Delivered) os))
  + Z.of_nat (List.length (filter (fun o => statusEqb (Order.order_status o) Cancelled) os))
  = Z.of_nat (List.length os).
Proof.
  induction os as [|o r IH]; [reflexivity|].
  cbn [filter List.length].
  destruct (Order.order_status o); cbn [statusEqb List.length];
    rewrite !Nat2Z.inj_succ; lia.
Qed.

Lemma totals_cover os :
  (sumTotals (filter (fun o => statusEqb (Order.order_status o) Pending) os)
   + sumTotals (filter (fun o => statusEqb (Order.order_status o) Processing) os)
   + sumTotals (filter (fun o => statusEqb (Order.order_status o) Shipped) os)
   + sumTotals (filter (fun o => statusEqb (Order.order_status o) Delivered) os)
   == sumTotals (filter (fun o => negb (statusEqb (Order.order_status o) Cancelled)) os))%Q.
Proof.
  induction os as [|o r IH]; [reflexivity|].
  cbn [filter].
  destruct (Order.order_status o); cbn [statusEqb negb sumTotals fold_right];
    fold sumTotals;
    repeat match goal with
    | |- context [fold_right _ 0%Q ?l] => change (fold_right _ 0%Q l) with (sumTotals l)
    end;
    rewrite <- IH; ring.
Qed.

Lemma groupOf_statuses s os :
  groupOf s os = []
  \/ exists n a, groupOf s os = [(s, n, a)] /\ 1 <= n.
Proof.
  unfold groupOf. destruct (filter _ os) as [|o r]; [left; reflexivity|].
  right. eexists _, _. split; [reflexivity|]. cbn [List.length]. lia.
Qed.

(** X15. The three figures of [getOrderStats] agree: the counts of the
    groups of the status breakdown add up to the number of orders reported,
    the amounts of the groups other than [Cancelled] add up to the revenue
    reported, no status has two groups, no group is empty, and no more
    orders are reported than the store holds. *)
Theorem getOrderStats_figures_agree startDate endDate db stats totalOrders totalRevenue :
  getOrderStats createdAt parseDate startDate endDate db
  = mkQuery 200 (QueryStats stats totalOrders totalRevenue) ->
  groupCounts stats = totalOrders
  /\ (revenueOutsideCancelled stats == totalRevenue)%Q
  /\ NoDup (map (fun g => fst (fst g)) stats)
  /\ Forall (fun g => 1 <= snd (fst g)) stats
  /\ 0 <= totalOrders <= Z.of_nat (List.length (Db.orders db)).
Proof.
  unfold getOrderStats.
  destruct (_ || _); [discriminate|].
  set (matched := filter _ (Db.orders db)).
  intros [= <- <- <-].
  rewrite groupByStatus_groups.
  repeat apply conj.
  - rewrite !groupCounts_app, !groupCounts_groupOf, <- (counts_cover matched). lia.
  - rewrite !revenueOutsideCancelled_app, !revenue_groupOf. cbn [statusEqb].
    rewrite <- (totals_cover matched). ring.
  - destruct (groupOf_statuses Pending matched) as [-> |(? & ? & -> & _)];
    destruct (groupOf_statuses Processing matched) as [-> |(? & ? & -> & _)];
    destruct (groupOf_statuses Shipped matched) as [-> |(? & ? & -> & _)];
    destruct (groupOf_statuses Delivered matched) as [-> |(? & ? & -> & _)];
    destruct (groupOf_statuses Cancelled matched) as [-> |(? & ? & -> & _)];
    cbn [app map fst];
    repeat (constructor; [cbn [In]; intuition discriminate|]); constructor.
  - repeat (apply Forall_app; split);
    match goal with
    | |- Forall _ (groupOf ?s matched) =>
        destruct (groupOf_statuses s matched) as [-> |(? & ? & -> & ?)]
    end; repeat constructor; assumption.
  - lia.
  - apply inj_le. subst matched. clear.
    induction (Db.orders db) as [|o r IH]; cbn [filter List.length]; [lia|].
    destruct (inRange _ _ _ _); cbn [List.length]; lia.
Qed.

(** X16. [getOrderById] answers 200 only with the stored order that has
    the identifier of the request, and only to an administrator or to the
    user the order belongs to; a user who is no administrator and asks for
    the order of another user whose account exists is answered 403. *)
Theorem getOrderById_owner_or_admin orderId user db :
  (forall body,
      getOrderById userExists orderId user db = mkResp 200 body ->
      exists order,
        body = OrderDoc order
        /\ Store.findOrder (ObjectId_hex (JStr orderId)) (Db.orders db) = Some order
        /\ Order._id order = ObjectId_hex (JStr orderId)
        /\ (User.role user = "admin" \/ Order.user_id order = User.id user))
  /\ (forall order,
         ObjectId_isValid (JStr orderId) = true ->
         Store.findOrder (ObjectId_hex (JStr orderId)) (Db.orders db) = Some order ->
         User.role user <> "admin" ->
         Order.user_id order <> User.id user ->
         userExists (Order.user_id order) = true ->
         getOrderById userExists orderId user db = mkResp 403 (Message "Access denied")).
Proof.
  unfold getOrderById. split.
  - intros body.
    destruct (negb _); [discriminate|].
    destruct (Store.findOrder _ _) as [order|] eqn:Hfound; [|discriminate].
    pose proof (findOrder_id _ _ _ Hfound) as Hid.
    destruct (String.eqb (User.role user) "admin") eqn:Hrole.
    + intros [= <-]. exists order. apply String.eqb_eq in Hrole. auto.
    + destruct (negb (userExists _)); [discriminate|].
      destruct (String.eqb (Order.user_id order) (User.id user)) eqn:Howner;
        cbn [negb]; [|discriminate].
      intros [= <-]. exists order. apply String.eqb_eq in Howner. auto.
  - intros order -> -> Hrole Howner ->. cbn [negb].
    apply String.eqb_neq in Hrole, Howner. rewrite Hrole, Howner. reflexivity.
Qed.

Lemma insertLatestFirst_perm o l :
  Permutation (insertLatestFirst createdAt o l) (o :: l).
Proof.
  induction l as [|x r IH]; cbn [insertLatestFirst]; [reflexivity|].
  destruct (createdAt x <=? createdAt o); [reflexivity|].
  rewrite IH. apply perm_swap.
Qed.

Lemma sortLatestFirst_perm l : Permutation (sortLatestFirst createdAt l) l.
Proof.
  induction l as [|o r IH]; cbn [sortLatestFirst]; [reflexivity|].
  rewrite insertLatestFirst_perm, IH. reflexivity.
Qed.

Lemma insertLatestFirst_sorted o l :
  StronglySorted (fun a b => createdAt b <= createdAt a) l ->
  StronglySorted (fun a b => createdAt b <= createdAt a)
    (insertLatestFirst createdAt o l).
Proof.
  induction l as [|x r IH]; cbn [insertLatestFirst]; intros Hs.
  - repeat constructor.
  - destruct (createdAt x <=? createdAt o) eqn:Hle.
    + apply Z.leb_le in Hle. constructor; [exact Hs|].
      constructor; [exact Hle|].
      apply StronglySorted_inv in Hs. destruct Hs as [_ Hall].
      eapply Forall_impl; [|exact Hall]. cbn. intros a Ha. lia.
    + apply Z.leb_gt in Hle.
      apply StronglySorted_inv in Hs. destruct Hs as [Hr Hall].
      constructor; [exact (IH Hr)|].
      rewrite insertLatestFirst_perm. constructor; [lia|exact Hall].
Qed.

Lemma sortLatestFirst_sorted l :
  StronglySorted (fun a b => createdAt b <= createdAt a)
    (sortLatestFirst createdAt l).
Proof.
  induction l as [|o r IH]; cbn [sortLatestFirst]; [constructor|].
  apply insertLatestFirst_sorted. exact IH.
Qed.

(** X17. [getUserOrders] answers 200 with a listing that holds every stored
    order of the authenticated user as often as the store does, no order of
    anybody else, and has no order before one that was created later. *)
Theorem getUserOrders_lists_own_orders user db listing :
  getUserOrders createdAt user db = mkQuery 200 (QueryOrders listing) ->
  (forall o, In o listing <->
             In o (Db.orders db)
             /\ Order.user_id o = ObjectId_hex (JStr (User.id user)))
  /\ Permutation listing
       (filter (fun o => String.eqb (Order.user_id o)
                           (ObjectId_hex (JStr (User.id user))))
          (Db.orders db))
  /\ StronglySorted (fun a b => createdAt b <= createdAt a) listing.
Proof.
  unfold getUserOrders. destruct (negb _); [discriminate|].
  intros [= <-]. repeat apply conj.
  - intros o. rewrite <- String.eqb_eq.
    rewrite <- (filter_In
                  (fun o => String.eqb (Order.user_id o)
                              (ObjectId_hex (JStr (User.id user))))).
    split.
    + apply Permutation_in, sortLatestFirst_perm.
    + apply Permutation_in, Permutation_sym, sortLatestFirst_perm.
  - apply sortLatestFirst_perm.
  - apply sortLatestFirst_sorted.
Qed.

End QueryFacts.

Section RouteFacts.
Context `{Platform}.

Import Routes.

(** X18. Through the route [PUT /:id/status] a user who is no
    administrator is answered 403 and the store stays as it is; whenever the
    store is not the same after the request, the user is an administrator,
    the answer is 200 and the status asked for is one of the five. *)
Theorem putOrderStatus_needs_admin user orderId requested db :
  (User.role user <> "admin" ->
   putOrderStatus user orderId requested db
   = (db, mkResp 403 (Message "Forbidden - Admin access required")))
  /\ (fst (putOrderStatus user orderId requested db) <> db ->
      User.role user = "admin"
      /\ status (snd (putOrderStatus user orderId requested db)) = 200
      /\ exists s, statusOf requested = Some s).
Proof.
  unfold putOrderStatus, isAdmin.
  destruct (String.eqb (User.role user) "admin") eqn:Hrole; cbn [negb].
  - apply String.eqb_eq in Hrole. split; [intros Hno; contradiction|].
    unfold updateOrderStatus, withTransaction.
    destruct (negb (ObjectId_isValid (JStr orderId)));
      [intros Hd; contradiction Hd; reflexivity|].
    destruct (negb (Js.truthy requested));
      [intros Hd; contradiction Hd; reflexivity|].
    destruct (statusOf requested) as [newStatus|];
      [|intros Hd; contradiction Hd; reflexivity].
    destruct (updateOrderStatus_transaction orderId newStatus db) as [[db' o]|m].
    + intros _. repeat split; trivial. exists newStatus. reflexivity.
    + destruct (String.eqb m "Order not found");
        intros Hd; contradiction Hd; reflexivity.
  - split; [reflexivity|]. intros Hd. contradiction Hd. reflexivity.
Qed.

Lemma findByIdAndUpdate_found i z ps ps' p :
  findByIdAndUpdate i z ps = (ps', Some p) ->
  Store.findProduct i ps' = Some p
  /\ Product.quantity p = z
  /\ (exists old,
         Store.findProduct i ps = Some old
         /\ Product._id p = Product._id old
         /\ Product.name p = Product.name old
         /\ Product.sizes p = Product.sizes old
         /\ Product.price p = Product.price old)
  /\ (forall j, j <> i -> Store.findProduct j ps' = Store.findProduct j ps)
  /\ List.length ps' = List.length ps.
Proof.
  unfold Store.findProduct.
  revert ps'. induction ps as [|x r IH]; intros ps'; cbn [findByIdAndUpdate find];
    [discriminate|].
  destruct (Store.hasId i x) eqn:Hx.
  - intros [= <- <-]. cbn [find]. unfold Store.hasId in *.
    cbn [Product._id Product.quantity Product.name Product.sizes Product.price].
    rewrite Hx. repeat apply conj; trivial.
    + exists x. repeat split.
    + intros j Hj. apply String.eqb_eq in Hx. rewrite Hx.
      destruct (String.eqb i j) eqn:E; [|reflexivity].
      apply String.eqb_eq in E. congruence.
  - destruct (findByIdAndUpdate i z r) as [r' found] eqn:Hr.
    intros [= <- ->]. destruct (IH r' eq_refl) as (Hf & Hq & Hold & Hother & Hlen).
    cbn [find List.length]. rewrite Hx. repeat apply conj; trivial.
    + intros j Hj. rewrite (Hother j Hj). reflexivity.
    + rewrite Hlen. reflexivity.
Qed.

(** X19. When [updateProductQuantity] answers 200, the quantity of the
    request is a whole number not below 0, the product with the identifier
    of the request has that number as its stock, its identifier, name, sizes
    and price are as before, the answer shows it, and every other product,
    every order and every cart is as before. *)
Theorem updateProductQuantity_sets_stock params fields db db' body :
  updateProductQuantity params fields db = (db', mkProductResp 200 body) ->
  let productId := match Js.lookup "productId" params with
                   | Some v => v | None => JUndefined end in
  let quantity := match Js.lookup "quantity" fields with
                  | Some v => v | None => JUndefined end in
  exists z old product,
    ObjectId_isValid productId = true
    /\ isInteger quantity = Some z
    /\ 0 <= z
    /\ body = ProductDoc product
    /\ Store.findProduct (ObjectId_hex productId) (Db.products db) = Some old
    /\ Store.findProduct (ObjectId_hex productId) (Db.products db') = Some product
    /\ product = Product.mk (Product._id old) (Product.name old) z
                   (Product.sizes old) (Product.price old)
    /\ (forall j, j <> ObjectId_hex productId ->
                  Store.findProduct j (Db.products db')
                  = Store.findProduct j (Db.products db))
    /\ Db.orders db' = Db.orders db
    /\ Db.carts db' = Db.carts db.
Proof.
  intros Hrun productId quantity.
  unfold updateProductQuantity in Hrun. fold productId quantity in Hrun.
  destruct (ObjectId_isValid productId) eqn:Hvalid; cbn [negb] in Hrun;
    [|discriminate].
  destruct (isInteger quantity) as [z|] eqn:Hint; [|discriminate].
  destruct (z <? 0) eqn:Hneg; [discriminate|]. apply Z.ltb_ge in Hneg.
  destruct (findByIdAndUpdate _ _ _) as [ps [product|]] eqn:Hupdate;
    [|discriminate].
  injection Hrun as <- <-.
  destruct (findByIdAndUpdate_found _ _ _ _ _ Hupdate)
    as (Hfound & Hq & (old & Hold & Hi & Hn & Hs & Hp) & Hother & _).
  exists z, old, product. repeat apply conj; trivial.
  destruct product as [i n q s p].
  cbn [Product._id Product.name Product.quantity Product.sizes Product.price] in *.
  congruence.
Qed.

(** X20. The route [PUT /:id/quantity] hands the handler a parameter named
    [id], and the handler reads [productId]: when [ObjectId.isValid] refuses
    [undefined], no request through the route changes the store, and an
    administrator is always answered 400. *)
Theorem putProductQuantity_never_sets_stock user id fields db :
  ObjectId_isValid JUndefined = false ->
  fst (putProductQuantity user id fields db) = db
  /\ product_status (snd (putProductQuantity user id fields db)) <> 200
  /\ (User.role user = "admin" ->
      putProductQuantity user id fields db
      = (db, mkProductResp 400 (ProductMessage "Invalid product ID format"))).
Proof.
  intros Hundefined.
  unfold putProductQuantity, isAdmin, updateProductQuantity.
  destruct (String.eqb (User.role user) "admin") eqn:Hrole; cbn [negb].
  - cbn [Js.lookup String.eqb Ascii.eqb Bool.eqb]. rewrite Hundefined. cbn [negb fst snd product_status].
    repeat split. discriminate.
  - cbn [fst snd product_status status]. repeat split; [discriminate|].
    intros Hadmin. apply String.eqb_neq in Hrole. contradiction.
Qed.

End RouteFacts.

Section SanitizeFacts.

Lemma chars_stripAngles s c :
  In c (chars (Str.stripAngles s)) -> In c (chars s) /\ c <> "<"%char /\ c <> ">"%char.
Proof.
  induction s as [|a r IH]; cbn [Str.stripAngles chars]; [intros []|].
  destruct (Ascii.eqb a "<" || Ascii.eqb a ">")%bool eqn:Ha.
  - intros Hin. destruct (IH Hin) as (Hr & Hlt & Hgt).
    repeat split; trivial. right. exact Hr.
  - cbn [chars In]. intros [<- | Hin].
    + apply orb_false_iff in Ha. destruct Ha as [Hlt Hgt].
      apply Ascii.eqb_neq in Hlt, Hgt. repeat split; trivial. left. reflexivity.
    + destruct (IH Hin) as (Hr & Hlt & Hgt). repeat split; trivial. right. exact Hr.
Qed.

Lemma chars_skipWhite w1 w2 w3 n :
  forall s, (String.length s <= n)%nat ->
  forall c, In c (chars (Str.skipWhite w1 w2 w3 s)) -> In c (chars s).
Proof.
  induction n as [|n IH]; intros s Hlen c.
  - destruct s; [trivial|]. cbn [String.length] in Hlen. lia.
  - destruct s as [|a r]; [trivial|]. cbn [String.length] in Hlen.
    cbn [Str.skipWhite chars In].
    destruct (w1 a); [intros Hin; right; apply IH; [lia|exact Hin]|].
    destruct r as [|b r2]; [trivial|]. cbn [String.length] in Hlen.
    cbn [chars In].
    destruct (w2 a b);
      [intros Hin; right; right; apply IH; [lia|exact Hin]|].
    destruct r2 as [|d r3]; [trivial|]. cbn [String.length] in Hlen.
    cbn [chars In].
    destruct (w3 a b d); [|trivial].
    intros Hin. right. right. right. apply IH; [lia|exact Hin].
Qed.

Lemma chars_reverseOnto s :
  forall acc c,
    In c (chars (Str.reverseOnto s acc)) <-> In c (chars s) \/ In c (chars acc).
Proof.
  induction s as [|a r IH]; intros acc c; cbn [Str.reverseOnto chars In].
  - tauto.
  - rewrite IH. cbn [chars In]. tauto.
Qed.

Lemma chars_reverse s c : In c (chars (Str.reverse s)) <-> In c (chars s).
Proof.
  unfold Str.reverse. rewrite chars_reverseOnto. cbn [chars In]. tauto.
Qed.

Lemma chars_trimStart s c : In c (chars (Str.trimStart s)) -> In c (chars s).
Proof. apply (chars_skipWhite _ _ _ (String.length s)). lia. Qed.

Lemma chars_trimEnd s c : In c (chars (Str.trimEnd s)) -> In c (chars s).
Proof.
  unfold Str.trimEnd. rewrite chars_reverse. intros Hin.
  apply chars_reverse.
  exact (chars_skipWhite _ _ _ _ _ (Nat.le_refl _) _ Hin).
Qed.

(** X21. [sanitizeInput] leaves a value that is no string as it is; of a
    string it keeps only characters of the string, none of them an angle
    bracket. *)
Theorem sanitizeInput_strips_angles input :
  match input with
  | JStr s =>
      exists s',
        CartController.sanitizeInput input = JStr s'
        /\ forall c, In c (chars s') ->
                     In c (chars s) /\ c <> "<"%char /\ c <> ">"%char
  | _ => CartController.sanitizeInput input = input
  end.
Proof.
  destruct input as [| |b|q|s|elems|fields]; try reflexivity.
  cbn [CartController.sanitizeInput]. eexists. split; [reflexivity|].
  intros c Hin. destruct (chars_stripAngles _ _ Hin) as (Hs & Hlt & Hgt).
  repeat split; trivial.
  unfold Str.trim in Hs. apply chars_trimStart, chars_trimEnd. exact Hs.
Qed.

End SanitizeFacts.

Section CartViewFacts.
Context `{Platform}.

Import CartHandlers.

Lemma populated_lines ps items :
  map CartView.line
    (flat_map
       (fun item =>
          match Store.findProduct (Cart.product item) ps with
          | None => []
          | Some product =>
              [CartView.mkItem item
                 (CartView.mkInfo (Product._id product) (Product.name product)
                    (Product.price product) (Product.sizes product))]
          end)
       items)
  = filter (inCatalog ps) items.
Proof.
  induction items as [|x r IH]; cbn [flat_map filter map]; [reflexivity|].
  unfold inCatalog at 1.
  destruct (Store.findProduct (Cart.product x) ps); cbn [app map];
    rewrite IH; reflexivity.
Qed.

(** X22. [getCartByUserId] answers 404 when the user has no cart and 200
    otherwise.  The cart it shows has the lines of the stored cart whose
    product the catalog still has, in their order, each with the identifier,
    name, sizes and current price of its product beside the price the line
    was stored with; the total it shows is the stored total, whether or not
    a line was left out. *)
Theorem getCartByUserId_shows_lines_in_catalog user db :
  match Store.findCart (User.id user) (Db.carts db) with
  | None => getCartByUserId user db = mkCartResp 404 (CartMessage "Cart not found")
  | Some cart =>
      exists view,
        getCartByUserId user db = mkCartResp 200 (CartPopulated view)
        /\ CartView.user view = User.id user
        /\ map CartView.line (CartView.items view)
           = filter (inCatalog (Db.products db)) (Cart.items cart)
        /\ CartView.total view = Cart.total cart
        /\ Forall
             (fun shown =>
                exists product,
                  Store.findProduct (Cart.product (CartView.line shown))
                    (Db.products db) = Some product
                  /\ CartView.product shown
                     = CartView.mkInfo (Cart.product (CartView.line shown))
                         (Product.name product) (Product.price product)
                         (Product.sizes product))
             (CartView.items view)
  end.
Proof.
  unfold getCartByUserId.
  destruct (Store.findCart _ _) as [cart|] eqn:Hcart; [|reflexivity].
  eexists. split; [reflexivity|].
  unfold CartController.populateCartItems. cbn [CartView.user CartView.items CartView.total].
  repeat apply conj.
  - unfold Store.findCart in Hcart. apply find_some in Hcart.
    destruct Hcart as [_ Hu]. apply String.eqb_eq in Hu. exact Hu.
  - apply populated_lines.
  - reflexivity.
  - apply Forall_forall. intros shown Hin. apply in_flat_map in Hin.
    destruct Hin as (item & _ & Hin).
    destruct (Store.findProduct (Cart.product item) (Db.products db))
      as [product|] eqn:Hproduct; [|destruct Hin].
    destruct Hin as [<- |[]]. cbn [CartView.line CartView.product].
    exists product. split; [exact Hproduct|].
    pose proof (findProduct_id _ _ _ Hproduct) as Hid.
    unfold Store.hasId in Hid. apply String.eqb_eq in Hid.
    rewrite Hid. reflexivity.
Qed.

End CartViewFacts.

Section PlacementAmounts.
Context `{Platform}.

(** X23. The amounts of an order placed with 201: the subtotal is the sum
    of price times quantity over the lines and is not negative; shipping is
    10 up to a subtotal of 100 and nothing above; the total is the subtotal
    plus shipping, except that up to a subtotal of 0.125 the 8% that
    [calculateOrderTotals] adds stays in it, the pre-save hook replacing
    only a total that is more than 0.01 away from the sum. *)
Theorem createOrder_amounts env req db db' o :
  createOrder env req db = (db', mkResp 201 (OrderDoc o)) ->
  (Order.subtotal o == linesTotal (Order.products o))%Q
  /\ (0 <= Order.subtotal o)%Q
  /\ Order.shipping o
     = (if Qle_bool (Order.subtotal o) 100 then 10%Q else 0%Q)
  /\ Order.total_amount o
     = (if Qle_bool (Order.subtotal o) (1 # 8)
        then Order.subtotal o + 10 + Order.subtotal o * (8 # 100)
        else Order.subtotal o + Order.shipping o)%Q.
Proof.
  intros Hrun.
  destruct (createOrder_totals _ _ _ _ _ Hrun) as (Hsum & Hship & _ & Hbig).
  assert (Hpos : (0 <= Order.subtotal o)%Q).
  { destruct (createOrder_committed _ _ _ _ _ Hrun)
      as (items & db1 & lines & sub & _ & _ & Hvalid & -> & _).
    destruct (preSave_subtotal
                (Order.mk (fresh_id env) (User.id (req_user req)) lines
                   (subtotal (calculateOrderTotals sub))
                   (shipping (calculateOrderTotals sub))
                   (total (calculateOrderTotals sub)) Pending)) as [-> _].
    unfold OrderModel.validate in Hvalid.
    destruct (negb (OrderModel.sizesPresent _)); [discriminate|].
    destruct (OrderModel.minimaHold _) eqn:Hmin; [|discriminate].
    unfold OrderModel.minimaHold in Hmin.
    apply andb_true_iff in Hmin. destruct Hmin as [Hmin _].
    apply andb_true_iff in Hmin. destruct Hmin as [Hmin _].
    apply andb_true_iff in Hmin. destruct Hmin as [_ Hmin].
    apply Qle_bool_iff. exact Hmin. }
  repeat apply conj; trivial.
  destruct (Qle_bool (Order.subtotal o) (1 # 8)) eqn:Hsmall.
  - apply Qle_bool_iff in Hsmall.
    exact (createOrder_small_subtotal _ _ _ _ _ Hrun Hpos Hsmall).
  - apply Hbig. apply Qnot_le_lt. intros Hle.
    apply Qle_bool_iff in Hle. congruence.
Qed.

End PlacementAmounts.

(* ===================================================================== *)
(** ** The further properties on the sample data *)

(** The hypothesis of a property on the sample data, by computation. *)
Ltac by_running :=
  match goal with
  | |- exists _, _ => eexists; by_running
  | |- ?run /\ _ =>
      let Hrun := fresh "Hrun" in
      assert (Hrun : run) by (vm_compute; reflexivity);
      split; [exact Hrun|]
  end.

(** Three pairs of the runner: the order is stored as pending under the
    identifier of the driver. *)
Lemma createOrder_stores_pending_order_witness :
  exists db' o,
    createOrder Sample.env (Sample.threeRunners JUndefined) Sample.db
    = (db', mkResp 201 (OrderDoc o))
    /\ Order._id o = Sample.orderId
    /\ Order.order_status o = Pending
    /\ Store.findOrder Sample.orderId (Db.orders Sample.db) = None.
Proof.
  by_running.
  destruct (createOrder_stores_pending_order (H := Node.platform) _ _ _ _ _ Hrun)
    as (Hid & Hstatus & _ & _ & Hfresh & _).
  exact (conj Hid (conj Hstatus Hfresh)).
Defined.

(** The cart of [Sample.alice], who placed the order, is empty afterwards. *)
Lemma createOrder_clears_own_cart_witness :
  exists db' o,
    createOrder Sample.env (Sample.threeRunners JUndefined) Sample.db
    = (db', mkResp 201 (OrderDoc o))
    /\ Store.findCart (User.id Sample.alice) (Db.carts db')
       = Some (Cart.mk (User.id Sample.alice) [] 0).
Proof.
  by_running.
  rewrite (createOrder_clears_own_cart (H := Node.platform) _ _ _ _ _ Hrun).
  reflexivity.
Defined.

(** The line of three pairs of the runner is a line of the catalog. *)
Lemma createOrder_lines_from_catalog_witness :
  exists db' o,
    createOrder Sample.env (Sample.threeRunners JUndefined) Sample.db
    = (db', mkResp 201 (OrderDoc o))
    /\ Forall (lineFromCatalog Sample.db) (Order.products o).
Proof.
  by_running.
  exact (createOrder_lines_from_catalog (H := Node.platform) _ _ _ _ _ Hrun).
Defined.

(** Three pairs of the runner placed and cancelled: the stock is at five
    again. *)
Lemma place_then_take_back_witness :
  exists db1 o,
    createOrder Sample.env (Sample.threeRunners JUndefined) Sample.db
    = (db1, mkResp 201 (OrderDoc o))
    /\ stock Sample.runnerId db1 = Some 2
    /\ stock Sample.runnerId
         (fst (updateOrderStatus Sample.orderId (JStr "Cancelled") db1))
       = Some 5.
Proof.
  by_running. split; [reflexivity|].
  destruct (place_then_take_back (H := Node.platform) _ _ _ _ _ Hrun
              eq_refl eq_refl) as [[_ Hstock] _].
  exact (Hstock Sample.runnerId).
Defined.

(** A status that is not one of the five, and a deletion by somebody who
    does not own the order. *)
Lemma status_engine_refusal_leaves_store_witness :
  fst (updateOrderStatus Sample.orderId (JStr "Returned") Scene.db) = Scene.db
  /\ fst (deleteOrder Scene.shippedId Sample.alice Scene.db) = Scene.db.
Proof.
  destruct (status_engine_refusal_leaves_store (H := Node.platform)
              Sample.orderId (JStr "Returned") Sample.alice Scene.db)
    as [Hupdate _].
  destruct (status_engine_refusal_leaves_store (H := Node.platform)
              Scene.shippedId (JStr "Returned") Sample.alice Scene.db)
    as [_ Hdelete].
  split.
  - apply Hupdate. vm_compute. discriminate.
  - apply Hdelete. vm_compute. discriminate.
Defined.

(** The pending order set to Processing. *)
Lemma updateOrderStatus_touches_status_only_witness :
  exists db' o,
    updateOrderStatus Sample.orderId (JStr "Processing") Scene.db
    = (db', mkResp 200 (OrderDoc o))
    /\ Store.findOrder Scene.shippedId (Db.orders db') = Some Scene.shipped
    /\ Db.products db' = Db.products Scene.db.
Proof.
  by_running.
  destruct (updateOrderStatus_touches_status_only (H := Node.platform)
              _ _ _ _ _ Hrun)
    as (old & _ & _ & _ & _ & _ & _ & _ & _ & Hother & Hcatalog).
  split.
  - rewrite Hother; [reflexivity|]. vm_compute. discriminate.
  - apply Hcatalog. vm_compute. discriminate.
Defined.

(** [Sample.alice] deletes her cancelled order. *)
Lemma deleteOrder_removes_one_order_witness :
  exists db' message o,
    deleteOrder Scene.cancelledId Sample.alice Scene.db
    = (db', mkResp 200 (Deleted message o))
    /\ List.length (Db.orders Scene.db) = 3%nat
    /\ List.length (Db.orders db') = 2%nat
    /\ Order.user_id o = User.id Sample.alice.
Proof.
  by_running.
  destruct (deleteOrder_removes_one_order (H := Node.platform) _ _ _ _ _ _ Hrun)
    as (_ & [Hadmin|Howner] & Hlen & _).
  - vm_compute in Hadmin. discriminate Hadmin.
  - split; [reflexivity|]. split; [|exact Howner].
    apply eq_add_S. rewrite Hlen. reflexivity.
Defined.

(** Ten pairs of the runner, of which five are in stock, are refused. *)
Lemma addItemToCart_touches_own_cart_only_witness :
  status (snd (CartController.addItemToCart
                 (CartController.mkAdd (JStr Sample.runnerId) (JNum 10)
                    (JStr "9") Sample.alice) Sample.db)) = 400
  /\ fst (CartController.addItemToCart
            (CartController.mkAdd (JStr Sample.runnerId) (JNum 10)
               (JStr "9") Sample.alice) Sample.db) = Sample.db.
Proof.
  split; [reflexivity|].
  apply (addItemToCart_touches_own_cart_only (H := Node.platform)).
  vm_compute. discriminate.
Defined.

(** One pair of the runner beside the eight pairs of sandals. *)
Lemma addItemToCart_total_is_sum_witness :
  exists db' body,
    CartController.addItemToCart Scene.oneRunner Sample.db
    = (db', mkResp 201 body)
    /\ exists cart,
         Store.findCart (User.id Sample.alice) (Db.carts db') = Some cart
         /\ CartController.itemsTotal (Cart.items cart) = Some (Cart.total cart).
Proof.
  by_running.
  destruct (addItemToCart_total_is_sum (H := Node.platform) _ _ _ _ Hrun)
    as (cart & Hcart & _ & Htotal & _).
  exists cart. exact (conj Hcart Htotal).
Defined.

(** Five more pairs of sandals are merged into the line of eight. *)
Lemma addItemToCart_line_within_stock_witness :
  exists db' body,
    CartController.addItemToCart Sample.fiveMoreSandals Sample.db
    = (db', mkResp 201 body)
    /\ exists product q,
         Js.parseInt (JNum 5) = Some (Fin q)
         /\ 1 <= q <= 10
         /\ Store.findProduct Sample.sandalId (Db.products Sample.db)
            = Some product
         /\ q <= Product.quantity product.
Proof.
  by_running.
  destruct (addItemToCart_line_within_stock (H := Node.platform) _ _ _ _ Hrun)
    as (product & q & Hparse & Hq & Hproduct & Hstock & _).
  exists product, q. exact (conj Hparse (conj Hq (conj Hproduct Hstock))).
Defined.

(** Removing the one line of the cart of [Sample.alice]. *)
Lemma cart_mutations_write_own_cart_witness :
  Db.products
    (fst (CartHandlers.removeItemFromCart [Scene.lineId] Scene.lineId
            Sample.alice Sample.db))
  = Db.products Sample.db
  /\ cart_status
       (snd (CartHandlers.removeItemFromCart [Scene.lineId] Scene.lineId
               Sample.alice Sample.db)) = 200.
Proof.
  split; [|reflexivity].
  exact (proj1 (cart_mutations_write_own_cart (H := Node.platform)
                  [Scene.lineId] Scene.lineId (JStr Scene.lineId) (JNum 2)
                  Sample.alice Sample.db _ (or_intror (or_introl eq_refl)))).
Defined.

(** The one line removed: the cart has no line left. *)
Lemma removeItemFromCart_removes_the_line_witness :
  exists db' body,
    CartHandlers.removeItemFromCart [Scene.lineId] Scene.lineId Sample.alice
      Sample.db
    = (db', mkCartResp 200 body)
    /\ storedLines (User.id Sample.alice) Sample.db
       = [Cart.mkItem Sample.sandalId (Fin 8) "9" 45]
    /\ storedLines (User.id Sample.alice) db' = [].
Proof.
  by_running. split; [reflexivity|].
  destruct (removeItemFromCart_removes_the_line (H := Node.platform)
              _ _ _ _ _ _ Hrun) as (i & cart' & Hi & _ & Hlines & _).
  destruct i as [|[|i]]; try discriminate Hi.
  exact Hlines.
Defined.

(** The line of eight pairs of sandals set to two pairs. *)
Lemma updateItemInCart_sets_the_line_witness :
  exists db' body,
    CartHandlers.updateItemInCart [Scene.lineId] (JStr Scene.lineId) (JStr "2")
      Sample.alice Sample.db
    = (db', mkCartResp 200 body)
    /\ exists i q,
         Js.parseInt (JStr "2") = Some (Fin q) /\ 0 <= q <= 10
         /\ (exists x, nth_error [Scene.lineId] i = Some x).
Proof.
  by_running.
  destruct (updateItemInCart_sets_the_line (H := Node.platform)
              _ _ _ _ _ _ _ Hrun) as (i & q & (x & Hx & _) & Hparse & Hq & _).
  exists i, q. split; [exact Hparse|]. split; [exact Hq|].
  exists x. exact Hx.
Defined.

(** The cart of [Sample.alice] cleared, and cleared again. *)
Lemma clearCart_empties_and_repeats_witness :
  Store.findCart (User.id Sample.alice) (Db.carts Sample.db) = Some Sample.cart
  /\ CartHandlers.clearCart Sample.alice
       (fst (CartHandlers.clearCart Sample.alice Sample.db))
     = CartHandlers.clearCart Sample.alice Sample.db.
Proof.
  split; [reflexivity|].
  exact (proj2 (proj2 (clearCart_empties_and_repeats
                         Sample.alice Sample.db Sample.cart eq_refl))).
Defined.

(** The two orders created after 22:20: one shipped, one cancelled. *)
Lemma getOrderStats_figures_agree_witness :
  exists stats totalOrders totalRevenue,
    OrderQueries.getOrderStats Scene.createdAt Scene.parseDate
      (Some "2023-11-14T22:20:00.000Z") None Scene.db
    = mkQuery 200 (QueryStats stats totalOrders totalRevenue)
    /\ totalOrders = 2
    /\ groupCounts stats = totalOrders
    /\ (revenueOutsideCancelled stats == totalRevenue)%Q.
Proof.
  by_running. split; [reflexivity|].
  destruct (getOrderStats_figures_agree _ _ _ _ _ _ _ _ Hrun)
    as (Hcounts & Hrevenue & _).
  exact (conj Hcounts Hrevenue).
Defined.

(** [Scene.bob] asks for the order of [Sample.alice], and for his own. *)
Lemma getOrderById_owner_or_admin_witness :
  OrderQueries.getOrderById Scene.userExists Sample.orderId Scene.bob Scene.db
  = mkResp 403 (Message "Access denied")
  /\ exists order,
       OrderQueries.getOrderById Scene.userExists Scene.shippedId Scene.bob Scene.db
       = mkResp 200 (OrderDoc order)
       /\ Order.user_id order = User.id Scene.bob.
Proof.
  split.
  - refine (proj2 (getOrderById_owner_or_admin (H := Node.platform)
                     Scene.userExists Sample.orderId Scene.bob Scene.db)
              (Sample.orderIn Pending) eq_refl eq_refl _ _ eq_refl);
      vm_compute; discriminate.
  - by_running.
    destruct (proj1 (getOrderById_owner_or_admin (H := Node.platform)
                       Scene.userExists Scene.shippedId Scene.bob Scene.db)
                _ Hrun) as (order & Hbody & _ & _ & [Hadmin|Howner]).
    + vm_compute in Hadmin. discriminate Hadmin.
    + injection Hbody as <-. exact Howner.
Defined.

(** The two orders of [Sample.alice], the cancelled one first. *)
Lemma getUserOrders_lists_own_orders_witness :
  exists listing,
    OrderQueries.getUserOrders Scene.createdAt Sample.alice Scene.db
    = mkQuery 200 (QueryOrders listing)
    /\ listing = [Scene.cancelled; Sample.orderIn Pending]
    /\ ~ In Scene.shipped listing.
Proof.
  by_running. split; [reflexivity|].
  destruct (getUserOrders_lists_own_orders (H := Node.platform) _ _ _ _ Hrun)
    as (Hown & _).
  intros Hin. apply Hown in Hin. destruct Hin as [_ Hin].
  vm_compute in Hin. discriminate Hin.
Defined.

(** [Scene.bob] asks for the pending order to be cancelled. *)
Lemma putOrderStatus_needs_admin_witness :
  Routes.putOrderStatus Scene.bob Sample.orderId (JStr "Cancelled") Scene.db
  = (Scene.db, mkResp 403 (Message "Forbidden - Admin access required"))
  /\ fst (Routes.putOrderStatus Sample.admin Sample.orderId (JStr "Cancelled")
            Scene.db) <> Scene.db.
Proof.
  split.
  - apply (putOrderStatus_needs_admin (H := Node.platform)).
    vm_compute. discriminate.
  - intros Hsame. vm_compute in Hsame. discriminate Hsame.
Defined.

(** The stock of the runner set to 12. *)
Lemma updateProductQuantity_sets_stock_witness :
  exists db' body,
    Routes.updateProductQuantity [("productId", JStr Sample.runnerId)]
      [("quantity", JNum 12)] Sample.db
    = (db', mkProductResp 200 body)
    /\ stock Sample.runnerId Sample.db = Some 5
    /\ stock Sample.runnerId db' = Some 12
    /\ stock Sample.sandalId db' = Some 20.
Proof.
  by_running. split; [reflexivity|].
  destruct (updateProductQuantity_sets_stock (H := Node.platform) _ _ _ _ _ Hrun)
    as (z & old & product & _ & Hz & _ & _ & _ & Hnew & Hproduct & Hother & _).
  injection Hz as <-. unfold stock. split.
  - change (ObjectId_hex _) with Sample.runnerId in Hnew.
    rewrite Hnew, Hproduct. reflexivity.
  - rewrite Hother; [reflexivity|]. vm_compute. discriminate.
Defined.

(** The same request through the route. *)
Lemma putProductQuantity_never_sets_stock_witness :
  ObjectId_isValid JUndefined = false
  /\ Routes.putProductQuantity Sample.admin Sample.runnerId
       [("quantity", JNum 12)] Sample.db
     = (Sample.db, mkProductResp 400 (ProductMessage "Invalid product ID format")).
Proof.
  split; [reflexivity|].
  apply (putProductQuantity_never_sets_stock (H := Node.platform));
    reflexivity.
Defined.

(** One pair of laces: the tax stays in the total. *)
Lemma createOrder_amounts_witness :
  exists db' o,
    createOrder Sample.env Sample.onePairOfLaces Sample.db
    = (db', mkResp 201 (OrderDoc o))
    /\ Order.subtotal o = 1 # 10
    /\ Order.total_amount o
       = (if Qle_bool (Order.subtotal o) (1 # 8)
          then Order.subtotal o + 10 + Order.subtotal o * (8 # 100)
          else Order.subtotal o + Order.shipping o)%Q.
Proof.
  by_running. split; [reflexivity|].
  exact (proj2 (proj2 (proj2 (createOrder_amounts (H := Node.platform)
                                _ _ _ _ _ Hrun)))).
Defined.

Section PlacedOrderIsFound.
Context `{Platform}.

Import OrderQueries.

Variable createdAt : Order.t -> Z.
Variable userExists : string -> bool.

(** X24. An order that has just been placed is found again: asked for by
    its identifier, it is shown to the user who placed it and refused with
    403 to another user who is no administrator; and it is in the listing
    of the orders of the user who placed it. *)
Theorem place_then_fetch env req db db' o other :
  createOrder env req db = (db', mkResp 201 (OrderDoc o)) ->
  ObjectId_isValid (JStr (fresh_id env)) = true ->
  ObjectId_hex (JStr (fresh_id env)) = fresh_id env ->
  ObjectId_isValid (JStr (User.id (req_user req))) = true ->
  ObjectId_hex (JStr (User.id (req_user req))) = User.id (req_user req) ->
  userExists (User.id (req_user req)) = true ->
  getOrderById userExists (fresh_id env) (req_user req) db'
  = mkResp 200 (OrderDoc o)
  /\ (User.role other <> "admin" ->
      User.id other <> User.id (req_user req) ->
      getOrderById userExists (fresh_id env) other db'
      = mkResp 403 (Message "Access denied"))
  /\ exists listing,
       getUserOrders createdAt (req_user req) db'
       = mkQuery 200 (QueryOrders listing)
       /\ In o listing.
Proof.
  intros Hrun Hvalid Hhex Huvalid Huhex Hexists.
  destruct (createOrder_stores_pending_order_facts _ _ _ _ _ Hrun)
    as (_ & _ & Huser & _ & Hfind).
  specialize (Hfind (fresh_id env)). rewrite String.eqb_refl in Hfind.
  repeat apply conj.
  - unfold getOrderById. rewrite Hvalid, Hhex, Hfind, Huser, Hexists.
    rewrite String.eqb_refl. cbn [negb].
    destruct (String.eqb (User.role (req_user req)) "admin"); reflexivity.
  - intros Hrole Hother. unfold getOrderById.
    rewrite Hvalid, Hhex, Hfind, Huser, Hexists. cbn [negb].
    apply String.eqb_neq in Hrole. rewrite Hrole.
    assert (Hne : String.eqb (User.id (req_user req)) (User.id other) = false).
    { apply String.eqb_neq. congruence. }
    rewrite Hne. reflexivity.
  - unfold getUserOrders. rewrite Huvalid, Huhex. cbn [negb].
    eexists. split; [reflexivity|].
    apply (Permutation_in o (Permutation_sym (sortLatestFirst_perm createdAt _))).
    apply filter_In. split.
    + unfold Store.findOrder in Hfind. apply find_some in Hfind. tauto.
    + rewrite Huser. apply String.eqb_refl.
Qed.

End PlacedOrderIsFound.

(** Three pairs of the runner placed by [Sample.alice], then asked for by
    her and by [Scene.bob]. *)
Lemma place_then_fetch_witness :
  exists db' o,
    createOrder Sample.env (Sample.threeRunners JUndefined) Sample.db
    = (db', mkResp 201 (OrderDoc o))
    /\ OrderQueries.getOrderById Scene.userExists Sample.orderId Sample.alice db'
       = mkResp 200 (OrderDoc o)
    /\ OrderQueries.getOrderById Scene.userExists Sample.orderId Scene.bob db'
       = mkResp 403 (Message "Access denied").
Proof.
  by_running.
  destruct (place_then_fetch (H := Node.platform) Scene.createdAt
              Scene.userExists _ _ _ _ _ Scene.bob Hrun
              eq_refl eq_refl eq_refl eq_refl eq_refl)
    as (Hown & Hother & _).
  split; [exact Hown|].
  apply Hother; vm_compute; discriminate.
Defined.
